(** * College management backend: a shallow embedding of the route handlers

    The development follows the layout of the repository.  Every Mongo
    collection is a list of documents, every route handler is a function from
    the authenticated principal, the request and the store to a response and a
    new store.  Randomness and the clock are passed in explicitly. *)

From Stdlib Require Import ZArith QArith Qround Qpower Qreduction Qabs.
From Stdlib Require Import List String Ascii Bool Lia Arith.
From Stdlib Require Import DecimalString Sorted Permutation.
From Stdlib Require Qcanon.
Import ListNotations.

Set Implicit Arguments.
Close Scope Q_scope.
Open Scope string_scope.
Open Scope list_scope.

(* ------------------------------------------------------------------ *)
(** ** JavaScript numbers and strings

    A finite number is the rational it denotes; the three non-finite values
    of IEEE arithmetic are explicit, because the aggregation code can produce
    them.  Every arithmetic operator rounds its exact result to the nearest
    binary64 value, ties to even ([fl53]).  The exponent range is not
    bounded, so overflow to an infinity and gradual underflow are outside the
    model, and so is the sign of zero.

    Strings are sequences of ASCII characters: [trim], [toLowerCase],
    [toUpperCase] and [length] agree with JavaScript on ASCII text, and input
    outside that range is outside the model. *)

Module JS.

Local Open Scope Q_scope.

Inductive number : Type :=
| Fin (q : Q)
| PosInf
| NegInf
| NaN.

(** *** Rounding to binary64 *)

Definition pow2 (k : Z) : Q := 2 ^ k.

(** The nearest integer, a tie going to the even neighbour. *)
Definition rne (q : Q) : Z :=
  let f := Qfloor q in
  match Qcompare (q - inject_Z f) (1 # 2) with
  | Lt => f
  | Gt => (f + 1)%Z
  | Eq => if Z.even f then f else (f + 1)%Z
  end.

(** The binary exponent of a positive rational: [2 ^ k <= q < 2 ^ (k + 1)]. *)
Definition ilog2 (q : Q) : Z :=
  let k := (Z.log2 (Qnum q) - Z.log2 (Zpos (Qden q)))%Z in
  if Qle_bool (pow2 k) q then k else (k - 1)%Z.

(** A positive rational rounded to 53 significant bits. *)
Definition fl53_pos (q : Q) : Q :=
  let e := (ilog2 q - 52)%Z in
  Qred (inject_Z (rne (q / pow2 e)) * pow2 e).

Definition fl53 (q : Q) : Q :=
  match Qcompare q 0 with
  | Eq => 0
  | Gt => fl53_pos q
  | Lt => Qred (- fl53_pos (- q))
  end.

(** An integer that a Number holds exactly: an array length, a count, a
    literal, a time value. *)
Definition of_Z (z : Z) : number := Fin (inject_Z z).
Definition of_nat (n : nat) : number := of_Z (Z.of_nat n).

Definition is_zero (q : Q) : bool := Qeq_bool q 0.
Definition is_neg (q : Q) : bool := negb (Qle_bool 0 q).

(** [a / b] *)
Definition div (a b : number) : number :=
  match a, b with
  | NaN, _ => NaN
  | _, NaN => NaN
  | Fin x, Fin y =>
      if is_zero y then
        if is_zero x then NaN else if is_neg x then NegInf else PosInf
      else Fin (fl53 (x / y))
  | Fin _, PosInf => Fin 0
  | Fin _, NegInf => Fin 0
  | PosInf, Fin y => if is_neg y then NegInf else PosInf
  | NegInf, Fin y => if is_neg y then PosInf else NegInf
  | _, _ => NaN
  end.

(** [a * b] *)
Definition mul (a b : number) : number :=
  match a, b with
  | NaN, _ => NaN
  | _, NaN => NaN
  | Fin x, Fin y => Fin (fl53 (x * y))
  | Fin x, PosInf => if is_zero x then NaN else if is_neg x then NegInf else PosInf
  | Fin x, NegInf => if is_zero x then NaN else if is_neg x then PosInf else NegInf
  | PosInf, Fin y => if is_zero y then NaN else if is_neg y then NegInf else PosInf
  | NegInf, Fin y => if is_zero y then NaN else if is_neg y then PosInf else NegInf
  | PosInf, PosInf => PosInf
  | NegInf, NegInf => PosInf
  | _, _ => NegInf
  end.

(** [a + b] *)
Definition add (a b : number) : number :=
  match a, b with
  | NaN, _ => NaN
  | _, NaN => NaN
  | Fin x, Fin y => Fin (fl53 (x + y))
  | PosInf, NegInf => NaN
  | NegInf, PosInf => NaN
  | PosInf, _ => PosInf
  | _, PosInf => PosInf
  | _, _ => NegInf
  end.

(** [a - b] *)
Definition sub (a b : number) : number :=
  match a, b with
  | NaN, _ => NaN
  | _, NaN => NaN
  | Fin x, Fin y => Fin (fl53 (x - y))
  | PosInf, PosInf => NaN
  | NegInf, NegInf => NaN
  | PosInf, _ => PosInf
  | _, NegInf => PosInf
  | _, _ => NegInf
  end.

(** [Math.abs] *)
Definition abs (a : number) : number :=
  match a with
  | Fin x => Fin (Qabs x)
  | NaN => NaN
  | _ => PosInf
  end.

(** [Math.round]: the nearest integer, halves going up. *)
Definition round (a : number) : number :=
  match a with
  | Fin x => of_Z (Qfloor (x + (1 # 2)))
  | other => other
  end.

(** [Math.ceil] *)
Definition ceil (a : number) : number :=
  match a with
  | Fin x => of_Z (Qceiling x)
  | other => other
  end.

(** [a >= b]; any comparison with NaN is false. *)
Definition ge (a b : number) : bool :=
  match a, b with
  | NaN, _ => false
  | _, NaN => false
  | Fin x, Fin y => Qle_bool y x
  | PosInf, _ => true
  | _, NegInf => true
  | _, _ => false
  end.

(** Truthiness of a number: [0] and [NaN] are falsy. *)
Definition truthy (a : number) : bool :=
  match a with
  | Fin x => negb (is_zero x)
  | NaN => false
  | _ => true
  end.

(** A value that may be [null] or [undefined]. *)
Definition nullable : Type := option number.

(** [ToNumber] as the arithmetic operators apply it ([null] becomes 0). *)
Definition to_number (v : nullable) : number :=
  match v with
  | Some n => n
  | None => Fin 0
  end.

(** [v || d] on a nullable number. *)
Definition or_default (v : nullable) (d : number) : number :=
  match v with
  | Some n => if truthy n then n else d
  | None => d
  end.

(** [n || d] on a number. *)
Definition num_or (n d : number) : number := if truthy n then n else d.

(** Truthiness of a string: only the empty string is falsy. *)
Definition truthy_string (s : string) : bool :=
  match s with
  | EmptyString => false
  | _ => true
  end.

(** Truthiness of an optional query-string parameter. *)
Definition truthy_param (p : option string) : bool :=
  match p with
  | Some s => truthy_string s
  | None => false
  end.

(** [String.prototype.trim] on the white space of the ASCII range. *)
Definition is_space (c : ascii) : bool :=
  match nat_of_ascii c with
  | 9 | 10 | 11 | 12 | 13 | 32 => true
  | _ => false
  end%nat.

Fixpoint ltrim (s : string) : string :=
  match s with
  | EmptyString => EmptyString
  | String c t => if is_space c then ltrim t else s
  end.

Definition rev_string (s : string) : string :=
  string_of_list_ascii (rev (list_ascii_of_string s)).

Definition trim (s : string) : string :=
  rev_string (ltrim (rev_string (ltrim s))).

(** [String.prototype.toUpperCase] on the ASCII letters. *)
Definition upper_ascii (c : ascii) : ascii :=
  let n := nat_of_ascii c in
  if (97 <=? n)%nat && (n <=? 122)%nat then ascii_of_nat (n - 32) else c.

Fixpoint toUpperCase (s : string) : string :=
  match s with
  | EmptyString => EmptyString
  | String c t => String (upper_ascii c) (toUpperCase t)
  end.


End JS.

(* ------------------------------------------------------------------ *)
(** ** Data model (models/*.js) *)

Definition ObjectId : Type := nat.
Definition Date : Type := Z.          (* milliseconds since the epoch *)

Inductive Role : Type := student | trainer | faculty | admin | superadmin.

Definition role_eqb (a b : Role) : bool :=
  match a, b with
  | student, student | trainer, trainer | faculty, faculty
  | admin, admin | superadmin, superadmin => true
  | _, _ => false
  end.

Definition role_name (r : Role) : string :=
  match r with
  | student => "student"
  | trainer => "trainer"
  | faculty => "faculty"
  | admin => "admin"
  | superadmin => "superadmin"
  end.

Record User : Type := mkUser {
  user_id : ObjectId;
  username : string;
  email : string;
  firstName : string;
  lastName : string;
  role : Role;
  isActive : bool;
  rollNumber : option string;              (* the path [rollNumber] *)
  studentInfo_rollNumber : option string;  (* the path [studentInfo.rollNumber] *)
  createdAt : Date
}.

Record Student : Type := mkStudent {
  student_id : ObjectId;
  student_user : ObjectId;
  student_rollNumber : string;
  assignedFaculty : option ObjectId;
  student_batch : option ObjectId
}.

Record Batch : Type := mkBatch {
  batch_id : ObjectId;
  batch_name : string;
  batch_description : string;
  batch_code : string;
  startDate : Date;
  endDate : Date;
  trainers : list ObjectId;
  batch_students : list ObjectId;
  batch_createdBy : ObjectId;
  maxStudents : Z
}.

Record Enrollment : Type := mkEnrollment {
  enr_student : ObjectId;
  progress : option Q;
  lastAccessed : option Date
}.

Record Course : Type := mkCourse {
  course_id : ObjectId;
  course_title : string;
  instructor : option ObjectId;
  instructors : list ObjectId;
  course_faculty : option ObjectId;
  batchId : option ObjectId;
  course_students : list Enrollment
}.

Inductive SubmissionStatus : Type := sub_submitted | sub_graded | sub_late.

Record Submission : Type := mkSubmission {
  sub_id : ObjectId;
  sub_student : ObjectId;
  submittedAt : option Date;
  sub_status : SubmissionStatus;
  grade : option Q;
  feedback : option string
}.

Record Assignment : Type := mkAssignment {
  assignment_id : ObjectId;
  assignment_title : string;
  assignment_course : ObjectId;
  dueDate : Date;
  submissions : list Submission
}.

Inductive AttendanceStatus : Type := present | absent | late | excused.

Record Attendance : Type := mkAttendance {
  att_student : ObjectId;
  att_course : ObjectId;
  att_date : Date;
  att_status : AttendanceStatus
}.

Inductive ReportStatus : Type :=
  draft | submitted | reviewed | approved | rejected | needs_revision.

Definition status_eqb (a b : ReportStatus) : bool :=
  match a, b with
  | draft, draft | submitted, submitted | reviewed, reviewed
  | approved, approved | rejected, rejected
  | needs_revision, needs_revision => true
  | _, _ => false
  end.

Record StatusEntry : Type := mkStatusEntry {
  se_status : ReportStatus;
  changedBy : ObjectId;
  changedAt : Date;
  se_comment : option string
}.

Record Comment : Type := mkComment {
  comment_user : ObjectId;
  comment_text : string;
  comment_createdAt : Date;
  comment_updatedAt : option Date
}.

Record Report : Type := mkReport {
  report_id : ObjectId;
  report_student : ObjectId;           (* a Student document *)
  report_createdBy : ObjectId;
  report_status : ReportStatus;
  report_updatedAt : option Date;
  statusHistory : list StatusEntry;
  comments : list Comment
}.

(** The document store. *)
Record Store : Type := mkStore {
  users : list User;
  students : list Student;
  batches : list Batch;
  courses : list Course;
  assignments : list Assignment;
  attendances : list Attendance;
  reports : list Report
}.

Definition set_users (v : list User) (s : Store) : Store :=
  mkStore v (students s) (batches s) (courses s) (assignments s)
          (attendances s) (reports s).
Definition set_students (v : list Student) (s : Store) : Store :=
  mkStore (users s) v (batches s) (courses s) (assignments s)
          (attendances s) (reports s).
Definition set_batches (v : list Batch) (s : Store) : Store :=
  mkStore (users s) (students s) v (courses s) (assignments s)
          (attendances s) (reports s).
Definition set_courses (v : list Course) (s : Store) : Store :=
  mkStore (users s) (students s) (batches s) v (assignments s)
          (attendances s) (reports s).
Definition set_assignments (v : list Assignment) (s : Store) : Store :=
  mkStore (users s) (students s) (batches s) (courses s) v
          (attendances s) (reports s).
Definition set_attendances (v : list Attendance) (s : Store) : Store :=
  mkStore (users s) (students s) (batches s) (courses s) (assignments s)
          v (reports s).
Definition set_reports (v : list Report) (s : Store) : Store :=
  mkStore (users s) (students s) (batches s) (courses s) (assignments s)
          (attendances s) v.

(** The verified principal the authentication middleware attaches as
    [req.user]. *)
Record Principal : Type := mkPrincipal {
  principal_id : ObjectId;
  principal_role : Role
}.

(** A path parameter that names a document ([req.params.userId]), as a
    handler observes it.  It is a string: the handlers compare it with
    [id.toString()], the 24 lower-case hexadecimal digits of an id, and hand
    it to Mongoose queries, which cast it to an ObjectId.  A string that is
    the rendering of an id is [Canonical]; any other string that casts to
    the id (the same digits with upper-case letters) is [Respelled]; a string
    that is no ObjectId makes the query throw a CastError. *)
Inductive PathId : Type :=
| Canonical (id : ObjectId)
| Respelled (id : ObjectId)
| Malformed.

(** The cast a query applies to the parameter. *)
Definition castObjectId (x : PathId) : option ObjectId :=
  match x with
  | Canonical id => Some id
  | Respelled id => Some id
  | Malformed => None
  end.

(** [x === id.toString()] *)
Definition is_rendering (x : PathId) (id : ObjectId) : bool :=
  match x with
  | Canonical i => Nat.eqb i id
  | _ => false
  end.

(** What a handler sends back: a status code with either a payload or an
    error message. *)
Inductive Response (A : Type) : Type :=
| Success (code : nat) (payload : A)
| Failure (code : nat) (message : string).

Arguments Failure {A} code message.


Definition is_success {A} (r : Response A) : bool :=
  match r with
  | Success _ _ => true
  | Failure _ _ => false
  end.


(* ------------------------------------------------------------------ *)
(** ** Query helpers shared by the handlers *)

Module Mongo.

Definition mem (x : ObjectId) (l : list ObjectId) : bool :=
  existsb (Nat.eqb x) l.

(** [$pull] of a scalar from an array field. *)
Definition pull (x : ObjectId) (l : list ObjectId) : list ObjectId :=
  filter (fun y => negb (Nat.eqb y x)) l.

(** [$addToSet] *)
Definition addToSet (x : ObjectId) (l : list ObjectId) : list ObjectId :=
  if mem x l then l else l ++ [x].

Definition opt_eqb (o : option ObjectId) (x : ObjectId) : bool :=
  match o with
  | Some y => Nat.eqb y x
  | None => false
  end.

(** Insertion of one element into a list ordered by [le]; [sort_by] is the
    stable sort it induces. *)
Fixpoint insert_by {A} (le : A -> A -> bool) (x : A) (l : list A) : list A :=
  match l with
  | [] => [x]
  | y :: t => if le x y then x :: l else y :: insert_by le x t
  end.

Definition sort_by {A} (le : A -> A -> bool) (l : list A) : list A :=
  fold_right (insert_by le) [] l.

(** [.limit(n)] and [.skip(n)] *)
Definition limit {A} (n : nat) (l : list A) : list A := firstn n l.
Definition skip {A} (n : nat) (l : list A) : list A := skipn n l.

End Mongo.

(* ------------------------------------------------------------------ *)
(** ** models/Batch.js *)

Module BatchModel.

(** [1000 * 60 * 60 * 24 * 7] *)
Definition MS_PER_WEEK : Z := 1000 * 60 * 60 * 24 * 7.

(** The [endDate] validator: [return endDate > this.startDate]. *)
Definition endDate_validator (b : Batch) : bool :=
  (startDate b <? endDate b)%Z.

(** The virtual [durationWeeks]:
    [const diffTime = Math.abs(this.endDate - this.startDate);
     return Math.ceil(diffTime / (1000 * 60 * 60 * 24 * 7));]
    The subtraction converts each date to its time value. *)
Definition durationWeeks (b : Batch) : JS.number :=
  let diffTime :=
    JS.abs (JS.sub (JS.of_Z (endDate b)) (JS.of_Z (startDate b))) in
  JS.ceil (JS.div diffTime (JS.of_Z MS_PER_WEEK)).

(** The setters of the schema, which run when the document is built:
    [name: { trim: true }] and [code: { uppercase: true, trim: true }]. *)
Definition applySetters (b : Batch) : Batch :=
  mkBatch (batch_id b) (JS.trim (batch_name b)) (batch_description b)
          (JS.toUpperCase (JS.trim (batch_code b)))
          (startDate b) (endDate b) (trainers b) (batch_students b)
          (batch_createdBy b) (maxStudents b).

Inductive ValidationError : Type :=
| Required (path : string)
| MinViolated (path : string)
| ValidatorFailed (path : string) (message : string).

Definition required_string (path : string) (v : string) : list ValidationError :=
  if JS.truthy_string v then [] else [Required path].

(** Schema validation as [save] runs it, path by path. *)
Definition validate (b : Batch) : list ValidationError :=
  required_string "name" (batch_name b)
  ++ required_string "description" (batch_description b)
  ++ required_string "code" (batch_code b)
  ++ (if endDate_validator b then []
      else [ValidatorFailed "endDate" "End date must be after start date"])
  ++ (if (1 <=? maxStudents b)%Z then [] else [MinViolated "maxStudents"]).

Inductive SaveError : Type :=
| ValidationFailed (errors : list ValidationError)
| DuplicateKey (path : string).

(** Creation of a batch from the given field values: the setters, then
    validation, then the unique index on [code]. *)
Definition create (b : Batch) (s : Store) : SaveError + Store :=
  let doc := applySetters b in
  match validate doc with
  | [] =>
      if existsb (fun b' => String.eqb (batch_code b') (batch_code doc))
                 (batches s)
      then inl (DuplicateKey "code")
      else inr (set_batches (batches s ++ [doc]) s)
  | errs => inl (ValidationFailed errs)
  end.

(** The document built from [b] is in the collection after the attempt. *)
Definition persisted (b : Batch) (r : SaveError + Store) : Prop :=
  match r with
  | inr s' => In (applySetters b) (batches s')
  | inl _ => False
  end.

End BatchModel.

(* ------------------------------------------------------------------ *)
(** ** Transactions

    [startSession] / [startTransaction]: a handler that passes [{ session }]
    to its queries reads and writes a working copy; [abortTransaction]
    discards the copy and [commitTransaction] publishes it. *)

Module Transaction.

Record Session : Type := mkSession {
  committed : Store;     (* the store as it was when the transaction began *)
  working : Store        (* what the queries of the session see and write *)
}.

Definition start (s : Store) : Session := mkSession s s.

(** A write made with [{ session }]. *)
Definition write (f : Store -> Store) (t : Session) : Session :=
  mkSession (committed t) (f (working t)).

Definition abort (t : Session) : Store := committed t.
Definition commit (t : Session) : Store := working t.

End Transaction.

(* ------------------------------------------------------------------ *)
(** ** Cascading user deletion

    Three handlers delete a user document.  Each runs its role check first;
    the two transactional ones abort (leaving the store as it was) on every
    early return. *)

Definition role_title (r : Role) : string :=
  match r with
  | student => "Student"
  | trainer => "Trainer"
  | faculty => "Faculty"
  | admin => "Admin"
  | superadmin => "Superadmin"
  end.

Definition findUserById (uid : ObjectId) (s : Store) : option User :=
  find (fun u => Nat.eqb (user_id u) uid) (users s).

(** Removal of the first document that satisfies [p]
    ([deleteOne], [findOneAndDelete], [findByIdAndDelete]). *)
Fixpoint delete_first {A} (p : A -> bool) (l : list A) : list A :=
  match l with
  | [] => []
  | x :: t => if p x then t else x :: delete_first p t
  end.

(** [deleteMany] *)
Definition delete_all {A} (p : A -> bool) (l : list A) : list A :=
  filter (fun x => negb (p x)) l.

(** An update of the first document that satisfies [p]
    (a sub-document found by [.id()], a document written back by [save]). *)
Fixpoint update_first {A} (p : A -> bool) (f : A -> A) (l : list A) : list A :=
  match l with
  | [] => []
  | x :: t => if p x then f x :: t else x :: update_first p f t
  end.

(** [updateMany(filter, update)] *)
Definition update_many {A} (p : A -> bool) (f : A -> A) (l : list A) : list A :=
  map (fun x => if p x then f x else x) l.

Definition set_batch_students (v : list ObjectId) (b : Batch) : Batch :=
  mkBatch (batch_id b) (batch_name b) (batch_description b) (batch_code b)
          (startDate b) (endDate b) (trainers b) v (batch_createdBy b)
          (maxStudents b).
Definition set_trainers (v : list ObjectId) (b : Batch) : Batch :=
  mkBatch (batch_id b) (batch_name b) (batch_description b) (batch_code b)
          (startDate b) (endDate b) v (batch_students b) (batch_createdBy b)
          (maxStudents b).
Definition set_batch_createdBy (v : ObjectId) (b : Batch) : Batch :=
  mkBatch (batch_id b) (batch_name b) (batch_description b) (batch_code b)
          (startDate b) (endDate b) (trainers b) (batch_students b) v
          (maxStudents b).
Definition set_instructor (v : option ObjectId) (c : Course) : Course :=
  mkCourse (course_id c) (course_title c) v (instructors c) (course_faculty c)
           (batchId c) (course_students c).
Definition set_instructors (v : list ObjectId) (c : Course) : Course :=
  mkCourse (course_id c) (course_title c) (instructor c) v (course_faculty c)
           (batchId c) (course_students c).
Definition set_course_faculty (v : option ObjectId) (c : Course) : Course :=
  mkCourse (course_id c) (course_title c) (instructor c) (instructors c) v
           (batchId c) (course_students c).
Definition set_course_students (v : list Enrollment) (c : Course) : Course :=
  mkCourse (course_id c) (course_title c) (instructor c) (instructors c)
           (course_faculty c) (batchId c) v.
Definition set_submissions (v : list Submission) (a : Assignment) : Assignment :=
  mkAssignment (assignment_id a) (assignment_title a) (assignment_course a)
               (dueDate a) v.
Definition set_assignedFaculty (v : option ObjectId) (st : Student) : Student :=
  mkStudent (student_id st) (student_user st) (student_rollNumber st) v
            (student_batch st).

Definition enrolled (uid : ObjectId) (c : Course) : bool :=
  existsb (fun e => Nat.eqb (enr_student e) uid) (course_students c).
Definition has_submission (uid : ObjectId) (a : Assignment) : bool :=
  existsb (fun sb => Nat.eqb (sub_student sb) uid) (submissions a).

(** routes/adminUserManagement.js, [DELETE /api/admin/users/:userId] *)
Module AdminUserManagement_delete.

Definition role_cleanup (user : User) (s : Store) : Store :=
  let uid := user_id user in
  match role user with
  | student =>
      let s1 :=
        set_batches
          (update_many (fun b => Mongo.mem uid (batch_students b))
             (fun b => set_batch_students (Mongo.pull uid (batch_students b)) b)
             (batches s)) s in
      set_students
        (delete_first (fun st => Nat.eqb (student_user st) uid) (students s1)) s1
  | trainer =>
      let s1 :=
        set_batches
          (update_many (fun b => Mongo.mem uid (trainers b))
             (fun b => set_trainers (Mongo.pull uid (trainers b)) b)
             (batches s)) s in
      set_courses
        (update_many (fun c => Mongo.mem uid (instructors c))
           (fun c => set_instructors (Mongo.pull uid (instructors c)) c)
           (courses s1)) s1
  | faculty =>
      set_courses
        (update_many (fun c => Mongo.opt_eqb (course_faculty c) uid)
           (set_course_faculty None) (courses s)) s
  | _ => s
  end.

(** The handler on the raw path parameter.  The self check compares
    strings; [findById] and [findByIdAndDelete] cast the parameter, and a
    CastError is caught by the handler's [catch]. *)
Definition deleteUserRoute (p : Principal) (userId : PathId) (s : Store)
  : Response string * Store :=
  if negb (role_eqb (principal_role p) superadmin) then
    (Failure 403 "Only super admin can delete users", s)
  else if is_rendering userId (principal_id p) then
    (Failure 400 "You cannot delete your own account", s)
  else
    match castObjectId userId with
    | None => (Failure 500 "Error deleting user", s)
    | Some uid =>
        match findUserById uid s with
        | None => (Failure 404 "User not found", s)
        | Some user =>
            if role_eqb (role user) superadmin then
              (Failure 403 "Cannot delete superadmin accounts", s)
            else
              let s1 := role_cleanup user s in
              let s2 :=
                set_users
                  (delete_first (fun u => Nat.eqb (user_id u) uid) (users s1))
                  s1 in
              (Success 200
                 (role_title (role user) ++ " deleted successfully")%string,
               s2)
        end
    end.

(** The handler on a request whose path parameter is the rendering of
    [userId]. *)
Definition deleteUser (p : Principal) (userId : ObjectId) (s : Store)
  : Response string * Store :=
  deleteUserRoute p (Canonical userId) s.

End AdminUserManagement_delete.

(** routes/superAdminDashboard.js, [DELETE /api/super-admin/users/:userId] *)
Module SuperAdminDashboard_delete.

Definition role_cleanup (actor : Principal) (user : User) (s : Store) : Store :=
  let uid := user_id user in
  match role user with
  | admin =>
      set_batches
        (update_many (fun b => Nat.eqb (batch_createdBy b) uid)
           (set_batch_createdBy (principal_id actor)) (batches s)) s
  | trainer =>
      let s1 :=
        set_batches
          (update_many (fun b => Mongo.mem uid (trainers b))
             (fun b => set_trainers (Mongo.pull uid (trainers b)) b)
             (batches s)) s in
      set_courses
        (update_many (fun c => Mongo.opt_eqb (instructor c) uid)
           (set_instructor None) (courses s1)) s1
  | faculty =>
      set_students
        (update_many (fun st => Mongo.opt_eqb (assignedFaculty st) uid)
           (set_assignedFaculty None) (students s)) s
  | student =>
      let s1 :=
        set_courses
          (update_many (enrolled uid)
             (fun c =>
                set_course_students
                  (filter (fun e => negb (Nat.eqb (enr_student e) uid))
                     (course_students c)) c)
             (courses s)) s in
      let s2 :=
        set_assignments
          (update_many (has_submission uid)
             (fun a =>
                set_submissions
                  (filter (fun sb => negb (Nat.eqb (sub_student sb) uid))
                     (submissions a)) a)
             (assignments s1)) s1 in
      let s3 :=
        set_attendances
          (delete_all (fun at_ => Nat.eqb (att_student at_) uid) (attendances s2))
          s2 in
      set_students
        (delete_first (fun st => Nat.eqb (student_user st) uid) (students s3)) s3
  | superadmin => s
  end.

(** The handler on the raw path parameter.  The self check compares
    strings; [findById] and [findByIdAndDelete] cast the parameter, and a
    CastError is caught by the handler's [catch]. *)
Definition deleteUserRoute (p : Principal) (userId : PathId) (s : Store)
  : Response string * Store :=
  if negb (role_eqb (principal_role p) superadmin) then
    (Failure 403 "Not authorized to delete users", s)
  else if is_rendering userId (principal_id p) then
    (Failure 400 "Cannot delete your own account", s)
  else
    match castObjectId userId with
    | None => (Failure 500 "Error deleting user", s)
    | Some uid =>
        match findUserById uid s with
        | None => (Failure 404 "User not found", s)
        | Some user =>
            let s1 := role_cleanup p user s in
            let s2 :=
              set_users
                (delete_first (fun u => Nat.eqb (user_id u) uid) (users s1))
                s1 in
            (Success 200
               (role_title (role user) ++ " deleted successfully")%string,
             s2)
        end
    end.

(** The handler on a request whose path parameter is the rendering of
    [userId]. *)
Definition deleteUser (p : Principal) (userId : ObjectId) (s : Store)
  : Response string * Store :=
  deleteUserRoute p (Canonical userId) s.

End SuperAdminDashboard_delete.

(** routes/student.js (the student router), [DELETE /api/student/:studentId] *)
Module StudentRoutes_delete.

(** The handler on a path parameter that casts to [studentId]; the parameter
    is only ever handed to queries, so its spelling does not matter. *)
Definition deleteStudent (p : Principal) (studentId : ObjectId) (s : Store)
  : Response string * Store :=
  if negb (role_eqb (principal_role p) admin) then
    (Failure 403 "Not authorized to delete accounts", s)
  else
    match findUserById studentId s with
    | None => (Failure 404 "Student not found", s)
    | Some deletedUser =>
        let s1 :=
          set_users
            (delete_first (fun u => Nat.eqb (user_id u) studentId) (users s)) s in
        let s2 :=
          match studentInfo_rollNumber deletedUser with
          | Some rn =>
              if JS.truthy_string rn then
                set_students
                  (delete_first
                     (fun st => String.eqb (student_rollNumber st) rn)
                     (students s1)) s1
              else s1
          | None => s1
          end in
        let s3 :=
          set_reports
            (delete_all (fun r => Nat.eqb (report_student r) studentId)
               (reports s2)) s2 in
        (Success 200 "Student account deleted successfully", s3)
    end.

(** The handler on the raw path parameter; a CastError is caught by the
    handler's [catch]. *)
Definition deleteStudentRoute (p : Principal) (studentId : PathId) (s : Store)
  : Response string * Store :=
  if negb (role_eqb (principal_role p) admin) then
    (Failure 403 "Not authorized to delete accounts", s)
  else
    match castObjectId studentId with
    | None => (Failure 500 "Server error", s)
    | Some id => deleteStudent p id s
    end.

End StudentRoutes_delete.

(** References to a user that the other collections may hold. *)
Module References.

Definition in_batch_students (uid : ObjectId) (s : Store) : bool :=
  existsb (fun b => Mongo.mem uid (batch_students b)) (batches s).
Definition in_course_students (uid : ObjectId) (s : Store) : bool :=
  existsb (enrolled uid) (courses s).
Definition in_submissions (uid : ObjectId) (s : Store) : bool :=
  existsb (has_submission uid) (assignments s).
Definition has_attendance (uid : ObjectId) (s : Store) : bool :=
  existsb (fun a => Nat.eqb (att_student a) uid) (attendances s).
Definition has_profile (uid : ObjectId) (s : Store) : bool :=
  existsb (fun st => Nat.eqb (student_user st) uid) (students s).

(** The full scan: is the user still mentioned anywhere? *)
Definition dangling (uid : ObjectId) (s : Store) : bool :=
  in_batch_students uid s || in_course_students uid s || in_submissions uid s
  || has_attendance uid s || has_profile uid s.

Definition user_exists (uid : ObjectId) (s : Store) : bool :=
  existsb (fun u => Nat.eqb (user_id u) uid) (users s).

End References.

(* ------------------------------------------------------------------ *)
(** ** routes/trainerDashboard.js *)

Module TrainerDashboard.

Local Open Scope Q_scope.

(** *** Aggregation operators *)

Definition qsum (l : list Q) : Q := fold_right Qplus 0 l.

(** [$avg] over the numeric values of an array; [null] when there are none.
    The server answers with a double: the one nearest to the mean. *)
Definition avg (l : list Q) : option Q :=
  match l with
  | [] => None
  | _ => Some (JS.fl53 (qsum l / inject_Z (Z.of_nat (List.length l))))
  end.

(** The values that are present in an array of optional fields. *)
Fixpoint present_values {A} (l : list (option A)) : list A :=
  match l with
  | [] => []
  | Some x :: t => x :: present_values t
  | None :: t => present_values t
  end.

(** [$max] over dates; [null] when there are none. *)
Definition max_date (l : list Date) : option Date :=
  match l with
  | [] => None
  | d :: t => Some (fold_right Z.max d t)
  end.

(** Descending order on a nullable numeric key ([null] sorts last). *)
Definition key_desc (a b : option Q) : bool :=
  match a, b with
  | _, None => true
  | None, Some _ => false
  | Some x, Some y => Qle_bool y x
  end.

Definition lift (o : option Q) : JS.nullable := option_map JS.Fin o.

(** *** GET /api/trainer/batches/:batchId/overview *)

Record CourseSummary : Type := mkCourseSummary {
  cs_course : ObjectId;
  studentCount : nat;
  assignmentCount : nat;
  cs_averageProgress : Q
}.

Record StudentSummary (N : Type) : Type := mkStudentSummary {
  ss_user : ObjectId;
  coursesCompleted : nat;
  ss_totalCourses : nat;
  ss_averageProgress : N;
  lastActive : option Date
}.

Record BatchOverview : Type := mkBatchOverview {
  bo_batch : ObjectId;
  totalStudents : nat;
  totalCourses : nat;
  averageProgress : JS.number;
  completionRate : JS.number;
  bo_courses : list CourseSummary;
  bo_students : list (StudentSummary JS.number)
}.

(** [Batch.findOne({ _id: batchId, trainers: req.user._id })] *)
Definition findTrainerBatch (uid batch : ObjectId) (s : Store) : option Batch :=
  find (fun b => Nat.eqb (batch_id b) batch && Mongo.mem uid (trainers b))
       (batches s).

(** The [Course.aggregate] pipeline of the overview. *)
Definition courseSummaries (b : Batch) (s : Store) : list CourseSummary :=
  map (fun c =>
         mkCourseSummary (course_id c)
           (List.length (course_students c))
           (List.length (filter (fun a => Nat.eqb (assignment_course a) (course_id c))
                      (assignments s)))
           (match avg (present_values (map progress (course_students c))) with
            | Some q => q
            | None => 0
            end))
      (filter (fun c => Mongo.opt_eqb (batchId c) (batch_id b)) (courses s)).

(** The inner pipeline of the [$lookup]: the user's own enrollment entry in
    every course of the batch that lists the user. *)
Definition enrollmentsOf (b : Batch) (uid : ObjectId) (s : Store)
  : list (option Enrollment) :=
  map (fun c =>
         find (fun e => Nat.eqb (enr_student e) uid) (course_students c))
      (filter (fun c => Mongo.opt_eqb (batchId c) (batch_id b) && enrolled uid c)
         (courses s)).

Definition enr_progress (e : option Enrollment) : option Q :=
  match e with
  | Some x => progress x
  | None => None
  end.

Definition enr_lastAccessed (e : option Enrollment) : option Date :=
  match e with
  | Some x => lastAccessed x
  | None => None
  end.

Definition completed (e : option Enrollment) : bool :=
  match enr_progress e with
  | Some q => Qle_bool 100 q
  | None => false
  end.

(** The [User.aggregate] pipeline of the overview. *)
Definition studentSummaries (b : Batch) (s : Store)
  : list (StudentSummary (option Q)) :=
  let rows :=
    map (fun u => (user_id u, enrollmentsOf b (user_id u) s)) (users s) in
  let matched :=
    filter (fun r => negb (Nat.eqb (List.length (snd r)) 0)) rows in
  let projected :=
    map (fun r =>
           mkStudentSummary (fst r)
             (List.length (filter completed (snd r)))
             (List.length (snd r))
             (avg (present_values (map enr_progress (snd r))))
             (max_date (present_values (map enr_lastAccessed (snd r)))))
        matched in
  Mongo.sort_by
    (fun x y => key_desc (ss_averageProgress x) (ss_averageProgress y))
    projected.

(** [Math.round(x * 100) / 100] *)
Definition round2 (x : JS.number) : JS.number :=
  JS.div (JS.round (JS.mul x (JS.Fin 100))) (JS.Fin 100).

(** The batch statistics computed in JavaScript after the two pipelines. *)
Definition batchProgress (sts : list (StudentSummary (option Q))) : JS.number :=
  if (0 <? List.length sts)%nat then
    JS.div
      (fold_left
         (fun sum st =>
            JS.add sum (JS.or_default (lift (ss_averageProgress st)) (JS.Fin 0)))
         sts (JS.Fin 0))
      (JS.of_nat (List.length sts))
  else JS.Fin 0.

Definition computeCompletionRate (nCourses : nat)
           (sts : list (StudentSummary (option Q))) : JS.number :=
  if (0 <? nCourses)%nat then
    JS.round
      (JS.mul
         (JS.div
            (JS.of_nat
               (List.length
                  (filter
                     (fun st =>
                        JS.ge (JS.to_number (lift (ss_averageProgress st)))
                              (JS.Fin 100))
                     sts)))
            (JS.of_nat (List.length sts)))
         (JS.Fin 100))
  else JS.Fin 0.

Definition overviewOf (b : Batch) (s : Store) : BatchOverview :=
  let cs := courseSummaries b s in
  let sts := studentSummaries b s in
  mkBatchOverview (batch_id b) (List.length sts) (List.length cs)
    (round2 (batchProgress sts))
    (computeCompletionRate (List.length cs) sts)
    cs
    (map (fun st =>
            mkStudentSummary (ss_user st) (coursesCompleted st)
              (ss_totalCourses st)
              (round2 (JS.to_number (lift (ss_averageProgress st))))
              (lastActive st))
         sts).

Definition batchOverview (p : Principal) (batch : ObjectId) (s : Store)
  : Response BatchOverview :=
  if negb (role_eqb (principal_role p) trainer) then
    Failure 403 "Not authorized to access batch data"
  else
    match findTrainerBatch (principal_id p) batch s with
    | None => Failure 404 "Batch not found or access denied"
    | Some b => Success 200 (overviewOf b s)
    end.

(** *** GET /api/trainer/dashboard *)

(** The [course] field of an assignment as a pipeline stage sees it: an
    ObjectId as stored, the course document once [$lookup] and [$unwind] have
    replaced it. *)
Inductive CourseField : Type :=
| Ref (id : ObjectId)
| Joined (c : Course).

(** The dotted path [course.instructor].  It selects a value only inside an
    embedded document. *)
Definition course_instructor_path (f : CourseField) : option ObjectId :=
  match f with
  | Ref _ => None
  | Joined c => instructor c
  end.

Record SubmissionRow : Type := mkSubmissionRow {
  assignmentId : ObjectId;
  assignmentTitle : string;
  courseId : ObjectId;
  courseTitle : string;
  row_batchId : option ObjectId;
  studentId : ObjectId;
  studentName : string;
  row_rollNumber : option string;
  row_submittedAt : option Date;
  row_status : SubmissionStatus;
  row_grade : option Q;
  row_feedback : option string
}.

Record BatchStats : Type := mkBatchStats {
  bs_totalCourses : nat;
  bs_totalStudents : nat;
  bs_upcomingAssignments : nat
}.

(** The payload: each course with its [studentCount], the two lists, and
    [batchStats], which is [null] without a batch filter.  The fields a
    [select] leaves out of a course and the populated student previews are
    not rendered. *)
Record Dashboard : Type := mkDashboard {
  db_batchId : option ObjectId;
  db_courses : list (Course * nat);
  upcomingAssignments : list Assignment;
  recentSubmissions : list SubmissionRow;
  batchStats : option BatchStats
}.

(** [.populate({ path: 'students.student', options: { limit: 5 } })]: one
    query fetches the users that the enrolments of the courses found refer
    to, and Mongoose runs it with the limit times the number of documents
    being populated.  An enrolment whose user is not among the documents
    fetched has its [student] set to [null]. *)
Definition populatedStudents (cs : list Course) (s : Store) : list ObjectId :=
  map user_id
      (Mongo.limit (5 * List.length cs)
         (filter (fun u => existsb (enrolled (user_id u)) cs) (users s))).

(** [courses.flatMap(c => c.students.map(s => s.student._id.toString()))]:
    the ids, or [None] when some [student] is [null] and the property access
    throws a TypeError. *)
Definition enrolledStudentIds (cs : list Course) (s : Store)
  : option (list ObjectId) :=
  if forallb
       (fun c =>
          forallb (fun e => Mongo.mem (enr_student e) (populatedStudents cs s))
                  (course_students c))
       cs
  then Some (flat_map (fun c => map enr_student (course_students c)) cs)
  else None.

(** [Course.find(query)] with [query = { instructor, batchId? }] *)
Definition trainerCourses (uid : ObjectId) (batchFilter : option ObjectId)
           (s : Store) : list Course :=
  filter (fun c =>
            Mongo.opt_eqb (instructor c) uid
            && match batchFilter with
               | Some b => Mongo.opt_eqb (batchId c) b
               | None => true
               end)
         (courses s).

(** [Assignment.find({ course: { $in }, dueDate: { $gte: now } })
      .sort({ dueDate: 1 }).limit(5)] *)
Definition findUpcoming (courseIds : list ObjectId) (now : Date) (s : Store)
  : list Assignment :=
  Mongo.limit 5
    (Mongo.sort_by (fun a b => (dueDate a <=? dueDate b)%Z)
       (filter (fun a =>
                  Mongo.mem (assignment_course a) courseIds
                  && (now <=? dueDate a)%Z)
          (assignments s))).

(** First [$match] of the submissions pipeline, evaluated on the stored
    assignment. *)
Definition firstMatch (uid : ObjectId) (batchFilter : option ObjectId)
           (courseIds : list ObjectId) (a : Assignment) : bool :=
  match batchFilter with
  | Some _ => Mongo.mem (assignment_course a) courseIds
  | None =>
      match course_instructor_path (Ref (assignment_course a)) with
      | Some i => Nat.eqb i uid
      | None => false
      end
  end.

Definition date_desc (a b : option Date) : bool :=
  match a, b with
  | _, None => true
  | None, Some _ => false
  | Some x, Some y => (y <=? x)%Z
  end.

Definition is_some {A} (o : option A) : bool :=
  match o with
  | Some _ => true
  | None => false
  end.

(** The [Assignment.aggregate] pipeline behind [recentSubmissions]. *)
Definition findRecentSubmissions (uid : ObjectId) (batchFilter : option ObjectId)
           (courseIds : list ObjectId) (s : Store) : list SubmissionRow :=
  let matched := filter (firstMatch uid batchFilter courseIds) (assignments s) in
  (* $lookup courses, $unwind $course *)
  let withCourse :=
    flat_map (fun a =>
                map (fun c => (a, c))
                    (filter (fun c => Nat.eqb (course_id c) (assignment_course a))
                       (courses s)))
             matched in
  (* $unwind $submissions *)
  let unwound :=
    flat_map (fun ac => map (fun sb => (ac, sb)) (submissions (fst ac)))
             withCourse in
  (* $match submittedAt exists, $sort submittedAt desc, $limit 10 *)
  let dated := filter (fun r => is_some (submittedAt (snd r))) unwound in
  let sorted :=
    Mongo.sort_by
      (fun x y => date_desc (submittedAt (snd x)) (submittedAt (snd y)))
      dated in
  let top := Mongo.limit 10 sorted in
  (* $lookup users, $unwind $studentInfo, $project *)
  flat_map
    (fun r =>
       let a := fst (fst r) in
       let c := snd (fst r) in
       let sb := snd r in
       map (fun u =>
              mkSubmissionRow (assignment_id a) (assignment_title a)
                (course_id c) (course_title c) (batchId c)
                (sub_student sb)
                (firstName u ++ " " ++ lastName u)%string
                (rollNumber u) (submittedAt sb) (sub_status sb)
                (grade sb) (feedback sb))
           (filter (fun u => Nat.eqb (user_id u) (sub_student sb)) (users s)))
    top.

Definition dashboard (p : Principal) (batchFilter : option ObjectId)
           (now : Date) (s : Store) : Response Dashboard :=
  if negb (role_eqb (principal_role p) trainer) then
    Failure 403 "Not authorized to access trainer dashboard"
  else
    let uid := principal_id p in
    let authorized :=
      match batchFilter with
      | Some b => is_some (findTrainerBatch uid b s)
      | None => true
      end in
    if negb authorized then
      Failure 403 "Not authorized to access this batch"
    else
      let cs := trainerCourses uid batchFilter s in
      let courseIds := map course_id cs in
      let upcoming := findUpcoming courseIds now s in
      let recent := findRecentSubmissions uid batchFilter courseIds s in
      let listed := map (fun c => (c, List.length (course_students c))) cs in
      match batchFilter with
      | None => Success 200 (mkDashboard None listed upcoming recent None)
      | Some _ =>
          (* [[...new Set(ids)].length]; the TypeError ends in the [catch] *)
          match enrolledStudentIds cs s with
          | None => Failure 500 "Server error"
          | Some ids =>
              Success 200
                (mkDashboard batchFilter listed upcoming recent
                   (Some (mkBatchStats (List.length cs)
                            (List.length (nodup Nat.eq_dec ids))
                            (List.length upcoming))))
          end
      end.

(** *** GET /api/trainer/courses/:courseId/assignments *)

Definition courseAssignments (p : Principal) (course : ObjectId) (s : Store)
  : Response (list Assignment) :=
  if negb (role_eqb (principal_role p) trainer) then
    Failure 403 "Not authorized"
  else
    match find (fun c => Nat.eqb (course_id c) course
                         && Mongo.opt_eqb (instructor c) (principal_id p))
               (courses s) with
    | None => Failure 404 "Course not found or not authorized"
    | Some c =>
        Success 200
          (Mongo.sort_by (fun a b => (dueDate a <=? dueDate b)%Z)
             (filter (fun a => Nat.eqb (assignment_course a) (course_id c))
                (assignments s)))
    end.

(** *** GET /api/trainer/assignments/:assignmentId/submissions

    A missing assignment, course or instructor makes the property access
    throw; the handler answers 500. *)

Definition populatedInstructor (a : Assignment) (s : Store) : option ObjectId :=
  match find (fun c => Nat.eqb (course_id c) (assignment_course a)) (courses s) with
  | Some c => instructor c
  | None => None
  end.

Definition assignmentSubmissions (p : Principal) (assignment : ObjectId)
           (s : Store) : Response (list Submission) :=
  if negb (role_eqb (principal_role p) trainer) then
    Failure 403 "Not authorized"
  else
    match find (fun a => Nat.eqb (assignment_id a) assignment) (assignments s) with
    | None => Failure 500 "Server error"
    | Some a =>
        match populatedInstructor a s with
        | None => Failure 500 "Server error"
        | Some i =>
            if negb (Nat.eqb i (principal_id p)) then
              Failure 403 "Not authorized to view these submissions"
            else Success 200 (submissions a)
        end
    end.

(** *** POST /api/trainer/submissions/:submissionId/feedback *)

(** The request as the handler body reads it: [validationResult(req)] and the
    sanitised fields. *)
Record FeedbackRequest : Type := mkFeedbackRequest {
  fb_valid : bool;
  fb_grade : option Q;
  fb_feedback : string
}.

Definition grade_submission (req : FeedbackRequest) (sb : Submission)
  : Submission :=
  mkSubmission (sub_id sb) (sub_student sb) (submittedAt sb) sub_graded
               (fb_grade req) (Some (fb_feedback req)).

Definition submitFeedback (p : Principal) (submission : ObjectId)
           (req : FeedbackRequest) (s : Store)
  : Response (option Submission) * Store :=
  if negb (role_eqb (principal_role p) trainer) then
    (Failure 403 "Not authorized", s)
  else if negb (fb_valid req) then
    (Failure 400 "Validation failed", s)
  else
    match find (fun a => existsb (fun sb => Nat.eqb (sub_id sb) submission)
                           (submissions a))
               (assignments s) with
    | None => (Failure 404 "Submission not found", s)
    | Some a =>
        match populatedInstructor a s with
        | None => (Failure 500 "Server error", s)
        | Some i =>
            if negb (Nat.eqb i (principal_id p)) then
              (Failure 403 "Not authorized to provide feedback for this submission", s)
            else
              let a' :=
                set_submissions
                  (update_first (fun sb => Nat.eqb (sub_id sb) submission)
                     (grade_submission req) (submissions a)) a in
              let s' :=
                set_assignments
                  (update_first
                     (fun x => Nat.eqb (assignment_id x) (assignment_id a))
                     (fun _ => a') (assignments s)) s in
              (Success 200
                 (find (fun sb => Nat.eqb (sub_id sb) submission) (submissions a')),
               s')
        end
    end.

End TrainerDashboard.

(* ------------------------------------------------------------------ *)
(** ** models/Report.js, routes/reports.js and routes/trainerReports.js *)

Module Reports.

Definition set_report_status (v : ReportStatus) (r : Report) : Report :=
  mkReport (report_id r) (report_student r) (report_createdBy r) v
           (report_updatedAt r) (statusHistory r) (comments r).
Definition set_report_updatedAt (v : option Date) (r : Report) : Report :=
  mkReport (report_id r) (report_student r) (report_createdBy r)
           (report_status r) v (statusHistory r) (comments r).
Definition set_statusHistory (v : list StatusEntry) (r : Report) : Report :=
  mkReport (report_id r) (report_student r) (report_createdBy r)
           (report_status r) (report_updatedAt r) v (comments r).
Definition set_comments (v : list Comment) (r : Report) : Report :=
  mkReport (report_id r) (report_student r) (report_createdBy r)
           (report_status r) (report_updatedAt r) (statusHistory r) v.

(** *** The two [pre('save')] hooks of the schema

    [isNew] and the two [isModified] answers are what the document tracks
    between loading and saving. *)

Definition pre_save_status (now : Date) (isNew statusModified : bool)
           (r : Report) : Report :=
  let r1 := set_report_updatedAt (Some now) r in
  if isNew || statusModified then
    set_statusHistory
      (statusHistory r1
       ++ [mkStatusEntry (report_status r1) (report_createdBy r1) now None])
      r1
  else r1.

Definition pre_save_comments (now : Date) (commentsModified : bool)
           (r : Report) : Report :=
  if commentsModified then
    set_comments
      (map (fun c =>
              mkComment (comment_user c) (comment_text c) (comment_createdAt c)
                        (Some now))
           (comments r))
      r
  else r.

Definition pre_save (now : Date) (isNew statusModified commentsModified : bool)
           (r : Report) : Report :=
  pre_save_comments now commentsModified
    (pre_save_status now isNew statusModified r).

(** Validation of the sub-documents a handler has just pushed; it runs
    before the hooks above. *)
Definition valid_history_entry (e : StatusEntry) : bool :=
  match se_comment e with
  | Some c => (String.length c <=? 500)%nat
  | None => true
  end.

(** [required] and [maxlength] of the comment text. *)
Definition storable_text (t : string) : bool :=
  JS.truthy_string t && (String.length t <=? 1000)%nat.

Definition valid_comment (c : Comment) : bool :=
  storable_text (comment_text c).

(** [report.save()] of a document loaded with status [loaded]: validation,
    hooks, and the write. *)
Definition save (now : Date) (loaded : ReportStatus) (commentsModified : bool)
           (valid : bool) (r : Report) (s : Store) : option (Report * Store) :=
  if valid then
    let r' :=
      pre_save now false (negb (status_eqb (report_status r) loaded))
               commentsModified r in
    Some (r',
          set_reports
            (update_first (fun x => Nat.eqb (report_id x) (report_id r))
               (fun _ => r') (reports s)) s)
  else None.

Definition findReport (id : ObjectId) (s : Store) : option Report :=
  find (fun r => Nat.eqb (report_id r) id) (reports s).

Definition findStudent (id : ObjectId) (s : Store) : option Student :=
  find (fun st => Nat.eqb (student_id st) id) (students s).

(** *** PATCH /:id/status *)

Record StatusRequest : Type := mkStatusRequest {
  body_status : option string;
  body_comment : option string
}.

(** [isIn([...])] of the validation chain, with the status it admits. *)
Definition parse_status (allowed : list (string * ReportStatus))
           (v : option string) : option ReportStatus :=
  match v with
  | Some str =>
      option_map snd (find (fun kv => String.eqb (fst kv) str) allowed)
  | None => None
  end.

Definition reports_allowed : list (string * ReportStatus) :=
  [("submitted", submitted); ("reviewed", reviewed); ("approved", approved);
   ("rejected", rejected); ("needs_revision", needs_revision)].

Definition trainer_allowed : list (string * ReportStatus) :=
  [("reviewed", reviewed); ("approved", approved);
   ("rejected", rejected); ("needs_revision", needs_revision)].

(** [req.body.comment || ''], as the schema's [trim] setter stores it. *)
Definition history_comment (req : StatusRequest) : string :=
  match body_comment req with
  | Some c => if JS.truthy_string c then JS.trim c else ""
  | None => ""
  end.

(** The entry the route pushes. *)
Definition route_entry (p : Principal) (st : ReportStatus)
           (req : StatusRequest) (now : Date) : StatusEntry :=
  mkStatusEntry st (principal_id p) now (Some (history_comment req)).

(** The assignments of the handler body, from [report.status = status] to
    [report.save()]. *)
Definition apply_status (p : Principal) (st : ReportStatus)
           (req : StatusRequest) (now : Date) (report : Report) (s : Store)
  : Response Report * Store :=
  let entry := route_entry p st req now in
  let r1 := set_report_updatedAt (Some now) (set_report_status st report) in
  let r2 := set_statusHistory (statusHistory r1 ++ [entry]) r1 in
  match save now (report_status report) false (valid_history_entry entry) r2 s with
  | Some (r', s') => (Success 200 r', s')
  | None => (Failure 500 "Server error", s)
  end.

(** routes/reports.js *)
Definition updateStatus (p : Principal) (id : ObjectId) (req : StatusRequest)
           (now : Date) (s : Store) : Response Report * Store :=
  match parse_status reports_allowed (body_status req) with
  | None => (Failure 400 "Status is required", s)
  | Some st =>
      match findReport id s with
      | None => (Failure 404 "Report not found", s)
      | Some report =>
          match findStudent (report_student report) s with
          | None => (Failure 500 "Server error", s)
          | Some stu =>
              let isAssignedTrainer :=
                Mongo.opt_eqb (assignedFaculty stu) (principal_id p) in
              if negb isAssignedTrainer
                 && negb (role_eqb (principal_role p) admin)
              then (Failure 403 "Not authorized to update this report status", s)
              else apply_status p st req now report s
          end
      end
  end.

(** routes/trainerReports.js *)
Definition trainerUpdateStatus (p : Principal) (id : ObjectId)
           (req : StatusRequest) (now : Date) (s : Store)
  : Response Report * Store :=
  if negb (role_eqb (principal_role p) trainer) then
    (Failure 403 "Not authorized to update report status", s)
  else
    match parse_status trainer_allowed (body_status req) with
    | None => (Failure 400 "Status is required", s)
    | Some st =>
        match findReport id s with
        | None => (Failure 404 "Report not found", s)
        | Some report =>
            match findStudent (report_student report) s with
            | None => (Failure 500 "Server error", s)
            | Some stu =>
                match assignedFaculty stu with
                | None => (Failure 500 "Server error", s)
                | Some f =>
                    if negb (Nat.eqb f (principal_id p)) then
                      (Failure 403 "Not authorized to update this report status", s)
                    else apply_status p st req now report s
                end
            end
        end
    end.

(** *** POST /:id/comments *)

(** The request as the handler body reads it: [validationResult(req)] and
    the sanitised [req.body.text]. *)
Record CommentRequest : Type := mkCommentRequest {
  text_valid : bool;
  body_text : string
}.

(** From [report.comments.push(comment)] to [report.save()]; [advance] is
    the guard of the status change. *)
Definition apply_comment (p : Principal) (advance : bool)
           (req : CommentRequest) (now : Date) (report : Report) (s : Store)
  : Response (ObjectId * option Comment) * Store :=
  let comment := mkComment (principal_id p) (JS.trim (body_text req)) now None in
  let r1 := set_comments (comments report ++ [comment]) report in
  let r2 := if advance then set_report_status reviewed r1 else r1 in
  match save now (report_status report) true (valid_comment comment) r2 s with
  | Some (r', s') =>
      (Success 201 (report_id r', last (map Some (comments r')) None), s')
  | None => (Failure 500 "Server error", s)
  end.

(** routes/reports.js *)
Definition addComment (p : Principal) (id : ObjectId) (req : CommentRequest)
           (now : Date) (s : Store)
  : Response (ObjectId * option Comment) * Store :=
  if negb (text_valid req) then (Failure 400 "Comment text is required", s)
  else
    match findReport id s with
    | None => (Failure 404 "Report not found", s)
    | Some report =>
        match findStudent (report_student report) s with
        | None => (Failure 500 "Server error", s)
        | Some stu =>
            match assignedFaculty stu with
            | None => (Failure 500 "Server error", s)
            | Some f =>
                if negb (Nat.eqb f (principal_id p))
                   && negb (role_eqb (principal_role p) admin)
                then (Failure 403 "Not authorized to comment on this report", s)
                else
                  apply_comment p
                    (status_eqb (report_status report) submitted
                     && negb (role_eqb (principal_role p) student))
                    req now report s
            end
        end
    end.

(** routes/trainerReports.js *)
Definition trainerAddComment (p : Principal) (id : ObjectId)
           (req : CommentRequest) (now : Date) (s : Store)
  : Response (ObjectId * option Comment) * Store :=
  if negb (role_eqb (principal_role p) trainer) then
    (Failure 403 "Not authorized to comment on reports", s)
  else if negb (text_valid req) then (Failure 400 "Comment text is required", s)
  else
    match findReport id s with
    | None => (Failure 404 "Report not found", s)
    | Some report =>
        match findStudent (report_student report) s with
        | None => (Failure 500 "Server error", s)
        | Some stu =>
            match assignedFaculty stu with
            | None => (Failure 500 "Server error", s)
            | Some f =>
                if negb (Nat.eqb f (principal_id p))
                then (Failure 403 "Not authorized to comment on this report", s)
                else
                  apply_comment p
                    (status_eqb (report_status report) submitted)
                    req now report s
            end
        end
    end.


End Reports.

(* ------------------------------------------------------------------ *)
(** ** routes/adminUserManagement.js: provisioning and listing *)

Module AdminUserManagement.

Local Open Scope string_scope.

(** *** String helpers of the username generator *)

(** [toLowerCase] on the ASCII letters. *)
Definition lower_ascii (c : ascii) : ascii :=
  let n := nat_of_ascii c in
  if (65 <=? n)%nat && (n <=? 90)%nat then ascii_of_nat (n + 32) else c.

Fixpoint toLowerCase (s : string) : string :=
  match s with
  | EmptyString => EmptyString
  | String c t => String (lower_ascii c) (toLowerCase t)
  end.

(** [s.charAt(0)] *)
Definition charAt0 (s : string) : string :=
  match s with
  | EmptyString => EmptyString
  | String c _ => String c EmptyString
  end.

(** Decimal rendering of a number inside a template literal. *)
Definition decimal (n : nat) : string :=
  NilZero.string_of_uint (Nat.to_uint n).

Definition maxAttempts : nat := 5.

(** [Math.floor(100 + Math.random() * 900)], from the draw of the attempt. *)
Definition randomSuffix (draw : nat) : nat := 100 + draw mod 900.

(** The candidate of one attempt:
    [`${baseUsername}${randomSuffix}`.substring(0, 20)] *)
Definition candidate (first last : string) (draw : nat) : string :=
  let baseUsername := toLowerCase first ++ charAt0 (toLowerCase last) in
  substring 0 20 (baseUsername ++ decimal (randomSuffix draw)).

Definition usernameExists (name : string) (s : Store) : bool :=
  existsb (fun u => String.eqb (username u) name) (users s).

(** Does the candidate of attempt [k] collide with a stored username? *)
Definition collides (first last : string) (draws : nat -> nat) (s : Store)
           (k : nat) : bool :=
  usernameExists (candidate first last (draws k)) s.

(** The [while (!isUnique && attempts < maxAttempts)] loop.  [remaining]
    counts the iterations still allowed, [attempts] those already made;
    [draws] is the sequence of random draws.  The result is the username
    when [isUnique] became true. *)
Fixpoint usernameLoop (first last : string) (draws : nat -> nat) (s : Store)
         (remaining attempts : nat) : option string :=
  match remaining with
  | O => None
  | S r =>
      let u := candidate first last (draws attempts) in
      if usernameExists u s then usernameLoop first last draws s r (S attempts)
      else Some u
  end.

(** [generateUniqueUsername(firstName, lastName)]; [uuid] is the value of
    [uuidv4()]. *)
Definition generateUniqueUsername (first last : string) (draws : nat -> nat)
           (uuid : string) (s : Store) : string :=
  match usernameLoop first last draws s maxAttempts 0 with
  | Some u => u
  | None => "user_" ++ substring 0 8 uuid
  end.

(** *** POST /api/admin/users (single user) *)

(** [otherFields.studentDetails]: the paths of it that the profile
    document keeps.  The object is spread last into [new Student({...})], so
    a path it carries replaces the one the handler wrote. *)
Record StudentDetails : Type := mkStudentDetails {
  sd_user : option ObjectId;
  sd_batch : option ObjectId;
  sd_rollNumber : string;
  sd_assignedFaculty : option ObjectId
}.

(** The request body.  [email], [firstName], [lastName], [role], [isActive]
    and [batchId] are taken out by name; the rest of the body is
    [otherFields], of which the handler reads [batchIds] and
    [studentDetails] and which it spreads last into [new User({...})]. *)
Record CreateUserRequest : Type := mkCreateUserRequest {
  cu_valid : bool;                       (* [validationResult(req).isEmpty()] *)
  cu_email : option string;
  cu_firstName : string;
  cu_lastName : string;
  cu_role : Role;
  cu_isActive : bool;
  cu_batchId : option ObjectId;
  cu_username : option string;               (* [otherFields.username] *)
  cu_rollNumber : option string;             (* [otherFields.rollNumber] *)
  cu_studentInfo_rollNumber : option string; (* [otherFields.studentInfo] *)
  cu_batchIds : option (list ObjectId);      (* [otherFields.batchIds] *)
  cu_studentDetails : option StudentDetails  (* [otherFields.studentDetails] *)
}.

(** What the handler takes from its environment: the random draws, the
    generated password, and the [_id] and creation time that the documents
    it builds end up with. *)
Record Entropy : Type := mkEntropy {
  draws : nat -> nat;
  password : string;
  newUserId : ObjectId;
  newStudentId : ObjectId;
  clock : Date
}.

(** The answer: the stored user with [generatedCredentials]. *)
Record Created : Type := mkCreated {
  created_user : User;
  generated_username : string;       (* [responseUser.username] *)
  generated_password : string
}.

Definition findByEmailOrUsername (mail name : string) (s : Store) : option User :=
  find (fun u => String.eqb (email u) mail || String.eqb (username u) name)
       (users s).

(** What [user.save] may do. *)
Inductive SaveResult : Type :=
| Saved
| DuplicateKey (field : string)      (* [error.code === 11000] *)
| SaveFailed.                        (* any other error *)

(** [new Student({ user, batch, admissionDate, ...studentDetails })] *)
Definition newProfile (id uid : ObjectId) (batch : option ObjectId)
           (details : option StudentDetails) : Student :=
  match details with
  | Some d =>
      mkStudent id
        (match sd_user d with Some u => u | None => uid end)
        (sd_rollNumber d)
        (sd_assignedFaculty d)
        (match sd_batch d with Some b => Some b | None => batch end)
  | None => mkStudent id uid "" None batch
  end.

Section Provisioning.

(** The schemas of [User] and [Student] are outside the sources at hand;
    what their [save] does with a document is a parameter. *)
Variable userSave : User -> Store -> SaveResult.
Variable studentSaveOk : Student -> Store -> bool.

Definition createUser (p : Principal) (req : CreateUserRequest) (e : Entropy)
           (s : Store) : Response Created * Store :=
  if negb (role_eqb (principal_role p) admin) then
    (Failure 403 "Not authorized to create users", s)
  else if negb (cu_valid req) then (Failure 400 "Validation failed", s)
  else
    let session := Transaction.start s in
    match usernameLoop (cu_firstName req) (cu_lastName req) (draws e)
                       (Transaction.working session) maxAttempts 0 with
    | None =>
        (Failure 500 "Failed to generate a unique username. Please try again.",
         Transaction.abort session)
    | Some uname =>
        let mail :=
          match cu_email req with
          | Some m => if JS.truthy_string m then Some (toLowerCase m) else None
          | None => None
          end in
        let existing :=
          match mail with
          | Some m => findByEmailOrUsername m uname (Transaction.working session)
          | None =>
              find (fun u => String.eqb (username u) uname)
                   (users (Transaction.working session))
          end in
        match existing with
        | Some ex =>
            (Failure 400
               (match mail with
                | Some m =>
                    if String.eqb (email ex) m then "Email already in use"
                    else "Username already exists"
                | None => "Username already exists"
                end), Transaction.abort session)
        | None =>
            let batchMissing :=
              match cu_role req, cu_batchId req with
              | student, Some b =>
                  negb (existsb (fun x => Nat.eqb (batch_id x) b)
                          (batches (Transaction.working session)))
              | _, _ => false
              end in
            if batchMissing then
              (Failure 404 "Batch not found", Transaction.abort session)
            else
              (* the spread [...otherFields] comes last *)
              let user :=
                mkUser (newUserId e)
                  (match cu_username req with
                   | Some name => name
                   | None => uname
                   end)
                  (match mail with
                   | Some m => m
                   | None => uname ++ "@college.edu"
                   end)
                  (JS.trim (cu_firstName req))
                  (JS.trim (cu_lastName req))
                  (cu_role req) (cu_isActive req)
                  (cu_rollNumber req) (cu_studentInfo_rollNumber req)
                  (clock e) in
              match userSave user (Transaction.working session) with
              | DuplicateKey field =>
                  (Failure 400 (field ++ " already exists"),
                   Transaction.abort session)
              | SaveFailed =>
                  (Failure 500 "Error creating user", Transaction.abort session)
              | Saved =>
                  let session1 :=
                    Transaction.write
                      (fun w => set_users (users w ++ [user])%list w) session in
                  let afterStudent : option Transaction.Session :=
                    match cu_role req with
                    | student =>
                        let profile :=
                          newProfile (newStudentId e) (user_id user)
                                     (cu_batchId req) (cu_studentDetails req) in
                        if studentSaveOk profile (Transaction.working session1)
                        then
                          let session2 :=
                            Transaction.write
                              (fun w =>
                                 set_students (students w ++ [profile])%list w)
                              session1 in
                          Some
                            (Transaction.write
                               (fun w =>
                                  set_batches
                                    (update_first
                                       (fun b =>
                                          Mongo.opt_eqb (cu_batchId req)
                                                        (batch_id b))
                                       (fun b =>
                                          set_batch_students
                                            (Mongo.addToSet (user_id user)
                                               (batch_students b)) b)
                                       (batches w)) w)
                               session2)
                        else None
                    | _ => Some session1
                    end in
                  match afterStudent with
                  | None =>
                      (Failure 500 "Error creating student profile",
                       Transaction.abort session1)
                  | Some session3 =>
                      let afterTrainer : option Transaction.Session :=
                        match cu_role req, cu_batchIds req with
                        | trainer, Some ids =>
                            if Nat.eqb
                                 (List.length
                                    (filter (fun b => Mongo.mem (batch_id b) ids)
                                       (batches (Transaction.working session3))))
                                 (List.length ids)
                            then
                              Some
                                (Transaction.write
                                   (fun w =>
                                      set_batches
                                        (update_many
                                           (fun b => Mongo.mem (batch_id b) ids)
                                           (fun b =>
                                              set_trainers
                                                (Mongo.addToSet (user_id user)
                                                   (trainers b)) b)
                                           (batches w)) w)
                                   session3)
                            else None
                        | _, _ => Some session3
                        end in
                      match afterTrainer with
                      | None =>
                          (Failure 400 "Error assigning trainer to batches",
                           Transaction.abort session3)
                      | Some session4 =>
                          (Success 201
                             (mkCreated user (username user) (password e)),
                           Transaction.commit session4)
                      end
                  end
              end
        end
    end.

End Provisioning.

(** *** GET /api/admin/users *)

Record ListQuery : Type := mkListQuery {
  q_page : option Z;          (* [parseInt(req.query.page)], [None] for NaN *)
  q_limit : option Z;
  q_role : option string;
  q_isActive : option string;
  q_search : option string
}.

(** The condition of the filter on [role]. *)
Inductive RoleCond : Type :=
| NotEqual (r : string)        (* [{ $ne: r }] *)
| Equal (r : string).

Record Filter : Type := mkFilter {
  f_role : RoleCond;
  f_isActive : option bool;
  f_search : option string
}.

Definition param_or (p : option string) (d : string) : string :=
  match p with
  | Some v => v
  | None => d
  end.

(** "Build filter": each supplied parameter assigns its field. *)
Definition buildFilter (q : ListQuery) : Filter :=
  let f0 := mkFilter (NotEqual "superadmin") None None in
  let f1 :=
    if JS.truthy_param (q_role q)
    then mkFilter (Equal (param_or (q_role q) "")) (f_isActive f0) (f_search f0)
    else f0 in
  let f2 :=
    if JS.truthy_param (q_isActive q)
    then mkFilter (f_role f1)
                  (Some (String.eqb (param_or (q_isActive q) "") "true"))
                  (f_search f1)
    else f1 in
  if JS.truthy_param (q_search q)
  then mkFilter (f_role f2) (f_isActive f2) (q_search q)
  else f2.

Record UserRow : Type := mkUserRow {
  row_user : User;
  studentDetails : option Student;
  row_batches : list Batch
}.

Record UserPage : Type := mkUserPage {
  page_users : list UserRow;
  total : nat;
  page : Z;
  pages : Z;
  limit : Z
}.

Section Listing.

(** [new RegExp(pattern, 'i')]: [None] when the pattern does not compile,
    otherwise its [test]. *)
Variable RegExp : string -> option (string -> bool).

Definition role_matches (c : RoleCond) (u : User) : bool :=
  match c with
  | NotEqual r => negb (String.eqb (role_name (role u)) r)
  | Equal r => String.eqb (role_name (role u)) r
  end.

Definition search_matches (test : string -> bool) (u : User) : bool :=
  test (firstName u) || test (lastName u) || test (email u)
  || match rollNumber u with
     | Some rn => test rn
     | None => false
     end.

Definition matches (f : Filter) (test : option (string -> bool)) (u : User)
  : bool :=
  role_matches (f_role f) u
  && match f_isActive f with
     | Some b => Bool.eqb (isActive u) b
     | None => true
     end
  && match test with
     | Some t => search_matches t u
     | None => true
     end.

Definition populate (s : Store) (u : User) : UserRow :=
  match role u with
  | student =>
      mkUserRow u
        (find (fun st => Nat.eqb (student_user st) (user_id u)) (students s)) []
  | trainer =>
      mkUserRow u None
        (filter (fun b => Mongo.mem (user_id u) (trainers b)) (batches s))
  | _ => mkUserRow u None []
  end.

(** [parseInt(x) || d] *)
Definition int_or (x : option Z) (d : Z) : Z :=
  match x with
  | Some v => if (v =? 0)%Z then d else v
  | None => d
  end.

Definition listUsers (p : Principal) (q : ListQuery) (s : Store)
  : Response UserPage :=
  if negb (role_eqb (principal_role p) admin) then
    Failure 403 "Not authorized to view users"
  else
    let pg := int_or (q_page q) 1 in
    let lim := int_or (q_limit q) 20 in
    let skip := ((pg - 1) * lim)%Z in
    let f := buildFilter q in
    let compiled :=
      match f_search f with
      | Some pat => option_map Some (RegExp pat)
      | None => Some None
      end in
    match compiled with
    | None => Failure 500 "Server error"
    | Some test =>
        if (skip <? 0)%Z then Failure 500 "Server error"
        else
          let found := filter (matches f test) (users s) in
          let sorted :=
            Mongo.sort_by (fun a b => (createdAt b <=? createdAt a)%Z) found in
          let window :=
            Mongo.limit (Z.to_nat (Z.abs lim))
              (Mongo.skip (Z.to_nat skip) sorted) in
          Success 200
            (mkUserPage (map (populate s) window)
               (List.length found) pg
               (Qceiling (inject_Z (Z.of_nat (List.length found)) / inject_Z lim)%Q)
               lim)
    end.

End Listing.

End AdminUserManagement.

(* ------------------------------------------------------------------ *)
(** ** routes/facultyDashboard.js: the percentage arithmetic *)

Module FacultyDashboard.

(** One group of the [$group: { _id: '$status', count: { $sum: 1 } }]
    stage. *)
Record StatusCount : Type := mkStatusCount {
  sc_id : AttendanceStatus;
  sc_count : nat
}.

Definition att_status_eqb (a b : AttendanceStatus) : bool :=
  match a, b with
  | present, present | absent, absent | late, late | excused, excused => true
  | _, _ => false
  end.

(** The [$group] stage over a list of attendance records. *)
Definition groupByStatus (l : list Attendance) : list StatusCount :=
  flat_map
    (fun st =>
       match List.length (filter (fun a => att_status_eqb (att_status a) st) l) with
       | O => []
       | n => [mkStatusCount st n]
       end)
    [present; absent; late; excused].

(** [attendanceSummary.reduce((sum, item) => sum + item.count, 0)] *)
Definition totalAttendance (summary : list StatusCount) : nat :=
  fold_left (fun sum item => sum + sc_count item) summary 0.

(** [attendanceSummary.find(item => item._id === 'present')?.count || 0] *)
Definition presentAttendance (summary : list StatusCount) : nat :=
  match find (fun item => att_status_eqb (sc_id item) present) summary with
  | Some item => sc_count item
  | None => 0
  end.

(** [total > 0 ? Math.round((present / total) * 100) : 0] *)
Definition attendancePercentage (summary : list StatusCount) : JS.number :=
  if (0 <? totalAttendance summary)%nat then
    JS.round
      (JS.mul
         (JS.div (JS.of_nat (presentAttendance summary))
                 (JS.of_nat (totalAttendance summary)))
         (JS.Fin 100))
  else JS.Fin 0.

(** [Math.round((item.count / totalAttendance) * 100) || 0] *)
Definition histogramPercentage (count total : nat) : JS.number :=
  JS.num_or
    (JS.round (JS.mul (JS.div (JS.of_nat count) (JS.of_nat total)) (JS.Fin 100)))
    (JS.Fin 0).

(** The per-student [$cond]:
    [attendanceCount == 0 ? 0 : presentCount / attendanceCount * 100] *)
Definition studentAttendancePercentage (attendanceCount presentCount : nat)
  : JS.number :=
  if Nat.eqb attendanceCount 0 then JS.Fin 0
  else
    JS.mul (JS.div (JS.of_nat presentCount) (JS.of_nat attendanceCount))
           (JS.Fin 100).

(** The two [$project] stages of the department statistics over the
    attendance records joined to one student. *)
Definition studentStatistics (attendance : list Attendance) : JS.number :=
  studentAttendancePercentage
    (List.length attendance)
    (List.length
       (filter (fun a => att_status_eqb (att_status a) present) attendance)).

End FacultyDashboard.

(* ------------------------------------------------------------------ *)
(** ** routes/superAdminDashboard.js: GET /batches *)

Module SuperAdminDashboard.

(** A 64-bit integer of the server converted to a double. *)
Definition double_of_long (z : Z) : JS.number := JS.Fin (JS.fl53 (inject_Z z)).

(** The projected field
    [durationWeeks: { $ceil: { $divide: [{ $subtract: [end, start] }, week] } }]:
    the difference of two dates is an integer number of milliseconds, and
    [$divide] works on doubles. *)
Definition durationWeeks (b : Batch) : JS.number :=
  JS.ceil (JS.div (double_of_long (endDate b - startDate b))
                  (JS.of_Z (7 * 24 * 60 * 60 * 1000))).

End SuperAdminDashboard.

(* ------------------------------------------------------------------ *)
(** ** Reference definitions

    These follow the wording of the specification; the theorems compare
    them with what the handlers compute. *)

Module Spec.

(** [k] is the ceiling of [num / den], for a positive [den]. *)
Definition is_ceiling (k num den : Z) : Prop :=
  ((k - 1) * den < num <= k * den)%Z.



(** [ceil((B.endDate - B.startDate) / (7 days))] *)
Definition durationWeeks (b : Batch) : Z :=
  (- ((- (endDate b - startDate b)) / BatchModel.MS_PER_WEEK))%Z.

End Spec.

(* ------------------------------------------------------------------ *)
(** ** A small campus, used to run the handlers *)

Module Campus.

Definition root : Principal := mkPrincipal 1 superadmin.
Definition registrar : Principal := mkPrincipal 2 admin.
Definition asha : Principal := mkPrincipal 20 trainer.

Definition jan_2024 : Date := 1704067200000%Z.
Definition jun_2024 : Date := 1717200000000%Z.

Definition cs24 : Batch :=
  mkBatch 50 "CS 2024" "Computer science" "CS24" jan_2024 jun_2024
          [20] [10] 2 30%Z.

Definition ee24 : Batch :=
  mkBatch 51 "EE 2024" "Electrical engineering" "EE24" jan_2024 jun_2024
          [20] [] 2 30%Z.

Definition algorithms : Course :=
  mkCourse 60 "Algorithms" (Some 20) [] None (Some 50)
           [mkEnrollment 10 (Some 40%Q) (Some 1706000000000%Z)].

Definition circuits : Course :=
  mkCourse 61 "Circuits" (Some 20) [] None (Some 51) [].

Definition homework : Assignment :=
  mkAssignment 70 "Sorting homework" 60 1710000000000%Z
    [mkSubmission 700 10 (Some 1709000000000%Z) sub_submitted None None].

Definition thesis : Report :=
  mkReport 80 100 10 draft None [] [].

Definition essay : Report :=
  mkReport 81 100 10 submitted None
           [mkStatusEntry submitted 10 1708000000000%Z None] [].

Definition store : Store :=
  mkStore
    [ mkUser 1 "root" "root@college.edu" "Rita" "Root" superadmin true None None 1%Z;
      mkUser 2 "registrar" "registrar@college.edu" "Reg" "Istrar" admin true None None 2%Z;
      mkUser 10 "johnd100" "john@college.edu" "John" "Doe" student true
             None (Some "R10") 3%Z;
      mkUser 20 "asha" "asha@college.edu" "Asha" "Rao" trainer true None None 4%Z;
      mkUser 21 "ben" "ben@college.edu" "Ben" "Kim" trainer true None None 5%Z ]
    [ mkStudent 100 10 "R10" (Some 20) (Some 50) ]
    [ cs24; ee24 ]
    [ algorithms; circuits ]
    [ homework ]
    [ mkAttendance 10 60 1705000000000%Z present ]
    [ thesis; essay ].

(** A batch whose dates are the wrong way round. *)
Definition backwards : Batch :=
  mkBatch 52 "ME 2024" "Mechanical engineering" "ME24" jun_2024 jan_2024
          [20] [] 2 30%Z.

(** A run of draws that always yields the suffix 100. *)
Definition stuck_draws : nat -> nat := fun _ => 0.

Definition entropy : AdminUserManagement.Entropy :=
  AdminUserManagement.mkEntropy stuck_draws "Xy7!abcdEF" 30 130 1720000000000%Z.

Definition john_again : AdminUserManagement.CreateUserRequest :=
  AdminUserManagement.mkCreateUserRequest true None "John" "Doe" faculty true
    None None None None None None.

Definition no_duplicate : User -> Store -> AdminUserManagement.SaveResult :=
  fun _ _ => AdminUserManagement.Saved.
Definition any_profile : Student -> Store -> bool := fun _ _ => true.
Definition no_regexp : string -> option (string -> bool) := fun _ => None.

End Campus.

(* ------------------------------------------------------------------ *)
(** ** routes/adminUserManagement.js: generateStrongPassword *)

Module PasswordGenerator.

Local Open Scope string_scope.

(** The four requirement strings, in the order of the [requirements] array. *)
Definition lowercase : string := "abcdefghijklmnopqrstuvwxyz".
Definition uppercase : string := "ABCDEFGHIJKLMNOPQRSTUVWXYZ".
Definition digits : string := "0123456789".
Definition symbols : string := "!@#$%^&*()_+~`|}{[]\\:;?><,./-=".

(** The outer [charset] constant. *)
Definition charset : string :=
  "abcdefghijklmnopqrstuvwxyzABCDEFGHIJKLMNOPQRSTUVWXYZ0123456789!@#$%^&*()_+~`|}{[]\\:;?><,./-=".

(** [cs.charAt(Math.floor(Math.random() * cs.length))]: the draw is an index
    below the length; [charAt] gives the empty string out of range. *)
Definition pick (cs : string) (draw : nat) : list ascii :=
  match String.get (draw mod String.length cs) cs with
  | Some c => [c]
  | None => []
  end%list.

(** The [for (let i = password.length; i < length; i++)] loop: [count]
    iterations, the k-th draw for the k-th call of [Math.random]. *)
Fixpoint fill (count : nat) (draws : nat -> nat) (k : nat) : list ascii :=
  match count with
  | O => []
  | S c => pick charset (draws k) ++ fill c draws (S k)
  end%list.

Section Shuffle.

(** [password.split('').sort(() => Math.random() - 0.5)]: the reordering the
    engine's sort produces under the random comparator. *)
Variable shuffle : list ascii -> list ascii.

Definition generateStrongPassword (length : nat) (draws : nat -> nat) : string :=
  let required :=
    (pick lowercase (draws 0) ++ pick uppercase (draws 1)
     ++ pick digits (draws 2) ++ pick symbols (draws 3))%list in
  let password :=
    (required ++ fill (length - List.length required) draws 4)%list in
  string_of_list_ascii (shuffle password).

End Shuffle.

Definition is_lower (c : ascii) : bool :=
  (97 <=? nat_of_ascii c)%nat && (nat_of_ascii c <=? 122)%nat.
Definition is_upper (c : ascii) : bool :=
  (65 <=? nat_of_ascii c)%nat && (nat_of_ascii c <=? 90)%nat.
Definition is_digit (c : ascii) : bool :=
  (48 <=? nat_of_ascii c)%nat && (nat_of_ascii c <=? 57)%nat.
Definition is_symbol (c : ascii) : bool :=
  existsb (Ascii.eqb c) (list_ascii_of_string symbols).

End PasswordGenerator.

(* ------------------------------------------------------------------ *)
(** ** scripts/updateUserRole.js *)

Module UpdateUserRole.

Definition validRoles : list Role :=
  [student; trainer; faculty; admin; superadmin].

(** [validRoles.includes(newRole)], with the role it names. *)
Definition parse_role (newRole : string) : option Role :=
  find (fun r => String.eqb (role_name r) newRole) validRoles.

Definition set_role (r : Role) (u : User) : User :=
  mkUser (user_id u) (username u) (email u) (firstName u) (lastName u) r
         (isActive u) (rollNumber u) (studentInfo_rollNumber u) (createdAt u).

Section Script.

(** The [User] schema is outside the sources at hand; whether [save]
    accepts the document is a parameter. *)
Variable saveOk : User -> bool.

(** [updateRole(username, newRole)]: the exit code of the process and the
    store it leaves. *)
Definition updateRole (name newRole : string) (s : Store) : nat * Store :=
  match parse_role newRole with
  | None => (1, s)
  | Some r =>
      match find (fun u => String.eqb (username u) name) (users s) with
      | None => (1, s)
      | Some user =>
          let user' := set_role r user in
          if saveOk user' then
            (0,
             set_users
               (update_first (fun u => Nat.eqb (user_id u) (user_id user))
                  (fun _ => user') (users s)) s)
          else (1, s)
      end
  end.

End Script.

End UpdateUserRole.

(* ------------------------------------------------------------------ *)
(** ** routes/trainerDashboard.js: GET /api/trainer/batches *)

Module TrainerBatches.

(** [Batch.find({ trainers }).select(...).sort({ startDate: -1 })]; the
    documents are returned whole, the projection is not modelled. *)
Definition trainerBatches (p : Principal) (s : Store) : Response (list Batch) :=
  if negb (role_eqb (principal_role p) trainer) then
    Failure 403 "Not authorized to access trainer resources"
  else
    Success 200
      (Mongo.sort_by (fun a b => (startDate b <=? startDate a)%Z)
         (filter (fun b => Mongo.mem (principal_id p) (trainers b))
            (batches s))).

End TrainerBatches.

(* ------------------------------------------------------------------ *)
(** ** Frames *)

Module Frame.

(** Nothing differs between [s] and [s'] except, possibly, the report with
    the given id. *)
Definition untouched_but (id : ObjectId) (s s' : Store) : Prop :=
  users s' = users s /\ students s' = students s /\ batches s' = batches s
  /\ courses s' = courses s /\ assignments s' = assignments s
  /\ attendances s' = attendances s
  /\ List.length (reports s') = List.length (reports s)
  /\ (forall x, In x (reports s') -> report_id x <> id -> In x (reports s)).

(** The store a handler body leaves, whether [save] went through or not. *)
Definition after_save (result : option (Report * Store)) (s : Store) : Store :=
  match result with
  | Some (_, s') => s'
  | None => s
  end.

End Frame.

(* ------------------------------------------------------------------ *)
(** ** More inhabitants of the campus *)

Module Staff.

Definition dean : Principal := mkPrincipal 3 faculty.

Definition store : Store :=
  mkStore
    (users Campus.store
     ++ [mkUser 3 "dean" "dean@college.edu" "Dee" "Ann" faculty true None None 6%Z;
         mkUser 4 "bursar" "bursar@college.edu" "Burt" "Sar" admin true None None 7%Z])
    [ mkStudent 100 10 "R10" (Some 3) (Some 50) ]
    [ mkBatch 50 "CS 2024" "Computer science" "CS24" Campus.jan_2024
              Campus.jun_2024 [20; 21] [10] 4 30%Z;
      Campus.ee24 ]
    (courses Campus.store)
    (assignments Campus.store)
    (attendances Campus.store)
    (reports Campus.store).

Definition identity_shuffle : list ascii -> list ascii := fun l => l.

Definition fresh_entropy : AdminUserManagement.Entropy :=
  AdminUserManagement.mkEntropy (fun k => k + 1) "Qw3$zzzzZZ" 31 131
                                1720000000000%Z.

Definition mary : AdminUserManagement.CreateUserRequest :=
  AdminUserManagement.mkCreateUserRequest true (Some "Mary@College.edu")
    "Mary" "Kay" student true (Some 50) None None None None
    (Some (AdminUserManagement.mkStudentDetails None None "R11" None)).

(** The same request with a body that also carries a username, and a
    [studentDetails] that names another user and another batch. *)
Definition mary_as_root : AdminUserManagement.CreateUserRequest :=
  AdminUserManagement.mkCreateUserRequest true (Some "Mary@College.edu")
    "Mary" "Kay" student true (Some 50) (Some "root") None None None
    (Some (AdminUserManagement.mkStudentDetails (Some 10) (Some 51) "R11"
                                                (Some 21))).

Definition long_store : Store :=
  set_users
    (users Campus.store
     ++ [mkUser 12 "maximilianalexanderx" "max@college.edu"
                "Maximilianalexanderx" "Stone" faculty true None None 9%Z])
    Campus.store.

Definition max_again : AdminUserManagement.CreateUserRequest :=
  AdminUserManagement.mkCreateUserRequest true None "Maximilianalexanderx"
    "Stark" faculty true None None None None None None.

Definition tom : AdminUserManagement.CreateUserRequest :=
  AdminUserManagement.mkCreateUserRequest true None "Tom" "Lee" trainer true
    None None None None (Some [50; 51]) None.

Definition any_user : User -> bool := fun _ => true.

End Staff.

(* ================================================================== *)
(** * Properties *)

(* ------------------------------------------------------------------ *)
(** ** Lists of documents *)

Section DocumentLists.

Context {A : Type}.

Lemma existsb_false_iff (p : A -> bool) (l : list A) :
  existsb p l = false <-> forall x, In x l -> p x = false.
Proof.
  induction l as [| a t IH]; simpl.
  - split; [intros _ x [] | reflexivity].
  - rewrite orb_false_iff, IH. split.
    + intros [Ha Ht] x [<- | Hx]; auto.
    + intros H. split; [apply H; now left | intros x Hx; apply H; now right].
Qed.

Lemma in_delete_first (p : A -> bool) (l : list A) (x : A) :
  In x (delete_first p l) -> In x l.
Proof.
  induction l as [| a t IH]; simpl; [tauto |].
  destruct (p a); simpl; intuition.
Qed.

Lemma in_update_many (p : A -> bool) (f : A -> A) (l : list A) (y : A) :
  In y (update_many p f l) ->
  exists x, In x l /\ y = (if p x then f x else x).
Proof.
  unfold update_many. rewrite in_map_iff.
  intros [x [Hy Hx]]. exists x. split; [assumption | now symmetry].
Qed.

Lemma find_update_first (p q : A -> bool) (f : A -> A) (l : list A) (x : A) :
  (forall y, q y = p y) ->
  find p l = Some x -> p (f x) = true ->
  find p (update_first q f l) = Some (f x).
Proof.
  intros Hq. induction l as [| a t IH]; simpl; [discriminate |].
  rewrite Hq. destruct (p a) eqn:Ha.
  - intros [= ->] Hf. simpl. now rewrite Hf.
  - intros Hx Hf. simpl. rewrite Ha. now apply IH.
Qed.

Lemma find_none_iff (p : A -> bool) (l : list A) :
  find p l = None <-> existsb p l = false.
Proof.
  induction l as [| a t IH]; simpl; [tauto |].
  destruct (p a); simpl; [split; discriminate | exact IH].
Qed.

Lemma in_insert_by (le : A -> A -> bool) (x y : A) (l : list A) :
  In y (Mongo.insert_by le x l) <-> y = x \/ In y l.
Proof.
  induction l as [| a t IH]; simpl.
  - intuition.
  - destruct (le x a); simpl; [intuition | rewrite IH; intuition].
Qed.

Lemma in_sort_by (le : A -> A -> bool) (y : A) (l : list A) :
  In y (Mongo.sort_by le l) <-> In y l.
Proof.
  unfold Mongo.sort_by. induction l as [| a t IH]; simpl; [tauto |].
  rewrite in_insert_by, IH. intuition.
Qed.

Lemma length_insert_by (le : A -> A -> bool) (x : A) (l : list A) :
  List.length (Mongo.insert_by le x l) = S (List.length l).
Proof.
  induction l as [| a t IH]; simpl; [reflexivity |].
  destruct (le x a); simpl; [reflexivity | now rewrite IH].
Qed.

Lemma length_sort_by (le : A -> A -> bool) (l : list A) :
  List.length (Mongo.sort_by le l) = List.length l.
Proof.
  unfold Mongo.sort_by. induction l as [| a t IH]; simpl; [reflexivity |].
  now rewrite length_insert_by, IH.
Qed.

Lemma in_limit (n : nat) (l : list A) (x : A) :
  In x (Mongo.limit n l) -> In x l.
Proof. unfold Mongo.limit. revert n. induction l as [| a t IH]; intros [| n]; simpl; intuition eauto. Qed.

Lemma in_skip (n : nat) (l : list A) (x : A) :
  In x (Mongo.skip n l) -> In x l.
Proof. unfold Mongo.skip. revert n. induction l as [| a t IH]; intros [| n]; simpl; intuition eauto. Qed.

Lemma length_limit (n : nat) (l : list A) :
  List.length (Mongo.limit n l) <= n.
Proof. unfold Mongo.limit. apply firstn_le_length. Qed.

Section Sorting.

Variable le : A -> A -> bool.
Hypothesis le_total : forall x y, le x y = true \/ le y x = true.

Lemma HdRel_insert_by (a x : A) (l : list A) :
  HdRel (fun u v => le u v = true) a l -> le a x = true ->
  HdRel (fun u v => le u v = true) a (Mongo.insert_by le x l).
Proof.
  intros Hl Hx. destruct l as [| b t]; simpl.
  - now constructor.
  - destruct (le x b); constructor; [exact Hx | now inversion Hl].
Qed.

Lemma Sorted_insert_by (x : A) (l : list A) :
  Sorted (fun u v => le u v = true) l ->
  Sorted (fun u v => le u v = true) (Mongo.insert_by le x l).
Proof.
  induction 1 as [| a t Ht IH Ha]; simpl.
  - repeat constructor.
  - destruct (le x a) eqn:E.
    + constructor; [now constructor | now constructor].
    + constructor; [exact IH |].
      apply HdRel_insert_by; [exact Ha |].
      destruct (le_total a x) as [H | H]; [exact H | congruence].
Qed.

Lemma Sorted_sort_by (l : list A) :
  Sorted (fun u v => le u v = true) (Mongo.sort_by le l).
Proof.
  unfold Mongo.sort_by. induction l as [| a t IH]; simpl.
  - constructor.
  - now apply Sorted_insert_by.
Qed.

Lemma Sorted_limit (n : nat) (l : list A) :
  Sorted (fun u v => le u v = true) l ->
  Sorted (fun u v => le u v = true) (Mongo.limit n l).
Proof.
  unfold Mongo.limit. intros H. revert n.
  induction H as [| a t Ht IH Ha]; intros [| n]; simpl; try constructor.
  - apply IH.
  - destruct Ha as [| b t' Hab]; destruct n; simpl; constructor; exact Hab.
Qed.

End Sorting.

End DocumentLists.

Lemma mem_pull_same (x : ObjectId) (l : list ObjectId) :
  Mongo.mem x (Mongo.pull x l) = false.
Proof.
  unfold Mongo.mem, Mongo.pull. apply existsb_false_iff.
  intros y Hy. apply filter_In in Hy. destruct Hy as [_ Hy].
  apply negb_true_iff in Hy. now rewrite Nat.eqb_sym.
Qed.

(* ------------------------------------------------------------------ *)
(** ** Rounding to binary64 *)

Section DoubleRounding.

Local Open Scope Q_scope.

Lemma pow2_pos (k : Z) : 0 < JS.pow2 k.
Proof. apply Qpower_0_lt. reflexivity. Qed.

Lemma pow2_plus (a b : Z) : JS.pow2 (a + b) == JS.pow2 a * JS.pow2 b.
Proof. apply Qpower_plus. discriminate. Qed.

Lemma pow2_Z (k : Z) : (0 <= k)%Z -> JS.pow2 k == inject_Z (2 ^ k).
Proof. intros H. unfold JS.pow2. now rewrite Zpower_Qpower. Qed.

Lemma pow2_le (a b : Z) : (a <= b)%Z -> JS.pow2 a <= JS.pow2 b.
Proof. intros H. apply Qpower_le_compat_l; [exact H | discriminate]. Qed.

Lemma pow2_lt_inv (a b : Z) : JS.pow2 a < JS.pow2 b -> (a < b)%Z.
Proof. intros H. apply Qpower_lt_compat_l_inv with (q := 2); [exact H | reflexivity]. Qed.

Lemma rne_le_int (q : Q) (M : Z) : q <= inject_Z M -> (JS.rne q <= M)%Z.
Proof.
  intros H. unfold JS.rne. cbv zeta.
  pose proof (Qfloor_resp_le _ _ H) as Hf. rewrite Qfloor_Z in Hf.
  destruct (Z.eq_dec (Qfloor q) M) as [E | E].
  - assert (Hc : Qcompare (q - inject_Z (Qfloor q)) (1 # 2) = Lt).
    { apply Qlt_alt. rewrite E. apply Qle_lt_trans with 0; [| reflexivity].
      apply (Qplus_le_l _ _ (inject_Z M)). ring_simplify. exact H. }
    rewrite Hc. lia.
  - destruct (Qcompare _ _); [destruct (Z.even _) | |]; lia.
Qed.

Lemma rne_ge_int (q : Q) (M : Z) : inject_Z M <= q -> (M <= JS.rne q)%Z.
Proof.
  intros H. unfold JS.rne. cbv zeta.
  pose proof (Qfloor_resp_le _ _ H) as Hf. rewrite Qfloor_Z in Hf.
  destruct (Qcompare _ _); [destruct (Z.even _) | |]; lia.
Qed.

Lemma Qmake_times_den (q : Q) : q * inject_Z (Zpos (Qden q)) == inject_Z (Qnum q).
Proof.
  destruct q as [a b]. unfold Qeq, Qmult, inject_Z. simpl.
  rewrite Pos.mul_1_r. ring.
Qed.

Lemma pow2_below (q : Q) :
  0 < q ->
  JS.pow2 (Z.log2 (Qnum q) - Z.log2 (Zpos (Qden q)) - 1) < q.
Proof.
  intros Hq.
  assert (Ha : (0 < Qnum q)%Z).
  { destruct q as [a b]. unfold Qlt in Hq. cbn [Qnum Qden] in *. lia. }
  set (la := Z.log2 (Qnum q)). set (lb := Z.log2 (Zpos (Qden q))).
  pose proof (Z.log2_spec _ Ha) as [Hla _]. fold la in Hla.
  assert (Hb : (0 < Zpos (Qden q))%Z) by reflexivity.
  pose proof (Z.log2_spec _ Hb) as [_ Hlb]. fold lb in Hlb.
  assert (Hla0 : (0 <= la)%Z) by apply Z.log2_nonneg.
  assert (Hlb0 : (0 <= lb)%Z) by apply Z.log2_nonneg.
  set (P := JS.pow2 (la - lb - 1)).
  set (T := inject_Z (2 ^ Z.succ lb)).
  set (B := inject_Z (Zpos (Qden q))).
  assert (HT : 0 < T).
  { unfold T. change 0 with (inject_Z 0). rewrite <- Zlt_Qlt.
    apply Z.pow_pos_nonneg; lia. }
  assert (HB : 0 < B) by reflexivity.
  assert (HPT : P * T == inject_Z (2 ^ la)).
  { unfold P, T. rewrite <- (@pow2_Z (Z.succ lb)) by lia.
    rewrite <- pow2_plus. rewrite <- pow2_Z by lia.
    replace (la - lb - 1 + Z.succ lb)%Z with la by lia. reflexivity. }
  pose proof (Qmake_times_den q) as HqB. fold B in HqB.
  apply (Qmult_lt_r _ _ T HT). apply (Qmult_lt_r _ _ B HB).
  rewrite HPT.
  setoid_replace (q * T * B) with (q * B * T) by ring. rewrite HqB.
  unfold B, T. rewrite <- !inject_Z_mult, <- Zlt_Qlt.
  apply Z.lt_le_trans with (2 ^ la * 2 ^ Z.succ lb)%Z.
  - apply Z.mul_lt_mono_pos_l; [apply Z.pow_pos_nonneg; lia | exact Hlb].
  - apply Z.mul_le_mono_nonneg_r; [apply Z.pow_nonneg; lia | exact Hla].
Qed.

Lemma ilog2_le (q : Q) (K : Z) :
  0 < q -> q < JS.pow2 (K + 1) -> (JS.ilog2 q <= K)%Z.
Proof.
  intros Hq Hlt. unfold JS.ilog2. cbv zeta.
  destruct (Qle_bool _ q) eqn:E.
  - apply Qle_bool_iff in E.
    pose proof (@pow2_lt_inv _ _ (Qle_lt_trans _ _ _ E Hlt)). lia.
  - pose proof (@pow2_below q Hq) as Hb.
    pose proof (@pow2_lt_inv _ _ (Qlt_trans _ _ _ Hb Hlt)). lia.
Qed.

(** Rounding never crosses a number whose last binary digit is at or above
    the last place kept. *)
Lemma fl53_pos_grid (q : Q) (M j : Z) :
  (JS.ilog2 q - 52 <= j)%Z ->
  (q <= inject_Z M * JS.pow2 j -> JS.fl53_pos q <= inject_Z M * JS.pow2 j)
  /\ (inject_Z M * JS.pow2 j <= q -> inject_Z M * JS.pow2 j <= JS.fl53_pos q).
Proof.
  intros He. unfold JS.fl53_pos. cbv zeta.
  set (e := (JS.ilog2 q - 52)%Z) in *.
  assert (Hr : inject_Z M * JS.pow2 j == inject_Z (M * 2 ^ (j - e)) * JS.pow2 e).
  { rewrite inject_Z_mult, <- (@pow2_Z (j - e)) by lia.
    rewrite <- Qmult_assoc, <- pow2_plus.
    replace (j - e + e)%Z with j by lia. reflexivity. }
  pose proof (pow2_pos e) as Hpos.
  rewrite Qred_correct, Hr. split; intros H.
  - apply Qmult_le_compat_r; [| now apply Qlt_le_weak].
    rewrite <- Zle_Qle. apply rne_le_int.
    apply Qle_shift_div_r; assumption.
  - apply Qmult_le_compat_r; [| now apply Qlt_le_weak].
    rewrite <- Zle_Qle. apply rne_ge_int.
    apply Qle_shift_div_l; assumption.
Qed.

(** Rounding keeps a value between two integers that bracket it. *)
Lemma fl53_between (q : Q) (L U : Z) :
  (0 <= L)%Z -> (U < 2 ^ 53)%Z ->
  inject_Z L <= q <= inject_Z U ->
  inject_Z L <= JS.fl53 q <= inject_Z U.
Proof.
  intros HL HU [Hlo Hhi]. unfold JS.fl53.
  destruct (Qcompare q 0) eqn:E.
  - apply Qeq_alt in E. rewrite E in Hlo, Hhi. now split.
  - apply Qlt_alt in E. exfalso.
    apply (Qlt_irrefl 0). apply Qle_lt_trans with q; [| exact E].
    apply Qle_trans with (inject_Z L); [| exact Hlo].
    change 0 with (inject_Z 0). now rewrite <- Zle_Qle.
  - apply Qgt_alt in E.
    assert (Hexp : (JS.ilog2 q - 52 <= 0)%Z).
    { enough (JS.ilog2 q <= 52)%Z by lia. apply ilog2_le; [exact E |].
      apply Qle_lt_trans with (inject_Z U); [exact Hhi |].
      rewrite (@pow2_Z (52 + 1)) by lia. now rewrite <- Zlt_Qlt. }
    destruct (@fl53_pos_grid q L 0 Hexp) as [_ Hge].
    destruct (@fl53_pos_grid q U 0 Hexp) as [Hle _].
    change (JS.pow2 0) with 1 in Hge, Hle. rewrite Qmult_1_r in Hge, Hle.
    split; [apply Hge | apply Hle]; assumption.
Qed.

(** An integer below 2^53 in magnitude is a binary64 number. *)
Lemma Qred_inject_Z (z : Z) : Qred (inject_Z z) = inject_Z z.
Proof.
  apply Qcanon.Qred_identity. simpl. apply Z.gcd_1_r.
Qed.

Lemma fl53_pos_exact (z : Z) :
  (0 < z < 2 ^ 53)%Z -> JS.fl53_pos (inject_Z z) = inject_Z z.
Proof.
  intros Hz.
  assert (Hq : 0 < inject_Z z).
  { change 0 with (inject_Z 0). rewrite <- Zlt_Qlt. lia. }
  assert (Hexp : (JS.ilog2 (inject_Z z) - 52 <= 0)%Z).
  { enough (JS.ilog2 (inject_Z z) <= 52)%Z by lia. apply ilog2_le; [exact Hq |].
    rewrite (@pow2_Z (52 + 1)) by lia. rewrite <- Zlt_Qlt. lia. }
  destruct (@fl53_pos_grid (inject_Z z) z 0 Hexp) as [Hle Hge].
  change (JS.pow2 0) with 1 in Hge, Hle. rewrite Qmult_1_r in Hge, Hle.
  assert (E : JS.fl53_pos (inject_Z z) == inject_Z z).
  { apply Qle_antisym; [apply Hle | apply Hge]; apply Qle_refl. }
  transitivity (Qred (JS.fl53_pos (inject_Z z))).
  - unfold JS.fl53_pos. cbv zeta. symmetry. apply Qcanon.Qred_involutive.
  - rewrite (Qred_complete _ _ E). apply Qred_inject_Z.
Qed.

Lemma fl53_exact (z : Z) :
  (Z.abs z < 2 ^ 53)%Z -> JS.fl53 (inject_Z z) = inject_Z z.
Proof.
  intros Hz. unfold JS.fl53.
  destruct (Qcompare (inject_Z z) 0) eqn:E.
  - apply Qeq_alt in E. unfold Qeq in E. simpl in E.
    assert (z = 0%Z) by lia. subst z. reflexivity.
  - apply Qlt_alt in E. unfold Qlt in E. simpl in E.
    assert (Hneg : (- inject_Z z) = inject_Z (- z)) by reflexivity.
    rewrite Hneg, fl53_pos_exact by lia.
    change (- inject_Z (- z)) with (inject_Z (- - z)).
    rewrite Qred_inject_Z. f_equal. lia.
  - apply Qgt_alt in E. unfold Qlt in E. simpl in E.
    apply fl53_pos_exact. lia.
Qed.

Lemma Qfloor_unique (x : Q) (f : Z) :
  inject_Z f <= x -> x < inject_Z (f + 1) -> Qfloor x = f.
Proof.
  intros Hlo Hhi.
  pose proof (Qfloor_resp_le _ _ Hlo) as H1. rewrite Qfloor_Z in H1.
  pose proof (Qle_lt_trans _ _ _ (Qfloor_le x) Hhi) as H2.
  rewrite <- Zlt_Qlt in H2. lia.
Qed.

Lemma Qceiling_unique (x : Q) (c : Z) :
  inject_Z (c - 1) < x -> x <= inject_Z c -> Qceiling x = c.
Proof.
  intros Hlo Hhi.
  pose proof (Qceiling_resp_le _ _ Hhi) as H1. rewrite Qceiling_Z in H1.
  pose proof (Qlt_le_trans _ _ _ Hlo (Qle_ceiling x)) as H2.
  rewrite <- Zlt_Qlt in H2. lia.
Qed.

Lemma pow2_m30 : JS.pow2 (-30) == 1 # 1073741824.
Proof. reflexivity. Qed.

(** A quotient of integers that is not huge keeps its floor and its ceiling
    when it is rounded: the nearest integers are more than half a unit in
    the last place away. *)
Lemma fl53_pos_keeps_integer_part (q : Q) (n w : Z) :
  q == inject_Z n / inject_Z w ->
  (0 < w <= 2 ^ 30)%Z -> (0 < n < 2 ^ 23 * w)%Z ->
  Qfloor (JS.fl53_pos q) = (n / w)%Z
  /\ Qceiling (JS.fl53_pos q) = (- (- n / w))%Z.
Proof.
  intros Hqe Hw Hn.
  assert (HW : 0 < inject_Z w).
  { change 0 with (inject_Z 0). rewrite <- Zlt_Qlt. lia. }
  assert (Hq : 0 < q).
  { rewrite Hqe. apply Qlt_shift_div_l; [exact HW |]. rewrite Qmult_0_l.
    change 0 with (inject_Z 0). rewrite <- Zlt_Qlt. lia. }
  assert (Hexp : (JS.ilog2 q - 52 <= -30)%Z).
  { enough (JS.ilog2 q <= 22)%Z by lia. apply ilog2_le; [exact Hq |].
    rewrite Hqe. apply Qlt_shift_div_r; [exact HW |].
    rewrite (@pow2_Z (22 + 1)) by lia.
    rewrite <- inject_Z_mult, <- Zlt_Qlt. lia. }
  assert (Hexp0 : (JS.ilog2 q - 52 <= 0)%Z) by lia.
  assert (Hwn : w <> 0%Z) by lia.
  assert (Hwp : (0 < w)%Z) by lia.
  split.
  - pose proof (Z.div_mod n w Hwn) as Hdm.
    pose proof (Z.mod_pos_bound n w Hwp) as Hb.
    set (f := (n / w)%Z) in *.
    apply Qfloor_unique.
    + destruct (@fl53_pos_grid q f 0 Hexp0) as [_ Hge].
      change (JS.pow2 0) with 1 in Hge. rewrite Qmult_1_r in Hge. apply Hge.
      rewrite Hqe. apply Qle_shift_div_l; [exact HW |].
      rewrite <- inject_Z_mult, <- Zle_Qle. nia.
    + destruct (@fl53_pos_grid q ((f + 1) * 2 ^ 30 - 1) (-30) Hexp)
        as [Hle _].
      apply Qle_lt_trans
        with (inject_Z ((f + 1) * 2 ^ 30 - 1) * JS.pow2 (-30)).
      * apply Hle. rewrite Hqe. apply Qle_shift_div_r; [exact HW |].
        rewrite pow2_m30. unfold Qle, Qmult, inject_Z; simpl.
        rewrite !Z.mul_1_r. nia.
      * rewrite pow2_m30. unfold Qlt, Qmult, inject_Z; simpl. lia.
  - pose proof (Z.div_mod (- n) w Hwn) as Hdm.
    pose proof (Z.mod_pos_bound (- n) w Hwp) as Hb.
    set (c := (- (- n / w))%Z) in *.
    apply Qceiling_unique.
    + destruct (@fl53_pos_grid q ((c - 1) * 2 ^ 30 + 1) (-30) Hexp)
        as [_ Hge].
      apply Qlt_le_trans
        with (inject_Z ((c - 1) * 2 ^ 30 + 1) * JS.pow2 (-30)).
      * rewrite pow2_m30. unfold Qlt, Qmult, inject_Z; simpl. lia.
      * apply Hge. rewrite Hqe. apply Qle_shift_div_l; [exact HW |].
        rewrite pow2_m30. unfold Qle, Qmult, inject_Z; simpl.
        rewrite !Z.mul_1_r. nia.
    + destruct (@fl53_pos_grid q c 0 Hexp0) as [Hle _].
      change (JS.pow2 0) with 1 in Hle. rewrite Qmult_1_r in Hle. apply Hle.
      rewrite Hqe. apply Qle_shift_div_r; [exact HW |].
      rewrite <- inject_Z_mult, <- Zle_Qle. nia.
Qed.

(** The same for the ceiling of a quotient of either sign. *)
Lemma fl53_keeps_ceiling (n w : Z) :
  (0 < w <= 2 ^ 30)%Z -> (Z.abs n < 2 ^ 23 * w)%Z ->
  Qceiling (JS.fl53 (inject_Z n / inject_Z w)) = (- (- n / w))%Z.
Proof.
  intros Hw Hn.
  assert (HW : 0 < inject_Z w).
  { change 0 with (inject_Z 0). rewrite <- Zlt_Qlt. lia. }
  unfold JS.fl53.
  destruct (Z.lt_trichotomy n 0) as [Hneg | [-> | Hpos]].
  - assert (E : Qcompare (inject_Z n / inject_Z w) 0 = Lt).
    { apply Qlt_alt. apply Qlt_shift_div_r; [exact HW |]. rewrite Qmult_0_l.
      change 0 with (inject_Z 0). rewrite <- Zlt_Qlt. exact Hneg. }
    rewrite E.
    rewrite (Qceiling_comp _ _ (Qred_correct _)).
    unfold Qceiling. rewrite (Qfloor_comp _ _ (Qopp_involutive _)).
    assert (Hqe : - (inject_Z n / inject_Z w) == inject_Z (- n) / inject_Z w).
    { rewrite inject_Z_opp. unfold Qdiv. ring. }
    destruct (@fl53_pos_keeps_integer_part _ (- n) w Hqe Hw) as [Hf _];
      [lia |].
    now rewrite Hf.
  - assert (E : Qcompare (inject_Z 0 / inject_Z w) 0 = Eq).
    { apply Qeq_alt. unfold Qdiv. change (inject_Z 0) with 0. ring. }
    rewrite E. reflexivity.
  - assert (E : Qcompare (inject_Z n / inject_Z w) 0 = Gt).
    { apply Qgt_alt. apply Qlt_shift_div_l; [exact HW |]. rewrite Qmult_0_l.
      change 0 with (inject_Z 0). rewrite <- Zlt_Qlt. exact Hpos. }
    rewrite E.
    destruct (@fl53_pos_keeps_integer_part _ n w (Qeq_refl _) Hw) as [_ Hc];
      [lia |].
    exact Hc.
Qed.

End DoubleRounding.

(* ------------------------------------------------------------------ *)
(** ** Batch duration and date validation *)

Lemma week_fits : (0 < BatchModel.MS_PER_WEEK <= 2 ^ 30)%Z.
Proof. unfold BatchModel.MS_PER_WEEK. lia. Qed.

Lemma ceiling_quotient_is_ceiling (d : Z) :
  Spec.is_ceiling (- (- d / BatchModel.MS_PER_WEEK)) d BatchModel.MS_PER_WEEK.
Proof.
  unfold Spec.is_ceiling.
  assert (HW : (0 < BatchModel.MS_PER_WEEK)%Z) by reflexivity.
  assert (HN : BatchModel.MS_PER_WEEK <> 0%Z) by discriminate.
  pose proof (Z.div_mod (- d) _ HN) as Hdm.
  pose proof (Z.mod_pos_bound (- d) _ HW) as Hb.
  nia.
Qed.

(** [Math.ceil(d / week)] on a span of less than 2^52 milliseconds. *)
Lemma weeks_of_span (d : Z) :
  (Z.abs d < 2 ^ 52)%Z ->
  JS.ceil (JS.div (JS.of_Z d) (JS.of_Z BatchModel.MS_PER_WEEK))
  = JS.of_Z (- (- d / BatchModel.MS_PER_WEEK)).
Proof.
  intros Hd. cbv beta iota delta [JS.div JS.of_Z JS.ceil].
  change (JS.is_zero (inject_Z BatchModel.MS_PER_WEEK)) with false.
  cbv iota. f_equal. f_equal.
  apply fl53_keeps_ceiling; [exact week_fits |].
  unfold BatchModel.MS_PER_WEEK. lia.
Qed.

Lemma sub_of_dates (e st : Z) :
  (Z.abs (e - st) < 2 ^ 53)%Z ->
  JS.sub (JS.of_Z e) (JS.of_Z st) = JS.of_Z (e - st).
Proof.
  intros H. cbv beta iota delta [JS.sub JS.of_Z].
  replace (inject_Z e - inject_Z st)%Q with (inject_Z (e - st)).
  - now rewrite fl53_exact.
  - unfold Qminus, Qplus, Qopp, inject_Z. simpl. f_equal. lia.
Qed.

Lemma virtual_durationWeeks (b : Batch) :
  (Z.abs (endDate b - startDate b) < 2 ^ 52)%Z ->
  BatchModel.durationWeeks b
  = JS.of_Z (- (- Z.abs (endDate b - startDate b) / BatchModel.MS_PER_WEEK)).
Proof.
  intros H. unfold BatchModel.durationWeeks. cbv zeta.
  rewrite sub_of_dates by lia.
  change (JS.abs (JS.of_Z (endDate b - startDate b)))
    with (JS.of_Z (Z.abs (endDate b - startDate b))).
  apply weeks_of_span. lia.
Qed.

Lemma projected_durationWeeks (b : Batch) :
  (Z.abs (endDate b - startDate b) < 2 ^ 52)%Z ->
  SuperAdminDashboard.durationWeeks b = JS.of_Z (Spec.durationWeeks b).
Proof.
  intros H. unfold SuperAdminDashboard.durationWeeks,
    SuperAdminDashboard.double_of_long, Spec.durationWeeks.
  rewrite fl53_exact by lia.
  change (7 * 24 * 60 * 60 * 1000)%Z with BatchModel.MS_PER_WEEK.
  now apply weeks_of_span.
Qed.

Lemma of_Z_inj (x y : Z) : JS.of_Z x = JS.of_Z y -> x = y.
Proof. unfold JS.of_Z, inject_Z. intros H. now injection H. Qed.

Lemma endDate_not_after_fails_validation (b : Batch) :
  (endDate b <= startDate b)%Z ->
  In (BatchModel.ValidatorFailed "endDate" "End date must be after start date")
     (BatchModel.validate (BatchModel.applySetters b)).
Proof.
  intros H. unfold BatchModel.validate, BatchModel.endDate_validator.
  cbn [BatchModel.applySetters startDate endDate].
  destruct (startDate b <? endDate b)%Z eqn:E; [apply Z.ltb_lt in E; lia |].
  do 3 (apply in_or_app; right). apply in_or_app. left. now left.
Qed.

(** The setters run before validation and before the unique index: a code
    given as " me24 " is stored as "ME24", and " cs24" collides with the
    existing "CS24". *)
Lemma create_stores_the_code_in_upper_case :
  (exists s',
      BatchModel.create
        (mkBatch 53 " ME 2024 " "Mechanical engineering" " me24 "
                 Campus.jan_2024 Campus.jun_2024 [20] [] 2 30%Z)
        Campus.store = inr s'
      /\ map batch_code (batches s')
         = map batch_code (batches Campus.store) ++ ["ME24"])
  /\ BatchModel.create
       (mkBatch 53 "CS again" "Computer science" " cs24"
                Campus.jan_2024 Campus.jun_2024 [20] [] 2 30%Z)
       Campus.store = inl (BatchModel.DuplicateKey "code").
Proof. split; [eexists; split |]; vm_compute; reflexivity. Qed.

(** C9 (amended): for every batch whose two dates are less than 2^52
    milliseconds apart, the virtual [durationWeeks] is the ceiling of
    |endDate - startDate| / (7 days); it is the ceiling of
    (endDate - startDate) / (7 days) exactly when endDate is not before
    startDate, while the field the super-admin listing projects is that
    ceiling for either order.  A batch is created only when its endDate is
    after its startDate, and a created batch of such a span has the claimed
    duration; creating a batch whose endDate is not after its startDate
    fails validation, and the batch is not persisted. *)
Theorem batch_durationWeeks_and_date_validation (b : Batch) (s : Store) :
  ((Z.abs (endDate b - startDate b) < 2 ^ 52)%Z ->
     (exists k,
         BatchModel.durationWeeks b = JS.of_Z k
         /\ Spec.is_ceiling k (Z.abs (endDate b - startDate b))
                            BatchModel.MS_PER_WEEK)
     /\ (BatchModel.durationWeeks b = JS.of_Z (Spec.durationWeeks b)
         <-> (startDate b <= endDate b)%Z)
     /\ SuperAdminDashboard.durationWeeks b = JS.of_Z (Spec.durationWeeks b))
  /\ Spec.is_ceiling (Spec.durationWeeks b) (endDate b - startDate b)
                     BatchModel.MS_PER_WEEK
  /\ (forall s', BatchModel.create b s = inr s' ->
        (startDate b < endDate b)%Z
        /\ batches s' = batches s ++ [BatchModel.applySetters b]
        /\ ((Z.abs (endDate b - startDate b) < 2 ^ 52)%Z ->
            BatchModel.durationWeeks (BatchModel.applySetters b)
            = JS.of_Z (Spec.durationWeeks b)))
  /\ ((endDate b <= startDate b)%Z ->
        (exists errs,
            BatchModel.create b s = inl (BatchModel.ValidationFailed errs)
            /\ In (BatchModel.ValidatorFailed "endDate"
                     "End date must be after start date") errs)
        /\ ~ BatchModel.persisted b (BatchModel.create b s)).
Proof.
  assert (HW : (0 < BatchModel.MS_PER_WEEK)%Z) by reflexivity.
  split; [| split; [| split]].
  - intros Hspan. split; [| split].
    + eexists. split; [now apply virtual_durationWeeks |].
      apply ceiling_quotient_is_ceiling.
    + rewrite (virtual_durationWeeks b Hspan). unfold Spec.durationWeeks.
      pose proof (ceiling_quotient_is_ceiling
                    (Z.abs (endDate b - startDate b))) as Habs.
      pose proof (ceiling_quotient_is_ceiling (endDate b - startDate b))
        as Hraw.
      split.
      * intros Heq. apply of_Z_inj in Heq. rewrite Heq in Habs.
        unfold Spec.is_ceiling in Habs, Hraw.
        set (k := (- (- (endDate b - startDate b) / BatchModel.MS_PER_WEEK))%Z)
          in *.
        set (W := BatchModel.MS_PER_WEEK) in *.
        destruct (Z.le_gt_cases (startDate b) (endDate b)) as [Hle | Hgt];
          [exact Hle | exfalso].
        rewrite Z.abs_neq in Habs by lia.
        assert (Hk : (1 <= k)%Z) by nia. nia.
      * intros Hle. now rewrite Z.abs_eq by lia.
    + now apply projected_durationWeeks.
  - apply ceiling_quotient_is_ceiling.
  - intros s' Hc. unfold BatchModel.create in Hc. cbv zeta in Hc.
    destruct (BatchModel.endDate_validator (BatchModel.applySetters b))
      eqn:Hv.
    + unfold BatchModel.endDate_validator in Hv.
      cbn [BatchModel.applySetters startDate endDate] in Hv.
      apply Z.ltb_lt in Hv.
      split; [exact Hv | split].
      * destruct (BatchModel.validate (BatchModel.applySetters b));
          [| discriminate].
        destruct (existsb _ (batches s)); [discriminate |].
        injection Hc as <-. reflexivity.
      * intros Hspan.
        assert (Hspan' :
                 (Z.abs (endDate (BatchModel.applySetters b)
                         - startDate (BatchModel.applySetters b)) < 2 ^ 52)%Z)
          by exact Hspan.
        rewrite (virtual_durationWeeks _ Hspan').
        cbn [BatchModel.applySetters startDate endDate].
        unfold Spec.durationWeeks. now rewrite Z.abs_eq by lia.
    + exfalso.
      assert (Hin : In (BatchModel.ValidatorFailed "endDate"
                          "End date must be after start date")
                       (BatchModel.validate (BatchModel.applySetters b))).
      { apply endDate_not_after_fails_validation.
        unfold BatchModel.endDate_validator in Hv.
        cbn [BatchModel.applySetters startDate endDate] in Hv.
        apply Z.ltb_ge in Hv. lia. }
      destruct (BatchModel.validate (BatchModel.applySetters b));
        [destruct Hin | discriminate].
  - intros Hle.
    pose proof (endDate_not_after_fails_validation b Hle) as Hin.
    unfold BatchModel.create. cbv zeta.
    destruct (BatchModel.validate (BatchModel.applySetters b))
      as [| e errs] eqn:Hv; [destruct Hin |].
    split; [| simpl; tauto].
    exists (e :: errs). split; [reflexivity | exact Hin].
Qed.

Lemma batch_durationWeeks_and_date_validation_witness :
  (BatchModel.durationWeeks Campus.cs24 = JS.of_Z 22
   /\ SuperAdminDashboard.durationWeeks Campus.cs24 = JS.of_Z 22
   /\ SuperAdminDashboard.durationWeeks Campus.backwards = JS.of_Z (-21))
  /\ ~ BatchModel.persisted Campus.backwards
         (BatchModel.create Campus.backwards Campus.store).
Proof.
  split.
  - destruct (batch_durationWeeks_and_date_validation Campus.cs24 Campus.store)
      as [H _].
    destruct (H eq_refl) as [_ [Hiff Hsuper]].
    destruct (batch_durationWeeks_and_date_validation Campus.backwards
                Campus.store) as [H' _].
    destruct (H' eq_refl) as [_ [_ Hsuper']].
    split; [| split].
    + apply Hiff. vm_compute. discriminate.
    + exact Hsuper.
    + exact Hsuper'.
  - destruct (batch_durationWeeks_and_date_validation Campus.backwards
                Campus.store) as [_ [_ [_ H]]].
    apply H. vm_compute. discriminate.
Defined.

(** C9, the failing input: a batch whose dates are five months apart in the
    wrong order has a virtual [durationWeeks] of 22, where the ceiling of
    (endDate - startDate) / (7 days) is -21. *)
Lemma reversed_batch_durationWeeks_is_not_the_ceiling :
  BatchModel.durationWeeks Campus.backwards = JS.of_Z 22
  /\ Spec.durationWeeks Campus.backwards = (-21)%Z
  /\ Spec.is_ceiling (-21)
       (endDate Campus.backwards - startDate Campus.backwards)
       BatchModel.MS_PER_WEEK
  /\ BatchModel.durationWeeks Campus.backwards
     <> JS.of_Z (Spec.durationWeeks Campus.backwards).
Proof.
  split; [vm_compute; reflexivity |].
  split; [vm_compute; reflexivity |].
  split; [vm_compute; split; [reflexivity | discriminate] |].
  vm_compute. discriminate.
Qed.

(* ------------------------------------------------------------------ *)
(** ** Cascading deletion *)

Lemma admin_cleanup_clears_batch_sets (user : User) (s : Store) :
  role user = student ->
  References.in_batch_students (user_id user)
    (AdminUserManagement_delete.role_cleanup user s) = false.
Proof.
  intros Hr. unfold AdminUserManagement_delete.role_cleanup. rewrite Hr.
  unfold References.in_batch_students. simpl.
  apply existsb_false_iff. intros b Hb.
  apply in_update_many in Hb. destruct Hb as [x [_ ->]].
  destruct (Mongo.mem (user_id user) (batch_students x)) eqn:E.
  - simpl. apply mem_pull_same.
  - exact E.
Qed.

Lemma super_cleanup_clears_courses (actor : Principal) (user : User) (s : Store) :
  role user = student ->
  let s' := SuperAdminDashboard_delete.role_cleanup actor user s in
  References.in_course_students (user_id user) s' = false
  /\ References.in_submissions (user_id user) s' = false
  /\ References.has_attendance (user_id user) s' = false.
Proof.
  intros Hr. unfold SuperAdminDashboard_delete.role_cleanup. rewrite Hr.
  cbv zeta. split; [| split].
  - unfold References.in_course_students. simpl.
    apply existsb_false_iff. intros c Hc.
    apply in_update_many in Hc. destruct Hc as [x [_ ->]].
    destruct (enrolled (user_id user) x) eqn:E; [| exact E].
    unfold enrolled. simpl. apply existsb_false_iff. intros e He.
    apply filter_In in He. destruct He as [_ He].
    now apply negb_true_iff in He.
  - unfold References.in_submissions. simpl.
    apply existsb_false_iff. intros a Ha.
    apply in_update_many in Ha. destruct Ha as [x [_ ->]].
    destruct (has_submission (user_id user) x) eqn:E; [| exact E].
    unfold has_submission. simpl. apply existsb_false_iff. intros sb Hsb.
    apply filter_In in Hsb. destruct Hsb as [_ Hsb].
    now apply negb_true_iff in Hsb.
  - unfold References.has_attendance. simpl.
    apply existsb_false_iff. intros a Ha.
    unfold delete_all in Ha. apply filter_In in Ha. destruct Ha as [_ Ha].
    now apply negb_true_iff in Ha.
Qed.

(** The two transactional handlers refuse a request to delete the caller's
    own account, whatever the caller's role, and leave the store as it was. *)
Lemma admin_delete_self_rejected (p : Principal) (s : Store) :
  exists code msg,
    AdminUserManagement_delete.deleteUser p (principal_id p) s
    = (Failure code msg, s).
Proof.
  unfold AdminUserManagement_delete.deleteUser, AdminUserManagement_delete.deleteUserRoute;
    cbn [is_rendering castObjectId].
  destruct (role_eqb (principal_role p) superadmin); simpl.
  - rewrite Nat.eqb_refl. eauto.
  - eauto.
Qed.

Lemma super_delete_self_rejected (p : Principal) (s : Store) :
  exists code msg,
    SuperAdminDashboard_delete.deleteUser p (principal_id p) s
    = (Failure code msg, s).
Proof.
  unfold SuperAdminDashboard_delete.deleteUser, SuperAdminDashboard_delete.deleteUserRoute;
    cbn [is_rendering castObjectId].
  destruct (role_eqb (principal_role p) superadmin); simpl.
  - rewrite Nat.eqb_refl. eauto.
  - eauto.
Qed.

(** What a successful deletion of a student through the super-admin handler
    cleans, and what it leaves: the batch documents are not touched. *)
Lemma super_delete_student_effect p uid s user msg s' :
  findUserById uid s = Some user ->
  role user = student ->
  SuperAdminDashboard_delete.deleteUser p uid s = (Success 200 msg, s') ->
  References.in_course_students uid s' = false
  /\ References.in_submissions uid s' = false
  /\ References.has_attendance uid s' = false
  /\ batches s' = batches s.
Proof.
  intros Hfind Hrole. unfold SuperAdminDashboard_delete.deleteUser, SuperAdminDashboard_delete.deleteUserRoute;
    cbn [is_rendering castObjectId].
  destruct (negb (role_eqb (principal_role p) superadmin)); [discriminate |].
  destruct (Nat.eqb uid (principal_id p)); [discriminate |].
  rewrite Hfind. intros [= _ <-].
  assert (Hid : user_id user = uid).
  { unfold findUserById in Hfind. apply find_some in Hfind.
    destruct Hfind as [_ H]. now apply Nat.eqb_eq in H. }
  destruct (super_cleanup_clears_courses p user s Hrole) as [Hc [Hs Ha]].
  rewrite Hid in Hc, Hs, Ha.
  repeat split; try assumption.
  unfold SuperAdminDashboard_delete.role_cleanup. rewrite Hrole. reflexivity.
Qed.

(** The same for the admin user-management handler: it empties the batch
    sets and touches neither courses, assignments nor attendance. *)
Lemma admin_delete_student_effect p uid s user msg s' :
  findUserById uid s = Some user ->
  role user = student ->
  AdminUserManagement_delete.deleteUser p uid s = (Success 200 msg, s') ->
  References.in_batch_students uid s' = false
  /\ courses s' = courses s
  /\ assignments s' = assignments s
  /\ attendances s' = attendances s.
Proof.
  intros Hfind Hrole. unfold AdminUserManagement_delete.deleteUser, AdminUserManagement_delete.deleteUserRoute;
    cbn [is_rendering castObjectId].
  destruct (negb (role_eqb (principal_role p) superadmin)); [discriminate |].
  destruct (Nat.eqb uid (principal_id p)); [discriminate |].
  rewrite Hfind, Hrole. simpl. intros [= _ <-].
  assert (Hid : user_id user = uid).
  { unfold findUserById in Hfind. apply find_some in Hfind.
    destruct Hfind as [_ H]. now apply Nat.eqb_eq in H. }
  pose proof (admin_cleanup_clears_batch_sets user s Hrole) as Hb.
  rewrite Hid in Hb.
  unfold AdminUserManagement_delete.role_cleanup in *. rewrite Hrole in *.
  repeat split; assumption || reflexivity.
Qed.

(** C1: on the campus store, where student 10 is listed in a batch, enrolled
    in a course, has a submission, an attendance record and a profile, each of
    the three deletion handlers deletes the user and leaves references to the
    user behind. *)
Theorem student_deletion_leaves_references :
  let by_admin_routes :=
    AdminUserManagement_delete.deleteUser Campus.root 10 Campus.store in
  let by_super_admin :=
    SuperAdminDashboard_delete.deleteUser Campus.root 10 Campus.store in
  let by_student_routes :=
    StudentRoutes_delete.deleteStudent Campus.registrar 10 Campus.store in
  (is_success (fst by_admin_routes) = true
   /\ References.user_exists 10 (snd by_admin_routes) = false
   /\ References.in_course_students 10 (snd by_admin_routes) = true
   /\ References.in_submissions 10 (snd by_admin_routes) = true
   /\ References.has_attendance 10 (snd by_admin_routes) = true)
  /\ (is_success (fst by_super_admin) = true
      /\ References.user_exists 10 (snd by_super_admin) = false
      /\ References.in_batch_students 10 (snd by_super_admin) = true)
  /\ (is_success (fst by_student_routes) = true
      /\ References.user_exists 10 (snd by_student_routes) = false
      /\ References.in_batch_students 10 (snd by_student_routes) = true
      /\ References.in_course_students 10 (snd by_student_routes) = true
      /\ References.in_submissions 10 (snd by_student_routes) = true
      /\ References.has_attendance 10 (snd by_student_routes) = true).
Proof. vm_compute. repeat split. Qed.

(** C2: an admin who asks the student router to delete the admin's own id
    gets a success answer and the admin's account is gone from the store. *)
Theorem student_router_deletes_own_account :
  let r :=
    StudentRoutes_delete.deleteStudent Campus.registrar
      (principal_id Campus.registrar) Campus.store in
  References.user_exists (principal_id Campus.registrar) Campus.store = true
  /\ fst r = Success 200 "Student account deleted successfully"
  /\ References.user_exists (principal_id Campus.registrar) (snd r) = false
  /\ snd r <> Campus.store.
Proof.
  vm_compute. repeat split. discriminate.
Qed.

(* ------------------------------------------------------------------ *)
(** ** Report status workflow *)

Lemma report_status_pre_save now n m c (r : Report) :
  report_status (Reports.pre_save now n m c r) = report_status r.
Proof.
  unfold Reports.pre_save, Reports.pre_save_comments, Reports.pre_save_status.
  destruct c, (n || m); reflexivity.
Qed.

Lemma report_id_pre_save now n m c (r : Report) :
  report_id (Reports.pre_save now n m c r) = report_id r.
Proof.
  unfold Reports.pre_save, Reports.pre_save_comments, Reports.pre_save_status.
  destruct c, (n || m); reflexivity.
Qed.

Lemma statusHistory_pre_save now m c (r : Report) :
  statusHistory (Reports.pre_save now false m c r)
  = statusHistory r
    ++ (if m then [mkStatusEntry (report_status r) (report_createdBy r) now None]
        else []).
Proof.
  unfold Reports.pre_save, Reports.pre_save_comments, Reports.pre_save_status.
  destruct c, m; simpl; now rewrite ?app_nil_r.
Qed.

Lemma findReport_some_id id s r :
  Reports.findReport id s = Some r -> report_id r = id.
Proof.
  unfold Reports.findReport. intros H. apply find_some in H.
  destruct H as [_ H]. now apply Nat.eqb_eq in H.
Qed.

Lemma save_result now loaded c (r r' : Report) (s s' : Store) :
  Reports.save now loaded c true r s = Some (r', s') ->
  r' = Reports.pre_save now false
         (negb (status_eqb (report_status r) loaded)) c r.
Proof. unfold Reports.save. congruence. Qed.

(** A successful [save] is what [findById] returns afterwards. *)
Lemma findReport_after_save now loaded c id (r r0 r' : Report) (s s' : Store) :
  Reports.findReport id s = Some r0 ->
  report_id r = id ->
  Reports.save now loaded c true r s = Some (r', s') ->
  Reports.findReport id s' = Some r'.
Proof.
  intros Hf Hid Hs. unfold Reports.save in Hs. injection Hs as <- <-.
  unfold Reports.findReport in *. simpl.
  apply (@find_update_first Report (fun x => Nat.eqb (report_id x) id)
           (fun x => Nat.eqb (report_id x) (report_id r))
           (fun _ => Reports.pre_save now false
                       (negb (status_eqb (report_status r) loaded)) c r)
           (reports s) r0).
  - intros y. now rewrite Hid.
  - exact Hf.
  - rewrite report_id_pre_save, Hid. apply Nat.eqb_refl.
Qed.

Lemma parse_status_allowed allowed (v : option string) (st : ReportStatus) :
  Reports.parse_status allowed v = Some st -> In st (map snd allowed).
Proof.
  unfold Reports.parse_status. destruct v as [str |]; [| discriminate].
  destruct (find (fun kv => String.eqb (fst kv) str) allowed) as [kv |] eqn:E;
    [| discriminate].
  intros [= <-]. apply in_map. apply find_some in E. tauto.
Qed.

Lemma allowed_status_not_draft (v : option string) (st : ReportStatus) :
  Reports.parse_status Reports.reports_allowed v = Some st -> st <> draft.
Proof.
  intros H. apply parse_status_allowed in H. simpl in H.
  intuition (subst; discriminate).
Qed.

(** The second entry of a status update: the one the pre-save hook adds
    when the status has changed. *)
Lemma apply_status_accepted p st req now report s id :
  Reports.findReport id s = Some report ->
  (String.length (Reports.history_comment req) <= 500)%nat ->
  exists report' s',
    Reports.apply_status p st req now report s = (Success 200 report', s')
    /\ Reports.findReport id s' = Some report'
    /\ report_status report' = st
    /\ statusHistory report'
       = statusHistory report
         ++ Reports.route_entry p st req now
            :: (if status_eqb st (report_status report) then []
                else [mkStatusEntry st (report_createdBy report) now None]).
Proof.
  intros Hr Hlen. unfold Reports.apply_status.
  assert (Hv : Reports.valid_history_entry (Reports.route_entry p st req now)
               = true).
  { unfold Reports.valid_history_entry, Reports.route_entry. simpl.
    now apply Nat.leb_le. }
  rewrite Hv.
  match goal with
  | |- context [Reports.save now ?l ?c true ?r s] =>
      destruct (Reports.save now l c true r s) as [[r' s'] |] eqn:Hsave;
      [| discriminate Hsave]
  end.
  exists r', s'.
  assert (Hfound : Reports.findReport id s' = Some r').
  { eapply findReport_after_save; [exact Hr | | exact Hsave].
    simpl. eapply findReport_some_id; eassumption. }
  rewrite (save_result Hsave) in *.
  split; [reflexivity |]. split; [exact Hfound |]. split.
  - now rewrite report_status_pre_save.
  - rewrite statusHistory_pre_save. simpl.
    destruct (status_eqb st (report_status report)); simpl;
      rewrite <- ?app_assoc, ?app_nil_r; reflexivity.
Qed.

(** The trainer router has the same handler behind a stricter role check; it
    consults the current status no more than the other one does. *)
Lemma trainer_status_update_accepts_every_allowed_target :
  forall p id req now s report stu st,
    principal_role p = trainer ->
    Reports.findReport id s = Some report ->
    Reports.findStudent (report_student report) s = Some stu ->
    assignedFaculty stu = Some (principal_id p) ->
    Reports.parse_status Reports.trainer_allowed (Reports.body_status req)
    = Some st ->
    (String.length (Reports.history_comment req) <= 500)%nat ->
    exists report' s',
      Reports.trainerUpdateStatus p id req now s = (Success 200 report', s')
      /\ Reports.findReport id s' = Some report'
      /\ report_status report' = st
      /\ statusHistory report'
         = statusHistory report
           ++ Reports.route_entry p st req now
              :: (if status_eqb st (report_status report) then []
                  else [mkStatusEntry st (report_createdBy report) now None]).
Proof.
  intros p id req now s report stu st Hrole Hr Hs Hf Hp Hlen.
  unfold Reports.trainerUpdateStatus.
  rewrite Hrole, Hp, Hr, Hs, Hf, Nat.eqb_refl. simpl.
  now apply apply_status_accepted.
Qed.




(** The body of the comment handlers, once the caller is authorised. *)
Lemma apply_comment_accepted p (advance : bool) req now report s id :
  Reports.findReport id s = Some report ->
  Reports.storable_text (JS.trim (Reports.body_text req)) = true ->
  exists payload s' report',
    Reports.apply_comment p advance req now report s
    = (Success 201 payload, s')
    /\ Reports.findReport id s' = Some report'
    /\ report_status report'
       = (if advance then reviewed else report_status report)
    /\ List.length (comments report') = S (List.length (comments report)).
Proof.
  intros Hr Htext. unfold Reports.apply_comment.
  unfold Reports.valid_comment at 1. simpl comment_text. rewrite Htext.
  match goal with
  | |- context [Reports.save now ?l ?c true ?r s] =>
      destruct (Reports.save now l c true r s) as [[r' s'] |] eqn:Hsave;
      [| discriminate Hsave]
  end.
  eexists _, s', r'. split; [reflexivity |].
  split.
  - eapply findReport_after_save; [exact Hr | | exact Hsave].
    destruct advance; simpl; eapply findReport_some_id; eassumption.
  - rewrite (save_result Hsave). rewrite report_status_pre_save.
    split; [destruct advance; reflexivity |].
    unfold Reports.pre_save, Reports.pre_save_comments.
    cbn [comments Reports.set_comments]. rewrite length_map.
    unfold Reports.pre_save_status.
    destruct advance, (false || _); simpl; rewrite length_app; simpl; lia.
Qed.

Lemma trainer_comment_advances_only_submitted :
  forall p id req now s report stu,
    principal_role p = trainer ->
    Reports.findReport id s = Some report ->
    Reports.findStudent (report_student report) s = Some stu ->
    assignedFaculty stu = Some (principal_id p) ->
    Reports.text_valid req = true ->
    Reports.storable_text (JS.trim (Reports.body_text req)) = true ->
    exists payload s' report',
      Reports.trainerAddComment p id req now s = (Success 201 payload, s')
      /\ Reports.findReport id s' = Some report'
      /\ report_status report'
         = (if status_eqb (report_status report) submitted then reviewed
            else report_status report).
Proof.
  intros p id req now s report stu Hrole Hr Hs Hf Hvalid Htext.
  unfold Reports.trainerAddComment.
  rewrite Hrole, Hvalid, Hr, Hs, Hf, Nat.eqb_refl. simpl.
  destruct (@apply_comment_accepted p
              (status_eqb (report_status report) submitted) req now report s
              id Hr Htext)
    as [payload [s' [report' [Hrun [Hfind [Hst _]]]]]].
  exists payload, s', report'. auto.
Qed.

(** C8: when the assigned faculty member or an admin adds a storable comment,
    a report that was submitted becomes reviewed provided the commenter is not
    a student, and a report in any other status keeps its status. *)
Theorem comment_advances_only_submitted :
  forall p id req now s report stu f,
    Reports.findReport id s = Some report ->
    Reports.findStudent (report_student report) s = Some stu ->
    assignedFaculty stu = Some f ->
    (f = principal_id p \/ principal_role p = admin) ->
    Reports.text_valid req = true ->
    Reports.storable_text (JS.trim (Reports.body_text req)) = true ->
    exists payload s' report',
      Reports.addComment p id req now s = (Success 201 payload, s')
      /\ Reports.findReport id s' = Some report'
      /\ (report_status report = submitted ->
          principal_role p <> student ->
          report_status report' = reviewed)
      /\ (report_status report <> submitted ->
          report_status report' = report_status report).
Proof.
  intros p id req now s report stu f Hr Hs Hf Hauth Hvalid Htext.
  unfold Reports.addComment. rewrite Hvalid, Hr, Hs, Hf. simpl.
  assert (Hallowed : negb (Nat.eqb f (principal_id p))
                  && negb (role_eqb (principal_role p) admin) = false).
  { destruct Hauth as [H | H]; rewrite H;
      [now rewrite Nat.eqb_refl | apply andb_false_r]. }
  rewrite Hallowed.
  destruct (@apply_comment_accepted p
              (status_eqb (report_status report) submitted
               && negb (role_eqb (principal_role p) student))
              req now report s id Hr Htext)
    as [payload [s' [report' [Hrun [Hfind [Hst _]]]]]].
  exists payload, s', report'. split; [exact Hrun |].
  split; [exact Hfind |]. rewrite Hst. split.
  - intros Hsub Hrole. rewrite Hsub. simpl.
    destruct (principal_role p) eqn:E; simpl; congruence.
  - intros Hsub.
    destruct (report_status report) eqn:E; simpl; congruence.
Qed.

Lemma comment_advances_only_submitted_witness :
  let req := Reports.mkCommentRequest true "Please add the references." in
  (exists payload s' report',
      Reports.addComment Campus.asha 81 req 1720000000000%Z Campus.store
      = (Success 201 payload, s')
      /\ Reports.findReport 81 s' = Some report'
      /\ report_status report' = reviewed)
  /\ (exists payload s' report',
         Reports.addComment Campus.asha 80 req 1720000000000%Z Campus.store
         = (Success 201 payload, s')
         /\ Reports.findReport 80 s' = Some report'
         /\ report_status report' = draft).
Proof.
  intros req. split.
  - destruct (comment_advances_only_submitted Campus.asha 81 req
                1720000000000%Z Campus.store
                eq_refl eq_refl eq_refl (or_introl eq_refl) eq_refl eq_refl)
      as [payload [s' [report' [Hrun [Hfind [Hadv _]]]]]].
    exists payload, s', report'. repeat split; try assumption.
    apply Hadv; [reflexivity | discriminate].
  - destruct (comment_advances_only_submitted Campus.asha 80 req
                1720000000000%Z Campus.store
                eq_refl eq_refl eq_refl (or_introl eq_refl) eq_refl eq_refl)
      as [payload [s' [report' [Hrun [Hfind [_ Hkeep]]]]]].
    exists payload, s', report'. repeat split; try assumption.
    apply Hkeep. discriminate.
Defined.

(* ------------------------------------------------------------------ *)
(** ** Percentages over an empty population *)

Lemma fold_left_count_shift {A} (c : A -> nat) (l : list A) (a : nat) :
  fold_left (fun sum item => sum + c item) l a
  = a + fold_left (fun sum item => sum + c item) l 0.
Proof.
  revert a. induction l as [| x t IH]; intros a; simpl; [lia |].
  rewrite (IH (a + c x)), (IH (c x)). lia.
Qed.

Lemma totalAttendance_zero_counts (summary : list FacultyDashboard.StatusCount) :
  FacultyDashboard.totalAttendance summary = 0 ->
  forall item, In item summary -> FacultyDashboard.sc_count item = 0.
Proof.
  unfold FacultyDashboard.totalAttendance.
  induction summary as [| x t IH]; simpl; [intros _ item [] |].
  rewrite fold_left_count_shift. intros H item [<- | Hin]; [lia |].
  apply IH; [lia | exact Hin].
Qed.

(** The faculty dashboard guards every percentage against an empty total. *)
Lemma attendancePercentage_empty_total (summary : list FacultyDashboard.StatusCount) :
  FacultyDashboard.totalAttendance summary = 0 ->
  FacultyDashboard.attendancePercentage summary = JS.Fin 0.
Proof.
  intros H. unfold FacultyDashboard.attendancePercentage. now rewrite H.
Qed.

Lemma histogramPercentage_empty_total (summary : list FacultyDashboard.StatusCount) :
  FacultyDashboard.totalAttendance summary = 0 ->
  forall item, In item summary ->
    FacultyDashboard.histogramPercentage (FacultyDashboard.sc_count item)
      (FacultyDashboard.totalAttendance summary) = JS.Fin 0.
Proof.
  intros H item Hin.
  rewrite (totalAttendance_zero_counts summary H item Hin), H. reflexivity.
Qed.

Lemma studentAttendancePercentage_no_records (presentCount : nat) :
  FacultyDashboard.studentAttendancePercentage 0 presentCount = JS.Fin 0.
Proof. reflexivity. Qed.

Lemma batchProgress_no_students :
  TrainerDashboard.batchProgress [] = JS.Fin 0.
Proof. reflexivity. Qed.

(** The completion rate of the batch overview is guarded by the number of
    courses, not by the number of students. *)
Lemma completionRate_no_students (nCourses : nat) :
  TrainerDashboard.computeCompletionRate (S nCourses) [] = JS.NaN.
Proof. reflexivity. Qed.

Lemma overview_completionRate_no_students (b : Batch) (s : Store) :
  TrainerDashboard.studentSummaries b s = [] ->
  TrainerDashboard.courseSummaries b s <> [] ->
  TrainerDashboard.totalStudents (TrainerDashboard.overviewOf b s) = 0
  /\ TrainerDashboard.completionRate (TrainerDashboard.overviewOf b s) = JS.NaN.
Proof.
  intros Hs Hc. unfold TrainerDashboard.overviewOf. simpl. rewrite Hs.
  destruct (TrainerDashboard.courseSummaries b s) as [| c cs]; [congruence |].
  split; reflexivity.
Qed.

(** C4: trainer 20 asks for the overview of batch 51, which has one course
    and no enrolled student; the answer carries totalStudents = 0 and a
    completion rate that is NaN, not 0. *)
Theorem overview_completionRate_is_NaN_without_students :
  exists ov,
    TrainerDashboard.batchOverview Campus.asha 51 Campus.store = Success 200 ov
    /\ TrainerDashboard.totalStudents ov = 0
    /\ TrainerDashboard.totalCourses ov = 1
    /\ TrainerDashboard.averageProgress ov = JS.Fin 0
    /\ TrainerDashboard.completionRate ov = JS.NaN
    /\ TrainerDashboard.completionRate ov <> JS.Fin 0.
Proof.
  eexists. split; [vm_compute; reflexivity |]. simpl.
  repeat split. discriminate.
Qed.

(* ------------------------------------------------------------------ *)
(** ** Trainer dashboard *)

Lemma firstMatch_without_filter (uid : ObjectId) (ids : list ObjectId)
      (l : list Assignment) :
  filter (TrainerDashboard.firstMatch uid None ids) l = [].
Proof. induction l as [| a t IH]; simpl; [reflexivity | exact IH]. Qed.

(** Without a batch filter the first [$match] selects no assignment, so the
    list of recent submissions is empty for every trainer and store. *)
Lemma dashboard_without_filter_no_submissions p now s d :
  TrainerDashboard.dashboard p None now s = Success 200 d ->
  TrainerDashboard.recentSubmissions d = [].
Proof.
  unfold TrainerDashboard.dashboard.
  destruct (negb (role_eqb (principal_role p) trainer)); [discriminate |].
  simpl. intros [= <-]. simpl.
  unfold TrainerDashboard.findRecentSubmissions.
  now rewrite firstMatch_without_filter.
Qed.

Lemma upcomingAssignments_at_most_five ids now s :
  List.length (TrainerDashboard.findUpcoming ids now s) <= 5.
Proof. unfold TrainerDashboard.findUpcoming. apply length_limit. Qed.

Lemma upcomingAssignments_are_due ids now s a :
  In a (TrainerDashboard.findUpcoming ids now s) ->
  In a (assignments s) /\ (now <= dueDate a)%Z
  /\ Mongo.mem (assignment_course a) ids = true.
Proof.
  unfold TrainerDashboard.findUpcoming. intros H.
  apply in_limit in H. apply in_sort_by in H. apply filter_In in H.
  destruct H as [Hin H]. apply andb_true_iff in H. destruct H as [Hm Hd].
  apply Z.leb_le in Hd. tauto.
Qed.

Lemma upcomingAssignments_sorted ids now s :
  Sorted (fun a b => (dueDate a <= dueDate b)%Z)
         (TrainerDashboard.findUpcoming ids now s).
Proof.
  unfold TrainerDashboard.findUpcoming.
  eapply Sorted_ind with
    (P := fun l => Sorted (fun a b => (dueDate a <= dueDate b)%Z) l).
  3: { apply Sorted_limit, Sorted_sort_by.
       intros x y. rewrite !Z.leb_le. lia. }
  - constructor.
  - intros a l _ IH Hd. constructor; [exact IH |].
    destruct Hd as [| b t Hab]; constructor. now apply Z.leb_le.
Qed.

(** C7: trainer 20 instructs the course of assignment 70, which holds a dated
    submission of student 10.  With the batch filter the dashboard lists that
    submission; without a filter the list is empty. *)
Theorem dashboard_without_batch_filter_drops_submissions :
  exists d d50,
    TrainerDashboard.dashboard Campus.asha None 1700000000000%Z Campus.store
    = Success 200 d
    /\ TrainerDashboard.recentSubmissions d = []
    /\ List.length (TrainerDashboard.upcomingAssignments d) = 1
    /\ TrainerDashboard.dashboard Campus.asha (Some 50) 1700000000000%Z
         Campus.store = Success 200 d50
    /\ map TrainerDashboard.studentId (TrainerDashboard.recentSubmissions d50)
       = [10].
Proof.
  eexists. eexists.
  split; [vm_compute; reflexivity |].
  split; [reflexivity |].
  split; [reflexivity |].
  split; [vm_compute; reflexivity |].
  reflexivity.
Qed.

(* ------------------------------------------------------------------ *)
(** ** Trainer scope *)





(* ------------------------------------------------------------------ *)
(** ** Username generation *)

Section UsernameLoop.

Variables (first last : string) (draws : nat -> nat) (s : Store).

(** What the retry loop returns, by induction on the iterations left. *)
Lemma usernameLoop_result (remaining attempts : nat) :
  match AdminUserManagement.usernameLoop first last draws s remaining attempts with
  | Some u =>
      exists k, attempts <= k < attempts + remaining
                /\ u = AdminUserManagement.candidate first last (draws k)
                /\ AdminUserManagement.collides first last draws s k = false
                /\ forall j, attempts <= j < k -> AdminUserManagement.collides first last draws s j = true
  | None =>
      forall j, attempts <= j < attempts + remaining -> AdminUserManagement.collides first last draws s j = true
  end.
Proof.
  unfold AdminUserManagement.collides.
  revert attempts. induction remaining as [| r IH]; intros attempts; simpl.
  - intros j Hj. lia.
  - destruct (AdminUserManagement.usernameExists
                (AdminUserManagement.candidate first last (draws attempts)) s)
      eqn:E.
    + specialize (IH (S attempts)).
      destruct (AdminUserManagement.usernameLoop first last draws s r (S attempts)).
      * destruct IH as [k [Hk [Hu [Hfree Hbefore]]]].
        exists k. repeat split; try assumption; try lia.
        intros j Hj. destruct (Nat.eq_dec j attempts) as [-> | Hne];
          [exact E | apply Hbefore; lia].
      * intros j Hj. destruct (Nat.eq_dec j attempts) as [-> | Hne];
          [exact E | apply IH; lia].
    + exists attempts. repeat split; try assumption; lia.
Qed.

Lemma usernameLoop_all_collide :
  (forall j, j < AdminUserManagement.maxAttempts -> AdminUserManagement.collides first last draws s j = true) ->
  AdminUserManagement.usernameLoop first last draws s
    AdminUserManagement.maxAttempts 0 = None.
Proof.
  intros Hall.
  pose proof (usernameLoop_result AdminUserManagement.maxAttempts 0) as H.
  destruct (AdminUserManagement.usernameLoop first last draws s
              AdminUserManagement.maxAttempts 0); [| reflexivity].
  destruct H as [k [Hk [_ [Hfree _]]]].
  rewrite Hall in Hfree by lia. discriminate.
Qed.

End UsernameLoop.

(** C6 (as amended): the helper generateUniqueUsername makes at most 5
    attempts, each checked against the store, returns the first candidate
    that is free, and falls back to "user_" followed by 8 characters of a
    UUID when all 5 collide; the single-user provisioning handler runs the
    same loop, and when all 5 attempts collide it answers with an error and
    creates nothing. *)
Theorem username_retry_bounded_and_handler_gives_up :
  forall first last draws uuid s,
    let collides := AdminUserManagement.collides first last draws s in
    ((exists k,
         k < 5
         /\ AdminUserManagement.generateUniqueUsername first last draws uuid s
            = AdminUserManagement.candidate first last (draws k)
         /\ collides k = false
         /\ forall j, j < k -> collides j = true)
     \/ ((forall j, j < 5 -> collides j = true)
         /\ AdminUserManagement.generateUniqueUsername first last draws uuid s
            = "user_" ++ substring 0 8 uuid)%string)
    /\ (forall dup ok p req e,
          principal_role p = admin ->
          AdminUserManagement.cu_valid req = true ->
          AdminUserManagement.cu_firstName req = first ->
          AdminUserManagement.cu_lastName req = last ->
          AdminUserManagement.draws e = draws ->
          (forall j, j < 5 -> collides j = true) ->
          AdminUserManagement.createUser dup ok p req e s
          = (Failure 500
               "Failed to generate a unique username. Please try again.", s)).
Proof.
  intros first last draws uuid s collides. split.
  - unfold AdminUserManagement.generateUniqueUsername.
    pose proof (usernameLoop_result first last draws s
                  AdminUserManagement.maxAttempts 0) as H.
    destruct (AdminUserManagement.usernameLoop first last draws s
                AdminUserManagement.maxAttempts 0) as [u |].
    + left. destruct H as [k [Hk [Hu [Hfree Hbefore]]]].
      exists k. unfold AdminUserManagement.maxAttempts in Hk.
      repeat split; try assumption; try lia.
      intros j Hj. apply Hbefore. lia.
    + right. split; [| reflexivity].
      intros j Hj. apply H. unfold AdminUserManagement.maxAttempts. lia.
  - intros dup ok p req e Hrole Hvalid Hfirst Hlast Hdraws Hall.
    unfold AdminUserManagement.createUser.
    rewrite Hrole, Hvalid, Hfirst, Hlast, Hdraws. simpl negb. cbv iota zeta.
    cbn [Transaction.start Transaction.working Transaction.abort
         Transaction.committed].
    now rewrite (usernameLoop_all_collide first last draws s Hall).
Qed.

Lemma username_retry_bounded_and_handler_gives_up_witness :
  fst (AdminUserManagement.createUser Campus.no_duplicate Campus.any_profile
         Campus.registrar Campus.john_again Campus.entropy Campus.store)
  = Failure 500 "Failed to generate a unique username. Please try again.".
Proof.
  destruct (username_retry_bounded_and_handler_gives_up "John" "Doe"
              Campus.stuck_draws "123e4567-e89b-12d3" Campus.store)
    as [_ H].
  rewrite (H Campus.no_duplicate Campus.any_profile Campus.registrar
             Campus.john_again Campus.entropy
             eq_refl eq_refl eq_refl eq_refl eq_refl).
  - reflexivity.
  - intros j _. reflexivity.
Defined.

(** C6, as stated, fails: with every draw giving the suffix 100 all five
    candidates for John Doe are "johnd100", a username the store already
    holds; the handler answers 500 and no user is created. *)
Lemma provisioning_fails_at_the_retry_bound :
  (forall j, j < 5 ->
     AdminUserManagement.collides "John" "Doe" Campus.stuck_draws Campus.store j
     = true)
  /\ AdminUserManagement.createUser Campus.no_duplicate Campus.any_profile
       Campus.registrar Campus.john_again Campus.entropy Campus.store
     = (Failure 500 "Failed to generate a unique username. Please try again.",
        Campus.store)
  /\ is_success
       (fst (AdminUserManagement.createUser Campus.no_duplicate
               Campus.any_profile Campus.registrar Campus.john_again
               Campus.entropy Campus.store)) = false.
Proof.
  split; [intros j _; reflexivity |]. split; reflexivity.
Qed.

(* ------------------------------------------------------------------ *)
(** ** User listing *)

Lemma buildFilter_role_default (q : AdminUserManagement.ListQuery) :
  JS.truthy_param (AdminUserManagement.q_role q) = false ->
  AdminUserManagement.f_role (AdminUserManagement.buildFilter q)
  = AdminUserManagement.NotEqual "superadmin".
Proof.
  intros H. unfold AdminUserManagement.buildFilter. rewrite H.
  destruct (JS.truthy_param (AdminUserManagement.q_isActive q));
    destruct (JS.truthy_param (AdminUserManagement.q_search q)); reflexivity.
Qed.

Lemma buildFilter_role_supplied (q : AdminUserManagement.ListQuery) (r : string) :
  AdminUserManagement.q_role q = Some r ->
  JS.truthy_string r = true ->
  AdminUserManagement.f_role (AdminUserManagement.buildFilter q)
  = AdminUserManagement.Equal r.
Proof.
  intros Hq Hr. unfold AdminUserManagement.buildFilter.
  rewrite Hq. simpl. rewrite Hr.
  destruct (JS.truthy_param (AdminUserManagement.q_isActive q));
    destruct (JS.truthy_param (AdminUserManagement.q_search q)); reflexivity.
Qed.

Lemma populate_row_user (s : Store) (u : User) :
  AdminUserManagement.row_user (AdminUserManagement.populate s u) = u.
Proof. unfold AdminUserManagement.populate. destruct (role u); reflexivity. Qed.

(** Every listed user satisfies the role condition of the filter. *)
Lemma listUsers_rows_match RegExp p q s pg row :
  AdminUserManagement.listUsers RegExp p q s = Success 200 pg ->
  In row (AdminUserManagement.page_users pg) ->
  In (AdminUserManagement.row_user row) (users s)
  /\ AdminUserManagement.role_matches
       (AdminUserManagement.f_role (AdminUserManagement.buildFilter q))
       (AdminUserManagement.row_user row) = true.
Proof.
  unfold AdminUserManagement.listUsers.
  destruct (negb (role_eqb (principal_role p) admin)); [discriminate |].
  cbv zeta.
  destruct (match AdminUserManagement.f_search (AdminUserManagement.buildFilter q) with
            | Some pat => option_map Some (RegExp pat)
            | None => Some None
            end) as [test |]; [| discriminate].
  match goal with |- context [(?x <? 0)%Z] => destruct (x <? 0)%Z end;
    [discriminate |].
  intros [= <-] Hin. simpl in Hin.
  apply in_map_iff in Hin. destruct Hin as [u [<- Hu]].
  rewrite populate_row_user.
  apply in_limit, in_skip in Hu. apply in_sort_by in Hu.
  apply filter_In in Hu. destruct Hu as [Hin Hm].
  unfold AdminUserManagement.matches in Hm.
  apply andb_true_iff in Hm. destruct Hm as [Hm _].
  apply andb_true_iff in Hm. tauto.
Qed.

Lemma role_name_injective (a b : Role) : role_name a = role_name b -> a = b.
Proof. destruct a, b; simpl; intros H; try reflexivity; discriminate H. Qed.

(** C10: for an admin caller the listing leaves superadmin accounts out when
    no role parameter is supplied (absent or empty); a supplied role replaces
    the default condition altogether, so with role=superadmin every listed
    account is a superadmin, and every superadmin account of a store of at
    most 20 users is listed on the first page. *)
Theorem listing_hides_superadmins_only_by_default :
  forall RegExp p q s,
    principal_role p = admin ->
    (JS.truthy_param (AdminUserManagement.q_role q) = false ->
     forall pg row,
       AdminUserManagement.listUsers RegExp p q s = Success 200 pg ->
       In row (AdminUserManagement.page_users pg) ->
       role (AdminUserManagement.row_user row) <> superadmin)
    /\ (forall r,
          AdminUserManagement.q_role q = Some r ->
          JS.truthy_string r = true ->
          AdminUserManagement.f_role (AdminUserManagement.buildFilter q)
          = AdminUserManagement.Equal r)
    /\ (AdminUserManagement.q_role q = Some "superadmin" ->
        forall pg row,
          AdminUserManagement.listUsers RegExp p q s = Success 200 pg ->
          In row (AdminUserManagement.page_users pg) ->
          role (AdminUserManagement.row_user row) = superadmin)
    /\ (q = AdminUserManagement.mkListQuery None None (Some "superadmin")
               None None ->
        List.length (users s) <= 20 ->
        exists pg,
          AdminUserManagement.listUsers RegExp p q s = Success 200 pg
          /\ forall u, In u (users s) -> role u = superadmin ->
                       In u (map AdminUserManagement.row_user
                               (AdminUserManagement.page_users pg))).
Proof.
  intros RegExp p q s Hadmin. split; [| split; [| split]].
  - intros Hnone pg row Hrun Hin.
    destruct (listUsers_rows_match _ _ _ _ _ Hrun Hin) as [_ Hm].
    rewrite (buildFilter_role_default q Hnone) in Hm. simpl in Hm.
    intros Hsuper. rewrite Hsuper in Hm. discriminate.
  - intros r Hq Hr. now apply buildFilter_role_supplied.
  - intros Hq pg row Hrun Hin.
    destruct (listUsers_rows_match _ _ _ _ _ Hrun Hin) as [_ Hm].
    rewrite (buildFilter_role_supplied q Hq eq_refl) in Hm. simpl in Hm.
    apply String.eqb_eq in Hm. now apply role_name_injective.
  - intros -> Hlen. unfold AdminUserManagement.listUsers.
    rewrite Hadmin.
    cbn -[Mongo.limit Mongo.skip Mongo.sort_by filter
          AdminUserManagement.populate Qceiling AdminUserManagement.matches
          Z.to_nat].
    eexists. split; [reflexivity |].
    intros u Hin Hrole. cbn [AdminUserManagement.page_users].
    rewrite map_map. apply in_map_iff.
    exists u. split; [apply populate_row_user |].
    change (Z.to_nat 20) with 20. change (Z.to_nat 0) with 0.
    unfold Mongo.limit, Mongo.skip. cbn [skipn].
    rewrite firstn_all2.
    + apply in_sort_by. apply filter_In. split; [exact Hin |].
      unfold AdminUserManagement.matches. simpl. now rewrite Hrole.
    + rewrite length_sort_by.
      etransitivity; [apply filter_length_le | exact Hlen].
Qed.

Lemma listing_hides_superadmins_only_by_default_witness :
  (forall pg row,
      AdminUserManagement.listUsers Campus.no_regexp Campus.registrar
        (AdminUserManagement.mkListQuery None None (Some "") None None)
        Campus.store = Success 200 pg ->
      In row (AdminUserManagement.page_users pg) ->
      role (AdminUserManagement.row_user row) <> superadmin)
  /\ exists pg,
      AdminUserManagement.listUsers Campus.no_regexp Campus.registrar
        (AdminUserManagement.mkListQuery None None (Some "superadmin") None None)
        Campus.store = Success 200 pg
      /\ In 1 (map (fun row => user_id (AdminUserManagement.row_user row))
                  (AdminUserManagement.page_users pg)).
Proof.
  split.
  - destruct (listing_hides_superadmins_only_by_default Campus.no_regexp
                Campus.registrar
                (AdminUserManagement.mkListQuery None None (Some "") None None)
                Campus.store eq_refl) as [H _].
    apply H. reflexivity.
  - destruct (listing_hides_superadmins_only_by_default Campus.no_regexp
                Campus.registrar
                (AdminUserManagement.mkListQuery None None (Some "superadmin")
                   None None)
                Campus.store eq_refl) as [_ [_ [_ H]]].
    destruct (H eq_refl) as [pg [Hrun Hall]]; [simpl; lia |].
    exists pg. split; [exact Hrun |].
    rewrite <- (map_map AdminUserManagement.row_user user_id).
    apply (in_map user_id _ _
             (Hall (mkUser 1 "root" "root@college.edu" "Rita" "Root"
                      superadmin true None None 1%Z)
                   (or_introl eq_refl) eq_refl)).
Defined.

(* ================================================================== *)
(** * Further properties of the handlers *)

(* ------------------------------------------------------------------ *)
(** ** Deletion handlers: who is refused, what is removed, what is kept *)

Lemma in_delete_first_other {A} (p : A -> bool) (l : list A) (x : A) :
  p x = false -> (In x (delete_first p l) <-> In x l).
Proof.
  intros Hx. induction l as [| a t IH]; simpl; [tauto |].
  destruct (p a) eqn:Ha; simpl.
  - split; [tauto |]. intros [<- | H]; [congruence | exact H].
  - rewrite IH. tauto.
Qed.

Lemma findUserById_after_delete (uid : ObjectId) (l : list User) :
  NoDup (map user_id l) ->
  find (fun u => Nat.eqb (user_id u) uid)
       (delete_first (fun u => Nat.eqb (user_id u) uid) l) = None.
Proof.
  induction l as [| a t IH]; simpl; [reflexivity |].
  intros Hnd. inversion Hnd as [| x xs Hnotin Hnd']; subst.
  destruct (Nat.eqb (user_id a) uid) eqn:Ha.
  - apply Nat.eqb_eq in Ha.
    destruct (find (fun u => Nat.eqb (user_id u) uid) t) as [u |] eqn:Hf;
      [| reflexivity].
    apply find_some in Hf. destruct Hf as [Hin Hu]. apply Nat.eqb_eq in Hu.
    exfalso. apply Hnotin. rewrite Ha, <- Hu. now apply in_map.
  - simpl. rewrite Ha. now apply IH.
Qed.

Lemma findUserById_id (uid : ObjectId) (s : Store) (u : User) :
  findUserById uid s = Some u -> In u (users s) /\ user_id u = uid.
Proof.
  unfold findUserById. intros H. apply find_some in H.
  destruct H as [Hin H]. apply Nat.eqb_eq in H. tauto.
Qed.

(** X1: the admin user-management deletion succeeds exactly when the caller
    is a superadmin, the target is not the caller, exists and is not a
    superadmin; every refusal leaves the store as it was. *)
Theorem admin_delete_succeeds_exactly_when :
  forall p uid s,
    let r := AdminUserManagement_delete.deleteUser p uid s in
    (is_success (fst r) = true <->
       principal_role p = superadmin
       /\ uid <> principal_id p
       /\ exists u, findUserById uid s = Some u /\ role u <> superadmin)
    /\ (is_success (fst r) = false -> snd r = s).
Proof.
  intros p uid s. unfold AdminUserManagement_delete.deleteUser, AdminUserManagement_delete.deleteUserRoute;
    cbn [is_rendering castObjectId]. cbv zeta.
  destruct (principal_role p) eqn:Hrole; simpl;
    try (split; [split; [discriminate | intros [H _]; discriminate H]
                | reflexivity]).
  destruct (Nat.eqb uid (principal_id p)) eqn:Hself; simpl.
  - apply Nat.eqb_eq in Hself.
    split; [split; [discriminate | intros [_ [H _]]; contradiction] | reflexivity].
  - apply Nat.eqb_neq in Hself.
    destruct (findUserById uid s) as [u |] eqn:Hfind; simpl.
    + destruct (role u) eqn:Hu; simpl;
        try (split; [split; [intros _; repeat split; try assumption;
                             exists u; split; [reflexivity | congruence]
                            | reflexivity]
                    | discriminate]).
      split; [split; [discriminate |] | reflexivity].
      intros [_ [_ [u' [[= <-] Hne]]]]. congruence.
    + split; [split; [discriminate |] | reflexivity].
      intros [_ [_ [u' [Hu' _]]]]. discriminate.
Qed.

(** X2: the super-admin deletion, on the raw path parameter, succeeds exactly
    when the caller is a superadmin, the parameter is not the rendering of the
    caller's own id and casts to the id of a stored user (whose role is not
    looked at); every refusal leaves the store as it was.  The self check
    being a comparison of strings, a superadmin who writes their own id in
    another spelling passes it, and the handler deletes the caller's own
    account. *)
Theorem super_delete_succeeds_exactly_when :
  forall p userId s,
    let r := SuperAdminDashboard_delete.deleteUserRoute p userId s in
    (is_success (fst r) = true <->
       principal_role p = superadmin
       /\ userId <> Canonical (principal_id p)
       /\ exists uid u,
           castObjectId userId = Some uid /\ findUserById uid s = Some u)
    /\ (is_success (fst r) = false -> snd r = s)
    /\ (principal_role p = superadmin ->
        userId = Respelled (principal_id p) ->
        (exists u, findUserById (principal_id p) s = Some u) ->
        is_success (fst r) = true
        /\ users (snd r)
           = delete_first (fun u => Nat.eqb (user_id u) (principal_id p))
                          (users s)).
Proof.
  intros p userId s. unfold SuperAdminDashboard_delete.deleteUserRoute.
  cbv zeta.
  destruct (principal_role p) eqn:Hrole; cbn [role_eqb negb];
    try (split; [split; [discriminate | intros [H _]; discriminate H]
                | split; [reflexivity | discriminate]]).
  destruct userId as [id | id |]; cbn [is_rendering castObjectId].
  - destruct (Nat.eqb id (principal_id p)) eqn:Hself.
    + apply Nat.eqb_eq in Hself. subst id.
      split; [split; [discriminate | intros [_ [H _]]; now contradiction H]
             | split; [reflexivity | discriminate]].
    + apply Nat.eqb_neq in Hself.
      destruct (findUserById id s) as [u |] eqn:Hfind; cbn [fst snd is_success].
      * split; [| split; discriminate].
        split; [intros _ | reflexivity].
        split; [reflexivity |]. split; [congruence |].
        exists id, u. now split.
      * split; [split; [discriminate |] | split; [reflexivity | discriminate]].
        intros [_ [_ [uid [u [[= <-] Hu]]]]]. congruence.
  - destruct (findUserById id s) as [u |] eqn:Hfind; cbn [fst snd is_success].
    + split; [| split; [discriminate |]].
      * split; [intros _ | reflexivity].
        split; [reflexivity |]. split; [discriminate |].
        exists id, u. now split.
      * intros _ [= ->] _. split; [reflexivity |].
        cbn [users set_users].
        unfold SuperAdminDashboard_delete.role_cleanup.
        destruct (role u); reflexivity.
    + split; [split; [discriminate |] | split; [reflexivity |]].
      * intros [_ [_ [uid [u [[= <-] Hu]]]]]. congruence.
      * intros _ [= ->] [u Hu]. congruence.
  - split; [split; [discriminate |] | split; [reflexivity | discriminate]].
    intros [_ [_ [uid [u [Hcast _]]]]]. discriminate Hcast.
Qed.

(** X3: whatever the request, the admin user-management deletion keeps every
    superadmin account of the store. *)
Theorem admin_delete_keeps_superadmins :
  forall p uid s u,
    In u (users s) -> role u = superadmin ->
    In u (users (snd (AdminUserManagement_delete.deleteUser p uid s))).
Proof.
  intros p uid s u Hin Hsuper.
  unfold AdminUserManagement_delete.deleteUser, AdminUserManagement_delete.deleteUserRoute;
    cbn [is_rendering castObjectId].
  destruct (negb (role_eqb (principal_role p) superadmin)); [exact Hin |].
  destruct (Nat.eqb uid (principal_id p)); [exact Hin |].
  destruct (findUserById uid s) as [target |] eqn:Hfind; [| exact Hin].
  destruct (role_eqb (role target) superadmin) eqn:Htarget; [exact Hin |].
  cbv zeta. simpl snd.
  assert (Husers : users (AdminUserManagement_delete.role_cleanup target s)
                   = users s).
  { unfold AdminUserManagement_delete.role_cleanup.
    destruct (role target); reflexivity. }
  cbn [users set_users]. rewrite Husers.
  destruct (Nat.eqb (user_id u) uid) eqn:Hid.
  - (* the first user with this id is [target]; [u] is kept unless it is it *)
    destruct (findUserById_id _ _ Hfind) as [_ Htid].
    unfold findUserById in Hfind.
    clear Husers. induction (users s) as [| a t IH]; [destruct Hin |].
    simpl in *. destruct (Nat.eqb (user_id a) uid) eqn:Ha.
    + injection Hfind as ->. destruct Hin as [-> | Hin]; [| exact Hin].
      rewrite Hsuper in Htarget. discriminate.
    + destruct Hin as [-> | Hin]; [congruence |]. right. now apply IH.
  - now apply in_delete_first_other.
Qed.

Lemma admin_delete_keeps_superadmins_witness :
  References.user_exists 1
    (snd (AdminUserManagement_delete.deleteUser Campus.root 1 Campus.store))
  = true
  /\ In (mkUser 1 "root" "root@college.edu" "Rita" "Root" superadmin true None None 1%Z)
        (users (snd (AdminUserManagement_delete.deleteUser
                       (mkPrincipal 5 superadmin) 1 Campus.store))).
Proof.
  split; [reflexivity |].
  apply (admin_delete_keeps_superadmins (mkPrincipal 5 superadmin) 1
           Campus.store); [now left | reflexivity].
Defined.

(** X4: when either transactional handler deletes a user of a store whose
    user ids are distinct, the id no longer resolves afterwards and every
    user with another id is still there. *)
Theorem delete_removes_exactly_the_target :
  forall p uid s msg s',
    NoDup (map user_id (users s)) ->
    (AdminUserManagement_delete.deleteUser p uid s = (Success 200 msg, s')
     \/ SuperAdminDashboard_delete.deleteUser p uid s = (Success 200 msg, s')) ->
    findUserById uid s' = None
    /\ forall u, user_id u <> uid -> (In u (users s') <-> In u (users s)).
Proof.
  intros p uid s msg s' Hnd Hrun.
  assert (Husers : users s'
                   = delete_first (fun u => Nat.eqb (user_id u) uid) (users s)).
  { destruct Hrun as [Hrun | Hrun].
    - unfold AdminUserManagement_delete.deleteUser, AdminUserManagement_delete.deleteUserRoute in Hrun;
    cbn [is_rendering castObjectId] in Hrun.
      destruct (negb (role_eqb (principal_role p) superadmin)); [discriminate |].
      destruct (Nat.eqb uid (principal_id p)); [discriminate |].
      destruct (findUserById uid s) as [target |]; [| discriminate].
      destruct (role_eqb (role target) superadmin); [discriminate |].
      injection Hrun as _ <-. cbn [users set_users].
      unfold AdminUserManagement_delete.role_cleanup.
      destruct (role target); reflexivity.
    - unfold SuperAdminDashboard_delete.deleteUser, SuperAdminDashboard_delete.deleteUserRoute in Hrun;
    cbn [is_rendering castObjectId] in Hrun.
      destruct (negb (role_eqb (principal_role p) superadmin)); [discriminate |].
      destruct (Nat.eqb uid (principal_id p)); [discriminate |].
      destruct (findUserById uid s) as [target |]; [| discriminate].
      injection Hrun as _ <-. cbn [users set_users].
      unfold SuperAdminDashboard_delete.role_cleanup.
      destruct (role target); reflexivity. }
  split.
  - unfold findUserById. rewrite Husers. now apply findUserById_after_delete.
  - intros u Hu. rewrite Husers. apply in_delete_first_other.
    now apply Nat.eqb_neq.
Qed.

Lemma delete_removes_exactly_the_target_witness :
  exists s',
    snd (SuperAdminDashboard_delete.deleteUser Campus.root 20 Campus.store) = s'
    /\ findUserById 20 s' = None
    /\ References.user_exists 21 s' = true.
Proof.
  eexists. split; [reflexivity |].
  destruct (@delete_removes_exactly_the_target Campus.root 20 Campus.store
              "Trainer deleted successfully"
              (snd (SuperAdminDashboard_delete.deleteUser Campus.root 20
                      Campus.store)))
    as [Hgone _].
  - repeat constructor; simpl; intuition discriminate.
  - right. reflexivity.
  - split; [exact Hgone | reflexivity].
Defined.

Lemma admin_delete_succeeds_exactly_when_witness :
  is_success
    (fst (AdminUserManagement_delete.deleteUser Campus.root 10 Campus.store))
  = true
  /\ snd (AdminUserManagement_delete.deleteUser Campus.asha 10 Campus.store)
     = Campus.store.
Proof.
  split.
  - apply (admin_delete_succeeds_exactly_when Campus.root 10 Campus.store).
    split; [reflexivity |]. split; [discriminate |].
    eexists. split; [reflexivity | discriminate].
  - apply (admin_delete_succeeds_exactly_when Campus.asha 10 Campus.store).
    reflexivity.
Defined.

Lemma super_delete_succeeds_exactly_when_witness :
  is_success
    (fst (SuperAdminDashboard_delete.deleteUserRoute Campus.root (Canonical 2)
            Campus.store))
  = true
  /\ snd (SuperAdminDashboard_delete.deleteUserRoute Campus.root (Canonical 99)
            Campus.store)
     = Campus.store
  /\ References.user_exists 1
       (snd (SuperAdminDashboard_delete.deleteUserRoute Campus.root
               (Respelled 1) Campus.store))
     = false.
Proof.
  split; [| split].
  - destruct (super_delete_succeeds_exactly_when Campus.root (Canonical 2)
                Campus.store) as [[_ Hiff] _].
    apply Hiff. split; [reflexivity |]. split; [discriminate |].
    eexists. eexists. split; reflexivity.
  - destruct (super_delete_succeeds_exactly_when Campus.root (Canonical 99)
                Campus.store) as [_ [Hrefused _]].
    apply Hrefused. reflexivity.
  - destruct (super_delete_succeeds_exactly_when Campus.root (Respelled 1)
                Campus.store) as [_ [_ Hself]].
    destruct (Hself eq_refl eq_refl) as [_ Husers];
      [eexists; reflexivity |].
    unfold References.user_exists. rewrite Husers. reflexivity.
Defined.

(** What the super-admin handler returns on success, in terms of its
    clean-up step. *)
Lemma super_delete_success p uid s msg s' :
  SuperAdminDashboard_delete.deleteUser p uid s = (Success 200 msg, s') ->
  exists user,
    findUserById uid s = Some user
    /\ user_id user = uid
    /\ uid <> principal_id p
    /\ batches s' = batches (SuperAdminDashboard_delete.role_cleanup p user s)
    /\ courses s' = courses (SuperAdminDashboard_delete.role_cleanup p user s)
    /\ students s' = students (SuperAdminDashboard_delete.role_cleanup p user s)
    /\ assignments s'
       = assignments (SuperAdminDashboard_delete.role_cleanup p user s)
    /\ attendances s'
       = attendances (SuperAdminDashboard_delete.role_cleanup p user s).
Proof.
  unfold SuperAdminDashboard_delete.deleteUser, SuperAdminDashboard_delete.deleteUserRoute;
    cbn [is_rendering castObjectId].
  destruct (negb (role_eqb (principal_role p) superadmin)); [discriminate |].
  destruct (Nat.eqb uid (principal_id p)) eqn:Hself; [discriminate |].
  destruct (findUserById uid s) as [user |] eqn:Hfind; [| discriminate].
  intros [= _ <-]. exists user.
  destruct (findUserById_id _ _ Hfind) as [_ Hid].
  apply Nat.eqb_neq in Hself. repeat split; assumption.
Qed.

(** X5: after the super-admin handler has deleted a trainer, no batch lists
    the trainer any more and no course names the trainer as instructor. *)
Theorem super_delete_trainer_detaches :
  forall p uid s user msg s',
    findUserById uid s = Some user ->
    role user = trainer ->
    SuperAdminDashboard_delete.deleteUser p uid s = (Success 200 msg, s') ->
    (forall b, In b (batches s') -> Mongo.mem uid (trainers b) = false)
    /\ (forall c, In c (courses s') -> Mongo.opt_eqb (instructor c) uid = false).
Proof.
  intros p uid s user msg s' Hfind Hrole Hrun.
  destruct (super_delete_success _ _ _ Hrun)
    as [user' [Hfind' [Hid [_ [Hb [Hc _]]]]]].
  rewrite Hfind in Hfind'. injection Hfind' as <-.
  rewrite Hb, Hc. unfold SuperAdminDashboard_delete.role_cleanup.
  rewrite Hrole, Hid. cbn [batches courses set_batches set_courses]. split.
  - intros b Hin. apply in_update_many in Hin. destruct Hin as [x [_ ->]].
    destruct (Mongo.mem uid (trainers x)) eqn:E; [| exact E].
    simpl. apply mem_pull_same.
  - intros c Hin. apply in_update_many in Hin. destruct Hin as [x [_ ->]].
    destruct (Mongo.opt_eqb (instructor x) uid) eqn:E; [reflexivity | exact E].
Qed.

Lemma super_delete_trainer_detaches_witness :
  (forall b,
      In b (batches (snd (SuperAdminDashboard_delete.deleteUser Campus.root 20
                            Campus.store))) ->
      Mongo.mem 20 (trainers b) = false)
  /\ (forall c,
         In c (courses (snd (SuperAdminDashboard_delete.deleteUser Campus.root
                               20 Campus.store))) ->
         Mongo.opt_eqb (instructor c) 20 = false).
Proof.
  apply (@super_delete_trainer_detaches Campus.root 20 Campus.store
           (mkUser 20 "asha" "asha@college.edu" "Asha" "Rao" trainer true
                   None None 4%Z)
           "Trainer deleted successfully"
           (snd (SuperAdminDashboard_delete.deleteUser Campus.root 20
                   Campus.store)));
    reflexivity.
Defined.

(** X6: after the super-admin handler has deleted a faculty member no student
    profile is assigned to that member; after it has deleted an admin no batch
    is recorded as created by that admin. *)
Theorem super_delete_faculty_and_admin_detach :
  forall p uid s user msg s',
    findUserById uid s = Some user ->
    SuperAdminDashboard_delete.deleteUser p uid s = (Success 200 msg, s') ->
    (role user = faculty ->
     forall st, In st (students s') ->
                Mongo.opt_eqb (assignedFaculty st) uid = false)
    /\ (role user = admin ->
        forall b, In b (batches s') -> batch_createdBy b <> uid).
Proof.
  intros p uid s user msg s' Hfind Hrun.
  destruct (super_delete_success _ _ _ Hrun)
    as [user' [Hfind' [Hid [Hself [Hb [_ [Hst _]]]]]]].
  rewrite Hfind in Hfind'. injection Hfind' as <-.
  split; intros Hrole.
  - rewrite Hst. unfold SuperAdminDashboard_delete.role_cleanup.
    rewrite Hrole, Hid. cbn [students set_students].
    intros st Hin. apply in_update_many in Hin. destruct Hin as [x [_ ->]].
    destruct (Mongo.opt_eqb (assignedFaculty x) uid) eqn:E;
      [reflexivity | exact E].
  - rewrite Hb. unfold SuperAdminDashboard_delete.role_cleanup.
    rewrite Hrole, Hid. cbn [batches set_batches].
    intros b Hin. apply in_update_many in Hin. destruct Hin as [x [_ ->]].
    destruct (Nat.eqb (batch_createdBy x) uid) eqn:E.
    + simpl. congruence.
    + now apply Nat.eqb_neq.
Qed.

Lemma super_delete_faculty_and_admin_detach_witness :
  (forall st,
      In st (students (snd (SuperAdminDashboard_delete.deleteUser Campus.root 3
                              Staff.store))) ->
      Mongo.opt_eqb (assignedFaculty st) 3 = false)
  /\ (forall b,
         In b (batches (snd (SuperAdminDashboard_delete.deleteUser Campus.root 4
                               Staff.store))) ->
         batch_createdBy b <> 4).
Proof.
  split.
  - apply (@super_delete_faculty_and_admin_detach Campus.root 3 Staff.store
             (mkUser 3 "dean" "dean@college.edu" "Dee" "Ann" faculty true
                     None None 6%Z)
             "Faculty deleted successfully"
             (snd (SuperAdminDashboard_delete.deleteUser Campus.root 3
                     Staff.store))); reflexivity.
  - apply (@super_delete_faculty_and_admin_detach Campus.root 4 Staff.store
             (mkUser 4 "bursar" "bursar@college.edu" "Burt" "Sar" admin true
                     None None 7%Z)
             "Admin deleted successfully"
             (snd (SuperAdminDashboard_delete.deleteUser Campus.root 4
                     Staff.store))); reflexivity.
Defined.

Lemma filter_filter_other {A} (q keep : A -> bool) (l : list A) :
  (forall x, q x = true -> keep x = true) ->
  filter q (filter keep l) = filter q l.
Proof.
  intros H. induction l as [| a t IH]; simpl; [reflexivity |].
  destruct (keep a) eqn:Hk; simpl.
  - now rewrite IH.
  - rewrite IH. destruct (q a) eqn:Hq; [| reflexivity].
    rewrite (H a Hq) in Hk. discriminate.
Qed.

Lemma filter_delete_first_other {A} (q p : A -> bool) (l : list A) :
  (forall x, q x = true -> p x = false) ->
  filter q (delete_first p l) = filter q l.
Proof.
  intros H. induction l as [| a t IH]; simpl; [reflexivity |].
  destruct (p a) eqn:Hp; simpl.
  - destruct (q a) eqn:Hq; [| reflexivity].
    rewrite (H a Hq) in Hp. discriminate.
  - now rewrite IH.
Qed.

Lemma map_update_many_same {A B} (g : A -> B) (p : A -> bool) (f : A -> A)
      (l : list A) :
  (forall x, g (f x) = g x) ->
  map g (update_many p f l) = map g l.
Proof.
  intros Hg. unfold update_many. rewrite map_map. apply map_ext.
  intros a. destruct (p a); [apply Hg | reflexivity].
Qed.

(** X7: the deletion of a student by the super-admin handler does not touch
    what the store holds about any other user: course by course the
    enrolments of the other user, assignment by assignment their submissions,
    their attendance records and their profiles are the documents they were,
    in the order they were; the courses and assignments themselves keep their
    ids and order, and the batches are not written at all. *)
Theorem super_delete_student_spares_the_others :
  forall p uid s user msg s' other,
    findUserById uid s = Some user ->
    role user = student ->
    SuperAdminDashboard_delete.deleteUser p uid s = (Success 200 msg, s') ->
    other <> uid ->
    map (fun c => (course_id c,
                   filter (fun e => Nat.eqb (enr_student e) other)
                          (course_students c))) (courses s')
    = map (fun c => (course_id c,
                     filter (fun e => Nat.eqb (enr_student e) other)
                            (course_students c))) (courses s)
    /\ map (fun a => (assignment_id a,
                      filter (fun sb => Nat.eqb (sub_student sb) other)
                             (submissions a))) (assignments s')
       = map (fun a => (assignment_id a,
                        filter (fun sb => Nat.eqb (sub_student sb) other)
                               (submissions a))) (assignments s)
    /\ filter (fun a => Nat.eqb (att_student a) other) (attendances s')
       = filter (fun a => Nat.eqb (att_student a) other) (attendances s)
    /\ filter (fun st => Nat.eqb (student_user st) other) (students s')
       = filter (fun st => Nat.eqb (student_user st) other) (students s)
    /\ batches s' = batches s.
Proof.
  intros p uid s user msg s' other Hfind Hrole Hrun Hother.
  destruct (super_delete_success _ _ _ Hrun)
    as [user' [Hfind' [Hid [_ [Hb [Hc [Hst [Ha Hat]]]]]]]].
  rewrite Hfind in Hfind'. injection Hfind' as <-.
  rewrite Hb, Hc, Hst, Ha, Hat.
  unfold SuperAdminDashboard_delete.role_cleanup. rewrite Hrole, Hid.
  cbn [courses students assignments attendances batches set_courses
       set_students set_assignments set_attendances].
  assert (Hneq : forall x, Nat.eqb x other = true ->
                           negb (Nat.eqb x uid) = true).
  { intros x Hx. apply Nat.eqb_eq in Hx. subst x.
    apply negb_true_iff. now apply Nat.eqb_neq. }
  split; [| split; [| split; [| split]]].
  - apply map_update_many_same. intros c.
    cbn [course_id course_students set_course_students]. f_equal.
    apply filter_filter_other. intros e He. now apply Hneq.
  - apply map_update_many_same. intros a.
    cbn [assignment_id submissions set_submissions]. f_equal.
    apply filter_filter_other. intros sb Hsb. now apply Hneq.
  - unfold delete_all. apply filter_filter_other.
    intros a Hq. now apply Hneq.
  - apply filter_delete_first_other. intros st Hq.
    apply negb_true_iff. now apply Hneq.
  - reflexivity.
Qed.

Lemma super_delete_student_spares_the_others_witness :
  filter (fun st => Nat.eqb (student_user st) 10)
    (students
       (snd (SuperAdminDashboard_delete.deleteUser Campus.root 11
               (set_users
                  (users Campus.store
                   ++ [mkUser 11 "maryk" "mary@college.edu" "Mary" "Kay"
                              student true None None 8%Z])
                  Campus.store))))
  = [mkStudent 100 10 "R10" (Some 20) (Some 50)].
Proof.
  destruct (@super_delete_student_spares_the_others Campus.root 11
              (set_users
                 (users Campus.store
                  ++ [mkUser 11 "maryk" "mary@college.edu" "Mary" "Kay" student
                             true None None 8%Z])
                 Campus.store)
              (mkUser 11 "maryk" "mary@college.edu" "Mary" "Kay" student
                      true None None 8%Z)
              "Student deleted successfully"
              (snd (SuperAdminDashboard_delete.deleteUser Campus.root 11
                      (set_users
                         (users Campus.store
                          ++ [mkUser 11 "maryk" "mary@college.edu" "Mary" "Kay"
                                     student true None None 8%Z])
                         Campus.store)))
              10 eq_refl eq_refl eq_refl)
    as [_ [_ [_ [H _]]]]; [discriminate |].
  rewrite H. reflexivity.
Defined.

(** X8: the student router refuses every caller who is not an admin and
    changes nothing then; when it deletes an account, no report whose student
    field is that id is left, and batches, courses, assignments and
    attendance records are exactly as before. *)
Theorem student_router_delete_effect :
  forall p id s,
    (principal_role p <> admin ->
     StudentRoutes_delete.deleteStudent p id s
     = (Failure 403 "Not authorized to delete accounts", s))
    /\ (forall msg s',
          StudentRoutes_delete.deleteStudent p id s = (Success 200 msg, s') ->
          (forall r, In r (reports s') -> report_student r <> id)
          /\ batches s' = batches s /\ courses s' = courses s
          /\ assignments s' = assignments s
          /\ attendances s' = attendances s).
Proof.
  intros p id s. unfold StudentRoutes_delete.deleteStudent. split.
  - intros Hrole. destruct (principal_role p); try reflexivity. congruence.
  - intros msg s'.
    destruct (negb (role_eqb (principal_role p) admin)); [discriminate |].
    destruct (findUserById id s) as [deleted |]; [| discriminate].
    intros [= _ <-]. cbn [reports set_reports batches courses assignments
                          attendances].
    assert (Hsame : forall (x : Store) (y : Store),
               (y = x \/ exists v, y = set_students v x) ->
               reports y = reports x /\ batches y = batches x
               /\ courses y = courses x /\ assignments y = assignments x
               /\ attendances y = attendances x).
    { intros x y [-> | [v ->]]; repeat split. }
    match goal with
    | |- context [delete_all _ (reports ?mid)] =>
        assert (Hmid : mid = set_users
                               (delete_first
                                  (fun u => Nat.eqb (user_id u) id) (users s)) s
                       \/ exists v,
                           mid = set_students v
                                   (set_users
                                      (delete_first
                                         (fun u => Nat.eqb (user_id u) id)
                                         (users s)) s))
    end.
    { destruct (studentInfo_rollNumber deleted) as [rn |]; [| now left].
      destruct (JS.truthy_string rn); [right; eexists; reflexivity | now left]. }
    destruct (Hsame _ _ Hmid) as [Hr [Hb [Hc [Ha Hat]]]].
    rewrite Hb, Hc, Ha, Hat. split; [| repeat split].
    intros r Hin. unfold delete_all in Hin. apply filter_In in Hin.
    destruct Hin as [_ Hin]. apply negb_true_iff in Hin.
    now apply Nat.eqb_neq.
Qed.

Lemma student_router_delete_effect_witness :
  StudentRoutes_delete.deleteStudent Campus.asha 10 Campus.store
  = (Failure 403 "Not authorized to delete accounts", Campus.store)
  /\ batches (snd (StudentRoutes_delete.deleteStudent Campus.registrar 10
                     Campus.store)) = batches Campus.store.
Proof.
  split.
  - apply (student_router_delete_effect Campus.asha 10 Campus.store).
    discriminate.
  - apply (student_router_delete_effect Campus.registrar 10 Campus.store)
      with (msg := "Student account deleted successfully").
    reflexivity.
Defined.

(* ------------------------------------------------------------------ *)
(** ** Provisioning *)

(** Case analysis on the innermost scrutinee of a nest of matches. *)
Ltac destruct_innermost t :=
  match t with
  | context [match ?x with _ => _ end] => destruct_innermost x
  | _ => destruct t eqn:?
  end.

Ltac walk_handler :=
  repeat match goal with
         | |- match ?x with _ => _ end = _ -> _ => destruct_innermost x
         | |- (let _ := _ in _) = _ -> _ => cbv zeta
         end.

(** A session keeps the store it started from, whatever is written. *)
Lemma abort_write (f : Store -> Store) (t : Transaction.Session) :
  Transaction.abort (Transaction.write f t) = Transaction.abort t.
Proof. reflexivity. Qed.

Lemma abort_start (s : Store) : Transaction.abort (Transaction.start s) = s.
Proof. reflexivity. Qed.

(** X9: a refusal of the single-user provisioning handler, whatever its
    reason, leaves the store exactly as it was: the handler aborts its
    transaction on every failing path, so nothing written to the session
    before the failing step (the user, the profile) survives. *)
Theorem createUser_failure_changes_nothing :
  forall dup ok p req e s code msg s',
    AdminUserManagement.createUser dup ok p req e s = (Failure code msg, s') ->
    s' = s.
Proof.
  intros dup ok p req e s code msg s'.
  unfold AdminUserManagement.createUser.
  walk_handler; try discriminate;
    intros [= _ _ <-]; rewrite ?abort_write; try apply abort_start;
    reflexivity.
Qed.

Lemma createUser_failure_changes_nothing_witness :
  snd (AdminUserManagement.createUser Campus.no_duplicate Campus.any_profile
         Campus.registrar Campus.john_again Campus.entropy Campus.store)
  = Campus.store.
Proof.
  apply (@createUser_failure_changes_nothing Campus.no_duplicate
           Campus.any_profile Campus.registrar Campus.john_again
           Campus.entropy Campus.store 500
           "Failed to generate a unique username. Please try again.").
  reflexivity.
Defined.

Ltac session_simpl :=
  cbn [Transaction.start Transaction.write Transaction.commit
       Transaction.abort Transaction.working Transaction.committed].

(** The shape of a successful provisioning. *)
Lemma createUser_success dup ok p req e s c s' :
  AdminUserManagement.createUser dup ok p req e s = (Success 201 c, s') ->
  exists uname,
    AdminUserManagement.usernameLoop (AdminUserManagement.cu_firstName req)
      (AdminUserManagement.cu_lastName req) (AdminUserManagement.draws e) s
      AdminUserManagement.maxAttempts 0
    = Some uname
    /\ username (AdminUserManagement.created_user c)
       = match AdminUserManagement.cu_username req with
         | Some name => name
         | None => uname
         end
    /\ AdminUserManagement.generated_username c
       = username (AdminUserManagement.created_user c)
    /\ user_id (AdminUserManagement.created_user c)
       = AdminUserManagement.newUserId e
    /\ role (AdminUserManagement.created_user c) = AdminUserManagement.cu_role req
    /\ AdminUserManagement.generated_password c = AdminUserManagement.password e
    /\ users s' = users s ++ [AdminUserManagement.created_user c]
    /\ courses s' = courses s /\ assignments s' = assignments s
    /\ attendances s' = attendances s /\ reports s' = reports s.
Proof.
  unfold AdminUserManagement.createUser. cbv zeta. session_simpl.
  destruct (negb (role_eqb (principal_role p) admin)); [discriminate |].
  destruct (negb (AdminUserManagement.cu_valid req)); [discriminate |].
  destruct (AdminUserManagement.usernameLoop _ _ _ s _ 0) as [uname |];
    [| discriminate].
  walk_handler; try discriminate;
    intros [= <- <-]; session_simpl; simpl;
    exists uname; repeat split; reflexivity.
Qed.

Lemma mem_addToSet_same (x : ObjectId) (l : list ObjectId) :
  Mongo.mem x (Mongo.addToSet x l) = true.
Proof.
  unfold Mongo.addToSet. destruct (Mongo.mem x l) eqn:E; [exact E |].
  unfold Mongo.mem. rewrite existsb_app. simpl.
  now rewrite Nat.eqb_refl, orb_true_r.
Qed.

Lemma NoDup_app_fresh {A} (l : list A) (x : A) :
  NoDup l -> ~ In x l -> NoDup (l ++ [x]).
Proof.
  induction 1 as [| a t Ha Ht IH]; simpl; intros Hx.
  - constructor; [tauto | constructor].
  - constructor.
    + rewrite in_app_iff. simpl. intuition congruence.
    + apply IH. tauto.
Qed.

(** X10: a successfully provisioned user is appended to the collection and
    the answer reports the username that was stored.  When the body carries
    no username of its own, that username is one of the first five candidates
    and was not in the store before, so usernames that were pairwise distinct
    stay so; when the body carries one, the spread of the remaining body
    fields puts it in place of the generated candidate. *)
Theorem createUser_username_is_fresh :
  forall dup ok p req e s c s',
    AdminUserManagement.createUser dup ok p req e s = (Success 201 c, s') ->
    users s' = users s ++ [AdminUserManagement.created_user c]
    /\ AdminUserManagement.generated_username c
       = username (AdminUserManagement.created_user c)
    /\ (AdminUserManagement.cu_username req = None ->
        (exists k,
            k < 5
            /\ username (AdminUserManagement.created_user c)
               = AdminUserManagement.candidate
                   (AdminUserManagement.cu_firstName req)
                   (AdminUserManagement.cu_lastName req)
                   (AdminUserManagement.draws e k))
        /\ AdminUserManagement.usernameExists
             (username (AdminUserManagement.created_user c)) s = false
        /\ (NoDup (map username (users s)) -> NoDup (map username (users s'))))
    /\ (forall name,
          AdminUserManagement.cu_username req = Some name ->
          username (AdminUserManagement.created_user c) = name).
Proof.
  intros dup ok p req e s c s' Hrun.
  destruct (createUser_success _ _ _ _ _ _ Hrun)
    as [uname [Hloop [Hname [Hgen [_ [_ [_ [Husers _]]]]]]]].
  split; [exact Husers |]. split; [exact Hgen |]. split.
  - intros Hnone. rewrite Hnone in Hname.
    pose proof (usernameLoop_result (AdminUserManagement.cu_firstName req)
                  (AdminUserManagement.cu_lastName req)
                  (AdminUserManagement.draws e) s
                  AdminUserManagement.maxAttempts 0) as Hres.
    rewrite Hloop in Hres. destruct Hres as [k [Hk [Hcand [Hfree _]]]].
    unfold AdminUserManagement.collides in Hfree.
    rewrite <- Hcand, <- Hname in Hfree.
    split; [exists k; split; [exact (proj2 Hk) | congruence] |].
    split; [exact Hfree |].
    intros Hnd. rewrite Husers, map_app. simpl.
    apply NoDup_app_fresh; [exact Hnd |].
    intros Hin. apply in_map_iff in Hin. destruct Hin as [u [Hu Hin]].
    unfold AdminUserManagement.usernameExists in Hfree.
    rewrite existsb_false_iff in Hfree. specialize (Hfree u Hin).
    rewrite Hu, String.eqb_refl in Hfree. discriminate.
  - intros name Hsome. now rewrite Hsome in Hname.
Qed.

Lemma createUser_username_is_fresh_witness :
  (exists c s',
      AdminUserManagement.createUser Campus.no_duplicate Campus.any_profile
        Campus.registrar Staff.mary Staff.fresh_entropy Campus.store
      = (Success 201 c, s')
      /\ username (AdminUserManagement.created_user c) = "maryk101"
      /\ AdminUserManagement.usernameExists
           (username (AdminUserManagement.created_user c)) Campus.store = false)
  /\ (exists c s',
         AdminUserManagement.createUser Campus.no_duplicate Campus.any_profile
           Campus.registrar Staff.mary_as_root Staff.fresh_entropy Campus.store
         = (Success 201 c, s')
         /\ username (AdminUserManagement.created_user c) = "root"
         /\ AdminUserManagement.usernameExists "root" Campus.store = true).
Proof.
  split.
  - assert (H : exists c s',
               AdminUserManagement.createUser Campus.no_duplicate
                 Campus.any_profile Campus.registrar Staff.mary
                 Staff.fresh_entropy Campus.store = (Success 201 c, s')
               /\ username (AdminUserManagement.created_user c) = "maryk101").
    { eexists. eexists. split; [vm_compute; reflexivity | reflexivity]. }
    destruct H as [c [s' [Hrun Hname]]]. exists c, s'.
    destruct (createUser_username_is_fresh _ _ _ _ _ _ Hrun)
      as [_ [_ [Hfresh _]]].
    destruct (Hfresh eq_refl) as [_ [Hfree _]].
    repeat split; assumption.
  - assert (H : exists c s',
               AdminUserManagement.createUser Campus.no_duplicate
                 Campus.any_profile Campus.registrar Staff.mary_as_root
                 Staff.fresh_entropy Campus.store = (Success 201 c, s')).
    { eexists. eexists. vm_compute. reflexivity. }
    destruct H as [c [s' Hrun]]. exists c, s'.
    destruct (createUser_username_is_fresh _ _ _ _ _ _ Hrun)
      as [_ [_ [_ Hgiven]]].
    split; [exact Hrun |]. split; [exact (Hgiven "root" eq_refl) | reflexivity].
Defined.

(** X11: when the handler has provisioned a student for batch b, one profile
    is appended to the store and the batch with id b lists the new user among
    its students; the profile points to the new user and to b unless
    [studentDetails] carries a user or a batch of its own, which then replace
    them. *)
Theorem createUser_student_is_linked :
  forall dup ok p req e s c s' b,
    AdminUserManagement.createUser dup ok p req e s = (Success 201 c, s') ->
    AdminUserManagement.cu_role req = student ->
    AdminUserManagement.cu_batchId req = Some b ->
    (exists profile,
        students s' = students s ++ [profile]
        /\ student_id profile = AdminUserManagement.newStudentId e
        /\ student_user profile
           = match AdminUserManagement.cu_studentDetails req with
             | Some d =>
                 match AdminUserManagement.sd_user d with
                 | Some u => u
                 | None => AdminUserManagement.newUserId e
                 end
             | None => AdminUserManagement.newUserId e
             end
        /\ student_batch profile
           = match AdminUserManagement.cu_studentDetails req with
             | Some d =>
                 match AdminUserManagement.sd_batch d with
                 | Some x => Some x
                 | None => Some b
                 end
             | None => Some b
             end)
    /\ exists batch',
        find (fun x => Nat.eqb (batch_id x) b) (batches s') = Some batch'
        /\ Mongo.mem (AdminUserManagement.newUserId e) (batch_students batch')
           = true.
Proof.
  intros dup ok p req e s c s' b Hrun Hrole Hbatch. revert Hrun.
  unfold AdminUserManagement.createUser. rewrite Hrole, Hbatch.
  cbv zeta. session_simpl.
  destruct (negb (role_eqb (principal_role p) admin)); [discriminate |].
  destruct (negb (AdminUserManagement.cu_valid req)); [discriminate |].
  destruct (AdminUserManagement.usernameLoop _ _ _ s _ 0) as [uname |];
    [| discriminate].
  match goal with
  | |- match ?x with _ => _ end = _ -> _ => destruct x; [discriminate |]
  end.
  destruct (negb (existsb (fun x => Nat.eqb (batch_id x) b) (batches s)))
    eqn:Hexists; [discriminate |].
  match goal with
  | |- match ?x with _ => _ end = _ -> _ => destruct x; try discriminate
  end.
  match goal with
  | |- match (if ?x then _ else _) with _ => _ end = _ -> _ =>
      destruct x; [| discriminate]
  end.
  intros [= _ <-]. cbn [students batches set_students set_batches set_users].
  split.
  - eexists. split; [reflexivity |].
    unfold AdminUserManagement.newProfile. cbn [user_id].
    destruct (AdminUserManagement.cu_studentDetails req) as [d |];
      repeat split; reflexivity.
  - apply negb_false_iff in Hexists.
    destruct (find (fun x => Nat.eqb (batch_id x) b) (batches s))
      as [b0 |] eqn:Hfind;
      [| apply find_none_iff in Hfind; congruence].
    eexists. split.
    + apply (@find_update_first Batch (fun x => Nat.eqb (batch_id x) b)
               (fun x => Nat.eqb b (batch_id x)) _ (batches s) b0);
        [ intros y; apply Nat.eqb_sym
        | exact Hfind
        | simpl; apply find_some in Hfind; tauto ].
    + simpl. apply mem_addToSet_same.
Qed.

Lemma createUser_student_is_linked_witness :
  exists c s',
    AdminUserManagement.createUser Campus.no_duplicate Campus.any_profile
      Campus.registrar Staff.mary_as_root Staff.fresh_entropy Campus.store
    = (Success 201 c, s')
    /\ (exists profile,
           students s' = students Campus.store ++ [profile]
           /\ student_user profile = 10
           /\ student_batch profile = Some 51)
    /\ exists batch',
        find (fun x => Nat.eqb (batch_id x) 50) (batches s') = Some batch'
        /\ Mongo.mem 31 (batch_students batch') = true.
Proof.
  assert (H : exists c s',
             AdminUserManagement.createUser Campus.no_duplicate
               Campus.any_profile Campus.registrar Staff.mary_as_root
               Staff.fresh_entropy Campus.store = (Success 201 c, s')).
  { eexists. eexists. vm_compute. reflexivity. }
  destruct H as [c [s' Hrun]]. exists c, s'.
  destruct (@createUser_student_is_linked _ _ _ _ _ _ _ _ 50 Hrun
              eq_refl eq_refl)
    as [[profile [Hstudents [_ [Huser Hprofile]]]] Hbatch].
  split; [exact Hrun |]. split; [| exact Hbatch].
  exists profile. repeat split; assumption.
Defined.

(** X12: when the handler has provisioned a trainer with a list of batch
    ids, every id of the list resolved to a batch, every batch of the list
    now names the new trainer, and the batches outside the list are the
    documents they were. *)
Theorem createUser_trainer_joins_listed_batches :
  forall dup ok p req e s c s' ids,
    AdminUserManagement.createUser dup ok p req e s = (Success 201 c, s') ->
    AdminUserManagement.cu_role req = trainer ->
    AdminUserManagement.cu_batchIds req = Some ids ->
    List.length (filter (fun b => Mongo.mem (batch_id b) ids) (batches s))
    = List.length ids
    /\ (forall b', In b' (batches s') ->
                   Mongo.mem (batch_id b') ids = true ->
                   Mongo.mem (AdminUserManagement.newUserId e) (trainers b')
                   = true)
    /\ (forall b', In b' (batches s') ->
                   Mongo.mem (batch_id b') ids = false ->
                   In b' (batches s))
    /\ students s' = students s.
Proof.
  intros dup ok p req e s c s' ids Hrun Hrole Hids. revert Hrun.
  unfold AdminUserManagement.createUser. rewrite Hrole, Hids.
  cbv zeta. session_simpl.
  walk_handler; try discriminate;
    intros [= _ <-]; simpl;
    match goal with
    | H : Nat.eqb _ _ = true |- _ => apply Nat.eqb_eq in H
    end;
    (split; [assumption |]); (split; [| split; [| reflexivity]]);
    intros b' Hin Hmem; apply in_update_many in Hin;
    destruct Hin as [x [Hx ->]];
    destruct (Mongo.mem (batch_id x) ids) eqn:E; simpl in *;
    solve [ apply mem_addToSet_same | congruence | assumption ].
Qed.

Lemma createUser_trainer_joins_listed_batches_witness :
  exists c s',
    AdminUserManagement.createUser Campus.no_duplicate Campus.any_profile
      Campus.registrar Staff.tom Staff.fresh_entropy Campus.store
    = (Success 201 c, s')
    /\ forall b', In b' (batches s') ->
                  Mongo.mem (batch_id b') [50; 51] = true ->
                  Mongo.mem 31 (trainers b') = true.
Proof.
  assert (H : exists c s',
             AdminUserManagement.createUser Campus.no_duplicate
               Campus.any_profile Campus.registrar Staff.tom
               Staff.fresh_entropy Campus.store = (Success 201 c, s')).
  { eexists. eexists. vm_compute. reflexivity. }
  destruct H as [c [s' Hrun]]. exists c, s'. split; [exact Hrun |].
  destruct (@createUser_trainer_joins_listed_batches _ _ _ _ _ _ _ _ [50; 51]
              Hrun eq_refl eq_refl) as [_ [H _]].
  exact H.
Defined.

(* ------------------------------------------------------------------ *)
(** ** Shape of generated usernames *)

Lemma length_substring_0 (n : nat) (s : string) :
  String.length (substring 0 n s) = Nat.min n (String.length s).
Proof.
  revert s. induction n as [| n IH]; intros [| c t]; simpl; try reflexivity.
  now rewrite IH.
Qed.

Lemma substring_0_append (n : nat) (a b : string) :
  n <= String.length a ->
  substring 0 n (a ++ b) = substring 0 n a.
Proof.
  revert a. induction n as [| n IH]; intros [| c t]; simpl; intros H;
    try reflexivity; try lia.
  - destruct b; reflexivity.
  - rewrite IH by lia. reflexivity.
Qed.

Lemma length_toLowerCase (s : string) :
  String.length (AdminUserManagement.toLowerCase s) = String.length s.
Proof. induction s as [| c t IH]; simpl; [reflexivity | now rewrite IH]. Qed.

Lemma append_assoc_string (a b c : string) :
  ((a ++ b) ++ c = a ++ (b ++ c))%string.
Proof. induction a as [| x t IH]; simpl; [reflexivity | now rewrite IH]. Qed.

Lemma candidate_ignores_draw first last d d' :
  20 <= String.length first ->
  AdminUserManagement.candidate first last d
  = AdminUserManagement.candidate first last d'.
Proof.
  intros Hlong. unfold AdminUserManagement.candidate.
  rewrite !append_assoc_string.
  rewrite !substring_0_append by (rewrite length_toLowerCase; exact Hlong).
  reflexivity.
Qed.

(** X13: a generated username never has more than 20 characters, whether it
    comes from the retry loop or from the fallback; and when the first name
    has 20 characters or more the random suffix is cut off, so every attempt
    yields the same candidate. *)
Theorem username_length_and_truncation :
  forall first last draws uuid s d d',
    String.length (AdminUserManagement.candidate first last d) <= 20
    /\ String.length
         (AdminUserManagement.generateUniqueUsername first last draws uuid s)
       <= 20
    /\ (20 <= String.length first ->
        AdminUserManagement.candidate first last d
        = AdminUserManagement.candidate first last d').
Proof.
  intros first last draws uuid s d d'.
  assert (Hcand : forall x,
             String.length (AdminUserManagement.candidate first last x) <= 20).
  { intros x. unfold AdminUserManagement.candidate.
    rewrite length_substring_0. lia. }
  split; [apply Hcand |]. split.
  - unfold AdminUserManagement.generateUniqueUsername.
    pose proof (usernameLoop_result first last draws s
                  AdminUserManagement.maxAttempts 0) as H.
    destruct (AdminUserManagement.usernameLoop first last draws s
                AdminUserManagement.maxAttempts 0) as [u |].
    + destruct H as [k [_ [-> _]]]. apply Hcand.
    + simpl. rewrite length_substring_0. lia.
  - apply candidate_ignores_draw.
Qed.

Lemma username_length_and_truncation_witness :
  AdminUserManagement.candidate "Maximilianalexanderx" "Stone" 7
  = AdminUserManagement.candidate "Maximilianalexanderx" "Stone" 512.
Proof.
  apply (username_length_and_truncation "Maximilianalexanderx" "Stone"
           (fun _ => 0) "" Campus.store 7 512).
  simpl. lia.
Defined.

(** X14: for a first name of 20 characters or more, once its truncated
    candidate is taken the provisioning handler refuses every further request
    with that first name, whatever the random draws are. *)
Theorem long_first_name_cannot_be_provisioned_twice :
  forall dup ok p req e s,
    principal_role p = admin ->
    AdminUserManagement.cu_valid req = true ->
    20 <= String.length (AdminUserManagement.cu_firstName req) ->
    AdminUserManagement.usernameExists
      (AdminUserManagement.candidate (AdminUserManagement.cu_firstName req)
         (AdminUserManagement.cu_lastName req) 0) s = true ->
    AdminUserManagement.createUser dup ok p req e s
    = (Failure 500 "Failed to generate a unique username. Please try again.", s).
Proof.
  intros dup ok p req e s Hrole Hvalid Hlong Htaken.
  unfold AdminUserManagement.createUser. rewrite Hrole, Hvalid.
  simpl negb. cbv iota.
  rewrite usernameLoop_all_collide; [reflexivity |].
  intros j _. unfold AdminUserManagement.collides.
  now rewrite (@candidate_ignores_draw
                 (AdminUserManagement.cu_firstName req)
                 (AdminUserManagement.cu_lastName req)
                 (AdminUserManagement.draws e j) 0 Hlong).
Qed.

Lemma long_first_name_cannot_be_provisioned_twice_witness :
  fst (AdminUserManagement.createUser Campus.no_duplicate Campus.any_profile
         Campus.registrar Staff.max_again Staff.fresh_entropy Staff.long_store)
  = Failure 500 "Failed to generate a unique username. Please try again.".
Proof.
  rewrite (@long_first_name_cannot_be_provisioned_twice Campus.no_duplicate
             Campus.any_profile Campus.registrar Staff.max_again
             Staff.fresh_entropy Staff.long_store eq_refl eq_refl).
  - reflexivity.
  - simpl. lia.
  - reflexivity.
Defined.

(* ------------------------------------------------------------------ *)
(** ** Generated passwords *)

Lemma get_in_range (s : string) (n : nat) :
  n < String.length s ->
  exists c, String.get n s = Some c /\ In c (list_ascii_of_string s).
Proof.
  revert n. induction s as [| a t IH]; simpl; intros n Hn; [lia |].
  destruct n as [| n].
  - exists a. split; [reflexivity | now left].
  - destruct (IH n) as [c [Hc Hin]]; [lia |].
    exists c. split; [exact Hc | now right].
Qed.

Lemma pick_nonempty (cs : string) (draw : nat) :
  0 < String.length cs ->
  exists c, PasswordGenerator.pick cs draw = [c]
            /\ In c (list_ascii_of_string cs).
Proof.
  intros Hlen. unfold PasswordGenerator.pick.
  destruct (@get_in_range cs (draw mod String.length cs)) as [c [Hc Hin]].
  - apply Nat.mod_upper_bound. lia.
  - exists c. rewrite Hc. split; [reflexivity | exact Hin].
Qed.

Lemma length_fill (count : nat) (draws : nat -> nat) (k : nat) :
  List.length (PasswordGenerator.fill count draws k) = count.
Proof.
  revert k. induction count as [| c IH]; intros k; simpl; [reflexivity |].
  destruct (@pick_nonempty PasswordGenerator.charset (draws k)) as [x [Hx _]];
    [vm_compute; lia |].
  rewrite Hx. simpl. now rewrite IH.
Qed.

Lemma existsb_of_class (cls : ascii -> bool) (cs : string) (c : ascii)
      (l : list ascii) :
  forallb cls (list_ascii_of_string cs) = true ->
  In c (list_ascii_of_string cs) -> In c l ->
  existsb cls l = true.
Proof.
  intros Hall Hc Hin. apply existsb_exists. exists c. split; [exact Hin |].
  rewrite forallb_forall in Hall. now apply Hall.
Qed.

Section PasswordShape.

Variable shuffle : list ascii -> list ascii.
Hypothesis shuffle_permutes : forall l, Permutation l (shuffle l).

(** X15: whatever the random draws and whatever reordering the shuffle
    produces, a generated password has max(length, 4) characters and contains
    a lowercase letter, an uppercase letter, a digit and one of the symbols. *)
Theorem password_has_every_class :
  forall (n : nat) (draws : nat -> nat),
    let pw :=
      list_ascii_of_string
        (PasswordGenerator.generateStrongPassword shuffle n draws) in
    List.length pw = Nat.max n 4
    /\ existsb PasswordGenerator.is_lower pw = true
    /\ existsb PasswordGenerator.is_upper pw = true
    /\ existsb PasswordGenerator.is_digit pw = true
    /\ existsb PasswordGenerator.is_symbol pw = true.
Proof.
  intros n draws. unfold PasswordGenerator.generateStrongPassword. cbv zeta.
  rewrite list_ascii_of_string_of_list_ascii.
  destruct (@pick_nonempty PasswordGenerator.lowercase (draws 0))
    as [a [Ha Hain]]; [vm_compute; lia |].
  destruct (@pick_nonempty PasswordGenerator.uppercase (draws 1))
    as [b [Hb Hbin]]; [vm_compute; lia |].
  destruct (@pick_nonempty PasswordGenerator.digits (draws 2))
    as [c [Hc Hcin]]; [vm_compute; lia |].
  destruct (@pick_nonempty PasswordGenerator.symbols (draws 3))
    as [d [Hd Hdin]]; [vm_compute; lia |].
  rewrite Ha, Hb, Hc, Hd. cbn [app List.length].
  set (rest := PasswordGenerator.fill (n - 4) draws 4).
  pose proof (shuffle_permutes (a :: b :: c :: d :: rest)) as Hperm.
  assert (Hin : forall x, In x [a; b; c; d] ->
                          In x (shuffle (a :: b :: c :: d :: rest))).
  { intros x Hx. apply (Permutation_in _ Hperm).
    destruct Hx as [<- | [<- | [<- | [<- | []]]]];
      [now left | right; now left | do 2 right; now left
      | do 3 right; now left]. }
  clear Hperm.
  split.
  - rewrite <- (Permutation_length (shuffle_permutes _)).
    cbn [List.length]. unfold rest. rewrite length_fill. lia.
  - repeat split.
    + apply (@existsb_of_class _ PasswordGenerator.lowercase a);
        [reflexivity | exact Hain | apply Hin; now left].
    + apply (@existsb_of_class _ PasswordGenerator.uppercase b);
        [reflexivity | exact Hbin | apply Hin; right; now left].
    + apply (@existsb_of_class _ PasswordGenerator.digits c);
        [reflexivity | exact Hcin | apply Hin; do 2 right; now left].
    + apply (@existsb_of_class _ PasswordGenerator.symbols d);
        [reflexivity | exact Hdin | apply Hin; do 3 right; now left].
Qed.

End PasswordShape.

Lemma password_has_every_class_witness :
  String.length
    (PasswordGenerator.generateStrongPassword Staff.identity_shuffle 10
       (fun k => 7 * k + 3)) = 10
  /\ existsb PasswordGenerator.is_symbol
       (list_ascii_of_string
          (PasswordGenerator.generateStrongPassword Staff.identity_shuffle 10
             (fun k => 7 * k + 3))) = true.
Proof.
  destruct (@password_has_every_class Staff.identity_shuffle
              (fun l => Permutation_refl l) 10 (fun k => 7 * k + 3))
    as [_ [_ [_ [_ H]]]].
  split; [reflexivity | exact H].
Defined.

(* ------------------------------------------------------------------ *)
(** ** Report handlers: exact effect, frame and append-only log *)

Lemma save_unfold now loaded c (r : Report) (s : Store) :
  Reports.save now loaded c true r s
  = Some (Reports.pre_save now false
            (negb (status_eqb (report_status r) loaded)) c r,
          set_reports
            (update_first (fun x => Nat.eqb (report_id x) (report_id r))
               (fun _ => Reports.pre_save now false
                           (negb (status_eqb (report_status r) loaded)) c r)
               (reports s)) s).
Proof. reflexivity. Qed.

Lemma in_update_first_other {A} (p : A -> bool) (f : A -> A) (l : list A) (x : A) :
  (forall a, p a = true -> p (f a) = true) ->
  In x (update_first p f l) -> p x = false -> In x l.
Proof.
  intros Hf. induction l as [| a t IH]; simpl; [tauto |].
  destruct (p a) eqn:Ha; simpl.
  - intros [<- | H] Hx; [| now right].
    rewrite (Hf a Ha) in Hx. discriminate.
  - intros [<- | H] Hx; [now left | right; now apply IH].
Qed.

Lemma length_update_first {A} (p : A -> bool) (f : A -> A) (l : list A) :
  List.length (update_first p f l) = List.length l.
Proof.
  induction l as [| a t IH]; simpl; [reflexivity |].
  destruct (p a); simpl; [reflexivity | now rewrite IH].
Qed.

(** What a [save] may change: one report, found by its id. *)
Lemma save_frame now loaded c valid (r r' : Report) (s s' : Store) :
  Reports.save now loaded c valid r s = Some (r', s') ->
  users s' = users s /\ students s' = students s /\ batches s' = batches s
  /\ courses s' = courses s /\ assignments s' = assignments s
  /\ attendances s' = attendances s
  /\ List.length (reports s') = List.length (reports s)
  /\ (forall x, In x (reports s') -> report_id x <> report_id r ->
                 In x (reports s)).
Proof.
  unfold Reports.save. destruct valid; [| discriminate].
  intros [= _ <-]. cbn [users students batches courses assignments attendances
                        reports set_reports].
  repeat split.
  - apply length_update_first.
  - intros x Hin Hne. eapply in_update_first_other; [| exact Hin |].
    + intros a _.
      cbv [Reports.pre_save Reports.pre_save_comments Reports.pre_save_status].
      repeat match goal with
             | |- context [if ?b then _ else _] => destruct b
             end; simpl; apply Nat.eqb_refl.
    + now apply Nat.eqb_neq.
Qed.

Lemma untouched_but_refl id s : Frame.untouched_but id s s.
Proof. unfold Frame.untouched_but. repeat split. tauto. Qed.

Lemma comment_texts_pre_save now n m c (r : Report) :
  map comment_text (comments (Reports.pre_save now n m c r))
  = map comment_text (comments r).
Proof.
  unfold Reports.pre_save, Reports.pre_save_comments, Reports.pre_save_status.
  destruct c, (n || m); simpl; try reflexivity;
    rewrite map_map; reflexivity.
Qed.

Lemma comments_pre_save now n m (r : Report) :
  comments (Reports.pre_save now n m true r)
  = map (fun c => mkComment (comment_user c) (comment_text c)
                            (comment_createdAt c) (Some now))
        (comments r).
Proof.
  unfold Reports.pre_save, Reports.pre_save_comments, Reports.pre_save_status.
  destruct (n || m); reflexivity.
Qed.

Lemma save_keeps_the_log now loaded c valid id (r r0 : Report) (s : Store) :
  Reports.findReport id s = Some r0 ->
  report_id r = id ->
  (exists more, statusHistory r = statusHistory r0 ++ more) ->
  (exists more,
      map comment_text (comments r) = map comment_text (comments r0) ++ more) ->
  exists r',
    Reports.findReport id (Frame.after_save (Reports.save now loaded c valid r s) s)
    = Some r'
    /\ (exists more, statusHistory r' = statusHistory r0 ++ more)
    /\ (exists more,
           map comment_text (comments r')
           = map comment_text (comments r0) ++ more).
Proof.
  intros Hfind Hid [mh Hh] [mc Hc]. destruct valid.
  - destruct (Reports.save now loaded c true r s) as [[r' s'] |] eqn:Hsave;
      [| discriminate Hsave].
    exists r'. simpl. split; [eapply findReport_after_save; eassumption |].
    rewrite (save_result Hsave). split.
    + rewrite statusHistory_pre_save, Hh, <- app_assoc. eauto.
    + rewrite comment_texts_pre_save, Hc. eauto.
  - exists r0. simpl. split; [exact Hfind |].
    split; exists []; now rewrite app_nil_r.
Qed.

Lemma snd_apply_status p st req now report s :
  snd (Reports.apply_status p st req now report s)
  = Frame.after_save
      (Reports.save now (report_status report) false
         (Reports.valid_history_entry (Reports.route_entry p st req now))
         (Reports.set_statusHistory
            (statusHistory report ++ [Reports.route_entry p st req now])
            (Reports.set_report_updatedAt (Some now)
               (Reports.set_report_status st report)))
         s) s.
Proof.
  unfold Reports.apply_status. cbv zeta.
  match goal with
  | |- snd (match ?x with _ => _ end) = Frame.after_save ?y _ =>
      change y with x; destruct x as [[r' s'] |]; reflexivity
  end.
Qed.

Lemma snd_apply_comment p advance req now report s :
  snd (Reports.apply_comment p advance req now report s)
  = Frame.after_save
      (Reports.save now (report_status report) true
         (Reports.valid_comment
            (mkComment (principal_id p) (JS.trim (Reports.body_text req)) now
                       None))
         (if advance
          then Reports.set_report_status reviewed
                 (Reports.set_comments
                    (comments report
                     ++ [mkComment (principal_id p)
                                   (JS.trim (Reports.body_text req)) now None])
                    report)
          else Reports.set_comments
                 (comments report
                  ++ [mkComment (principal_id p)
                                (JS.trim (Reports.body_text req)) now None])
                 report)
         s) s.
Proof.
  unfold Reports.apply_comment. cbv zeta.
  match goal with
  | |- snd (match ?x with _ => _ end) = Frame.after_save ?y _ =>
      change y with x; destruct x as [[r' s'] |]; reflexivity
  end.
Qed.

Lemma after_save_frame now loaded c valid id (r : Report) (s : Store) :
  report_id r = id ->
  Frame.untouched_but id s
    (Frame.after_save (Reports.save now loaded c valid r s) s).
Proof.
  intros Hid.
  destruct (Reports.save now loaded c valid r s) as [[r' s'] |] eqn:Hsave;
    simpl; [| apply untouched_but_refl].
  unfold Frame.untouched_but. rewrite <- Hid. eapply save_frame; eassumption.
Qed.

(** Walks the branches of a handler whose result is projected with [snd]. *)
Ltac walk_snd :=
  repeat match goal with
         | |- context [snd (match ?x with _ => _ end)] => destruct_innermost x
         | |- context [snd (let _ := _ in _)] => cbv zeta
         end.

(** X16: whatever the request and its outcome, each of the four report
    handlers (status update and comment, on both routers) leaves users,
    students, batches, courses, assignments and attendance records as they
    were, keeps the number of reports, and leaves every report with another
    id the document it was. *)
Theorem report_handlers_touch_one_report :
  forall p id now s sreq creq,
    Frame.untouched_but id s (snd (Reports.updateStatus p id sreq now s))
    /\ Frame.untouched_but id s (snd (Reports.trainerUpdateStatus p id sreq now s))
    /\ Frame.untouched_but id s (snd (Reports.addComment p id creq now s))
    /\ Frame.untouched_but id s (snd (Reports.trainerAddComment p id creq now s)).
Proof.
  intros p id now s sreq creq.
  unfold Reports.updateStatus, Reports.trainerUpdateStatus,
    Reports.addComment, Reports.trainerAddComment.
  (split; [| split; [| split]]); walk_snd; cbn [snd];
    try apply untouched_but_refl;
    rewrite ?snd_apply_status, ?snd_apply_comment;
    apply after_save_frame;
    match goal with
    | H : Reports.findReport id s = Some _ |- _ =>
        apply findReport_some_id in H
    end;
    try match goal with
        | |- report_id (if ?b then _ else _) = _ => destruct b
        end; simpl; assumption.
Qed.

Lemma log_kept_by_no_change id s (r : Report) :
  Reports.findReport id s = Some r ->
  exists r',
    Reports.findReport id s = Some r'
    /\ (exists more, statusHistory r' = statusHistory r ++ more)
    /\ (exists more,
           map comment_text (comments r') = map comment_text (comments r) ++ more).
Proof.
  intros H. exists r. split; [exact H |].
  split; exists []; now rewrite app_nil_r.
Qed.

(** X17: the status log and the comment thread of a report are append-only
    under all four report handlers: whatever the request and its outcome, the
    report is still there afterwards, its earlier statusHistory entries are
    an unchanged prefix of the new log, and the texts of its earlier comments
    are an unchanged prefix of the new thread. *)
Theorem report_log_is_append_only :
  forall p id now s sreq creq r s',
    Reports.findReport id s = Some r ->
    (s' = snd (Reports.updateStatus p id sreq now s)
     \/ s' = snd (Reports.trainerUpdateStatus p id sreq now s)
     \/ s' = snd (Reports.addComment p id creq now s)
     \/ s' = snd (Reports.trainerAddComment p id creq now s)) ->
    exists r',
      Reports.findReport id s' = Some r'
      /\ (exists more, statusHistory r' = statusHistory r ++ more)
      /\ (exists more,
             map comment_text (comments r')
             = map comment_text (comments r) ++ more).
Proof.
  intros p id now s sreq creq r s' Hfind Hrun.
  unfold Reports.updateStatus, Reports.trainerUpdateStatus,
    Reports.addComment, Reports.trainerAddComment in Hrun.
  destruct Hrun as [-> | [-> | [-> | ->]]];
    walk_snd; cbn [snd];
    try discriminate;
    try match goal with
        | H : Some ?x = Some r |- _ => injection H as ->
        end;
    try (apply log_kept_by_no_change; assumption);
    rewrite ?snd_apply_status, ?snd_apply_comment;
    (apply save_keeps_the_log with (r0 := r);
     [ assumption
     | try match goal with
           | |- report_id (if ?b then _ else _) = _ => destruct b
           end; simpl; eapply findReport_some_id; eassumption
     | try match goal with
           | |- context [if ?b then _ else _] => destruct b
           end; simpl; eauto using app_nil_r;
       exists []; now rewrite app_nil_r
     | try match goal with
           | |- context [if ?b then _ else _] => destruct b
           end; simpl; rewrite ?map_app; eauto using app_nil_r;
       exists []; now rewrite app_nil_r ]).
Qed.

Lemma report_log_is_append_only_witness :
  exists r',
    Reports.findReport 81
      (snd (Reports.addComment Campus.asha 81
              (Reports.mkCommentRequest true "Please add the references.")
              1720000000000%Z Campus.store)) = Some r'
    /\ exists more, statusHistory r' = statusHistory Campus.essay ++ more.
Proof.
  destruct (@report_log_is_append_only Campus.asha 81 1720000000000%Z
              Campus.store (Reports.mkStatusRequest None None)
              (Reports.mkCommentRequest true "Please add the references.")
              Campus.essay _ eq_refl
              (or_intror (or_intror (or_introl eq_refl))))
    as [r' [Hfind [Hlog _]]].
  exists r'. split; assumption.
Defined.

(** X18: an accepted status update writes the entry of the route, carrying
    the caller and the comment; when the target differs from the current
    status the pre-save hook adds a second entry for the same status, with no
    comment and attributed to the creator of the report; when the target
    equals the current status the route's entry is the only one. *)
Theorem status_update_writes_one_or_two_entries :
  forall p id req now s report stu st,
    Reports.findReport id s = Some report ->
    Reports.findStudent (report_student report) s = Some stu ->
    (Mongo.opt_eqb (assignedFaculty stu) (principal_id p) = true
     \/ principal_role p = admin) ->
    Reports.parse_status Reports.reports_allowed (Reports.body_status req)
    = Some st ->
    (String.length (Reports.history_comment req) <= 500)%nat ->
    exists report' s',
      Reports.updateStatus p id req now s = (Success 200 report', s')
      /\ report_updatedAt report' = Some now
      /\ statusHistory report'
         = statusHistory report
           ++ mkStatusEntry st (principal_id p) now
                            (Some (Reports.history_comment req))
              :: (if status_eqb st (report_status report) then []
                  else [mkStatusEntry st (report_createdBy report) now None]).
Proof.
  intros p id req now s report stu st Hr Hs Hauth Hp Hlen.
  unfold Reports.updateStatus. rewrite Hp, Hr, Hs.
  assert (Hallowed :
            negb (Mongo.opt_eqb (assignedFaculty stu) (principal_id p))
            && negb (role_eqb (principal_role p) admin) = false).
  { destruct Hauth as [H | H]; rewrite H; [reflexivity | apply andb_false_r]. }
  rewrite Hallowed. unfold Reports.apply_status. cbv zeta.
  assert (Hv : Reports.valid_history_entry (Reports.route_entry p st req now)
               = true).
  { unfold Reports.valid_history_entry, Reports.route_entry. simpl.
    now apply Nat.leb_le. }
  rewrite Hv, save_unfold. eexists. eexists. split; [reflexivity |].
  split.
  - unfold Reports.pre_save, Reports.pre_save_comments, Reports.pre_save_status.
    match goal with |- context [if ?b then _ else _] => destruct b end;
      reflexivity.
  - rewrite statusHistory_pre_save. simpl. rewrite <- app_assoc. simpl.
    destruct (status_eqb st (report_status report)); reflexivity.
Qed.

Lemma status_update_writes_one_or_two_entries_witness :
  exists report',
    fst (Reports.updateStatus Campus.registrar 81
           (Reports.mkStatusRequest (Some "submitted") None)
           1720000000000%Z Campus.store) = Success 200 report'
    /\ List.length (statusHistory report') = 2.
Proof.
  destruct (status_update_writes_one_or_two_entries
              Campus.registrar 81
              (Reports.mkStatusRequest (Some "submitted") None)
              1720000000000%Z Campus.store
              eq_refl eq_refl (or_intror eq_refl) eq_refl)
    as [report' [s' [Hrun [_ Hlog]]]].
  - simpl. lia.
  - exists report'. rewrite Hrun. split; [reflexivity |].
    rewrite Hlog. reflexivity.
Defined.

(** X19: an accepted comment is appended to the thread with the caller as
    author, the trimmed text and the time of the request; the pre-save hook
    stamps every comment of the thread, old and new, as updated at that time;
    and when the comment moves the report to reviewed, the single new history
    entry names the creator of the report, not the commenter. *)
Theorem comment_is_appended_and_thread_restamped :
  forall p id req now s report stu f,
    Reports.findReport id s = Some report ->
    Reports.findStudent (report_student report) s = Some stu ->
    assignedFaculty stu = Some f ->
    (f = principal_id p \/ principal_role p = admin) ->
    Reports.text_valid req = true ->
    Reports.storable_text (JS.trim (Reports.body_text req)) = true ->
    exists report' s',
      Reports.addComment p id req now s
      = (Success 201
           (id, Some (mkComment (principal_id p)
                                (JS.trim (Reports.body_text req)) now
                                (Some now))), s')
      /\ Reports.findReport id s' = Some report'
      /\ comments report'
         = map (fun c => mkComment (comment_user c) (comment_text c)
                                   (comment_createdAt c) (Some now))
               (comments report)
           ++ [mkComment (principal_id p) (JS.trim (Reports.body_text req))
                         now (Some now)]
      /\ statusHistory report'
         = statusHistory report
           ++ (if status_eqb (report_status report) submitted
                  && negb (role_eqb (principal_role p) student)
               then [mkStatusEntry reviewed (report_createdBy report) now None]
               else []).
Proof.
  intros p id req now s report stu f Hr Hs Hf Hauth Hvalid Htext.
  pose proof (findReport_some_id _ _ Hr) as Hid.
  unfold Reports.addComment. rewrite Hvalid, Hr, Hs, Hf. simpl negb.
  cbv iota.
  assert (Hallowed : negb (Nat.eqb f (principal_id p))
                     && negb (role_eqb (principal_role p) admin) = false).
  { destruct Hauth as [H | H]; rewrite H;
      [now rewrite Nat.eqb_refl | apply andb_false_r]. }
  rewrite Hallowed. unfold Reports.apply_comment. cbv zeta.
  unfold Reports.valid_comment at 1. cbn [comment_text]. rewrite Htext.
  match goal with
  | |- context [Reports.save now ?l ?c true ?r s] =>
      destruct (Reports.save now l c true r s) as [[r' s'] |] eqn:Hsave;
      [| discriminate Hsave]
  end.
  assert (Hfound : Reports.findReport id s' = Some r').
  { eapply findReport_after_save; [exact Hr | | exact Hsave].
    match goal with |- report_id (if ?b then _ else _) = _ => destruct b end;
      exact Hid. }
  assert (Hcomments :
            comments r'
            = map (fun c => mkComment (comment_user c) (comment_text c)
                                      (comment_createdAt c) (Some now))
                  (comments report)
              ++ [mkComment (principal_id p) (JS.trim (Reports.body_text req))
                            now (Some now)]).
  { rewrite (save_result Hsave), comments_pre_save.
    match goal with |- context [if ?b then _ else _] => destruct b end;
      simpl; rewrite map_app; reflexivity. }
  exists r', s'. split; [| split; [exact Hfound | split; [exact Hcomments |]]].
  - f_equal. f_equal. f_equal; [rewrite (save_result Hsave);
                                rewrite report_id_pre_save;
                                match goal with
                                | |- report_id (if ?b then _ else _) = _ =>
                                    destruct b
                                end; exact Hid |].
    rewrite Hcomments, map_app. cbn [map]. rewrite last_last. reflexivity.
  - rewrite (save_result Hsave), statusHistory_pre_save.
    destruct (status_eqb (report_status report) submitted
              && negb (role_eqb (principal_role p) student)) eqn:Hadv; simpl.
    + apply andb_true_iff in Hadv. destruct Hadv as [Hsub _].
      destruct (report_status report); try discriminate Hsub. reflexivity.
    + destruct (report_status report); reflexivity.
Qed.

Lemma comment_is_appended_and_thread_restamped_witness :
  exists report' s',
    Reports.findReport 81 s' = Some report'
    /\ snd (Reports.addComment Campus.asha 81
              (Reports.mkCommentRequest true "  Please add the references. ")
              1720000000000%Z Campus.store) = s'
    /\ map comment_text (comments report') = ["Please add the references."]
    /\ map changedBy (statusHistory report') = [10; 10].
Proof.
  destruct (comment_is_appended_and_thread_restamped Campus.asha 81
              (Reports.mkCommentRequest true "  Please add the references. ")
              1720000000000%Z Campus.store
              eq_refl eq_refl eq_refl (or_introl eq_refl) eq_refl eq_refl)
    as [report' [s' [Hrun [Hfind [Hc Hh]]]]].
  exists report', s'. split; [exact Hfind |].
  split; [now rewrite Hrun |].
  split; [rewrite Hc | rewrite Hh]; reflexivity.
Defined.

(* ------------------------------------------------------------------ *)
(** ** Percentages, listings and the remaining trainer routes *)

Lemma scaled_ratio_in_range (a b : nat) :
  a <= b -> 0 < b ->
  exists y,
    JS.mul (JS.div (JS.of_nat a) (JS.of_nat b)) (JS.Fin 100) = JS.Fin y
    /\ (0 <= y <= 100)%Q.
Proof.
  intros Hab Hb. unfold JS.of_nat, JS.of_Z, JS.div, JS.is_zero.
  assert (Hpos : (0 < inject_Z (Z.of_nat b))%Q).
  { change 0%Q with (inject_Z 0). rewrite <- Zlt_Qlt. lia. }
  destruct (Qeq_bool (inject_Z (Z.of_nat b)) 0) eqn:E.
  { apply Qeq_bool_iff in E. rewrite E in Hpos. now apply Qlt_irrefl in Hpos. }
  cbv beta iota delta [JS.mul].
  eexists. split; [reflexivity |].
  set (r := (inject_Z (Z.of_nat a) / inject_Z (Z.of_nat b))%Q).
  assert (Hr : (inject_Z 0 <= r <= inject_Z 1)%Q).
  { split; unfold r.
    - apply Qle_shift_div_l; [exact Hpos |].
      rewrite Qmult_0_l. change 0%Q with (inject_Z 0).
      rewrite <- Zle_Qle. lia.
    - apply Qle_shift_div_r; [exact Hpos |].
      rewrite Qmult_1_l. rewrite <- Zle_Qle. lia. }
  apply (@fl53_between r 0 1) in Hr; [| lia | lia].
  destruct Hr as [H0 H1].
  apply (@fl53_between (JS.fl53 r * 100)%Q 0 100); [lia | lia |].
  split.
  - apply Qmult_le_0_compat; [exact H0 | discriminate].
  - apply Qle_trans with (1 * 100)%Q; [| discriminate].
    apply Qmult_le_compat_r; [exact H1 | discriminate].
Qed.

Lemma percentage_in_range (a b : nat) :
  a <= b -> 0 < b ->
  exists z,
    JS.round (JS.mul (JS.div (JS.of_nat a) (JS.of_nat b)) (JS.Fin 100))
    = JS.of_Z z
    /\ (0 <= z <= 100)%Z.
Proof.
  intros Hab Hb.
  destruct (scaled_ratio_in_range Hab Hb) as [y [-> [H0 H1]]].
  cbv beta iota delta [JS.round].
  eexists. split; [reflexivity |].
  assert (Hlow : (0 <= y + (1 # 2))%Q).
  { apply Qle_trans with (0 + (1 # 2))%Q; [discriminate |].
    apply Qplus_le_l. exact H0. }
  assert (Hhigh : (y + (1 # 2) <= 100 + (1 # 2))%Q).
  { apply Qplus_le_l. exact H1. }
  apply Qfloor_resp_le in Hlow, Hhigh. split; [exact Hlow | exact Hhigh].
Qed.

(** The quotient is rounded before it is scaled: 29 of 200 is 14.499...98
    per cent as a double, and not the 14.5 that would round to 15. *)
Lemma percentage_of_29_in_200 :
  JS.round (JS.mul (JS.div (JS.of_nat 29) (JS.of_nat 200)) (JS.Fin 100))
  = JS.of_Z 14.
Proof. vm_compute. reflexivity. Qed.

Lemma totalAttendance_cons (x : FacultyDashboard.StatusCount)
      (t : list FacultyDashboard.StatusCount) :
  FacultyDashboard.totalAttendance (x :: t)
  = FacultyDashboard.sc_count x + FacultyDashboard.totalAttendance t.
Proof.
  unfold FacultyDashboard.totalAttendance. simpl.
  now rewrite fold_left_count_shift.
Qed.

Lemma presentAttendance_le_total (summary : list FacultyDashboard.StatusCount) :
  FacultyDashboard.presentAttendance summary
  <= FacultyDashboard.totalAttendance summary.
Proof.
  unfold FacultyDashboard.presentAttendance.
  induction summary as [| x t IH]; [apply Nat.le_refl |].
  rewrite totalAttendance_cons. simpl.
  destruct (FacultyDashboard.att_status_eqb (FacultyDashboard.sc_id x) present);
    lia.
Qed.

Lemma count_le_totalAttendance (summary : list FacultyDashboard.StatusCount)
      (item : FacultyDashboard.StatusCount) :
  In item summary ->
  FacultyDashboard.sc_count item <= FacultyDashboard.totalAttendance summary.
Proof.
  induction summary as [| x t IH]; [intros [] |].
  rewrite totalAttendance_cons. intros [<- | Hin]; [lia |].
  specialize (IH Hin). lia.
Qed.

Lemma num_or_whole (z : Z) :
  (0 <= z <= 100)%Z ->
  exists z', JS.num_or (JS.of_Z z) (JS.Fin 0) = JS.of_Z z' /\ (0 <= z' <= 100)%Z.
Proof.
  intros Hz. unfold JS.num_or.
  destruct (JS.truthy (JS.of_Z z)); [exists z | exists 0%Z];
    (split; [reflexivity | lia]).
Qed.

(** X20: every attendance percentage of the faculty dashboard is a number
    between 0 and 100, never NaN.  The overall percentage of any grouped
    summary and the percentage of every group of the histogram, the empty
    total included, are whole numbers; the per-student percentage of the
    department statistics is not rounded and need not be whole: one present
    out of three is not. *)
Theorem attendance_percentages_are_whole_and_bounded :
  forall summary : list FacultyDashboard.StatusCount,
    (exists z, FacultyDashboard.attendancePercentage summary = JS.of_Z z
               /\ (0 <= z <= 100)%Z)
    /\ (forall item, In item summary ->
          exists z,
            FacultyDashboard.histogramPercentage
              (FacultyDashboard.sc_count item)
              (FacultyDashboard.totalAttendance summary) = JS.of_Z z
            /\ (0 <= z <= 100)%Z)
    /\ (forall attendance : list Attendance,
          exists q,
            FacultyDashboard.studentStatistics attendance = JS.Fin q
            /\ (0 <= q <= 100)%Q)
    /\ (forall z, FacultyDashboard.studentAttendancePercentage 3 1
                  <> JS.of_Z z).
Proof.
  intros summary. split; [| split; [| split]].
  - unfold FacultyDashboard.attendancePercentage.
    destruct (0 <? FacultyDashboard.totalAttendance summary)%nat eqn:E.
    + apply Nat.ltb_lt in E.
      apply percentage_in_range;
        [apply presentAttendance_le_total | exact E].
    + exists 0%Z. split; [reflexivity | lia].
  - intros item Hin. unfold FacultyDashboard.histogramPercentage.
    pose proof (count_le_totalAttendance summary item Hin) as Hle.
    destruct (FacultyDashboard.totalAttendance summary) as [| n] eqn:E.
    + assert (Hc : FacultyDashboard.sc_count item = 0) by lia.
      rewrite Hc. exists 0%Z. split; [reflexivity | lia].
    + destruct (@percentage_in_range (FacultyDashboard.sc_count item) (S n) Hle)
        as [z [Hz Hr]]; [lia |].
      rewrite Hz. apply num_or_whole. exact Hr.
  - intros attendance.
    unfold FacultyDashboard.studentStatistics,
      FacultyDashboard.studentAttendancePercentage.
    destruct (List.length attendance) as [| n] eqn:E.
    + exists 0%Q. split; [reflexivity | split; discriminate].
    + cbn [Nat.eqb]. apply scaled_ratio_in_range; [| lia].
      rewrite <- E. apply filter_length_le.
  - intros z H. vm_compute in H. discriminate H.
Qed.

Lemma attendance_percentages_are_whole_and_bounded_witness :
  (exists z,
      FacultyDashboard.histogramPercentage 1
        (FacultyDashboard.totalAttendance
           [FacultyDashboard.mkStatusCount present 1;
            FacultyDashboard.mkStatusCount absent 3]) = JS.of_Z z
      /\ (0 <= z <= 100)%Z)
  /\ FacultyDashboard.studentAttendancePercentage 3 1 <> JS.of_Z 33.
Proof.
  destruct (attendance_percentages_are_whole_and_bounded
              [FacultyDashboard.mkStatusCount present 1;
               FacultyDashboard.mkStatusCount absent 3]) as [_ [H [_ Hn]]].
  split.
  - apply (H (FacultyDashboard.mkStatusCount present 1)). now left.
  - apply Hn.
Defined.

Lemma totalAttendance_group (st : AttendanceStatus) (n : nat)
      (rest : list FacultyDashboard.StatusCount) :
  FacultyDashboard.totalAttendance
    (match n with
     | O => []
     | S k => [FacultyDashboard.mkStatusCount st (S k)]
     end ++ rest)
  = n + FacultyDashboard.totalAttendance rest.
Proof.
  destruct n; [reflexivity |]. simpl app. now rewrite totalAttendance_cons.
Qed.

Lemma presentAttendance_group (st : AttendanceStatus) (n : nat)
      (rest : list FacultyDashboard.StatusCount) :
  FacultyDashboard.att_status_eqb st present = false ->
  FacultyDashboard.presentAttendance
    (match n with
     | O => []
     | S k => [FacultyDashboard.mkStatusCount st (S k)]
     end ++ rest)
  = FacultyDashboard.presentAttendance rest.
Proof.
  intros H. destruct n; [reflexivity |].
  unfold FacultyDashboard.presentAttendance. simpl. now rewrite H.
Qed.

(** X21: over the groups the [$group] stage produces from a list of
    attendance records, the total the dashboard computes is the number of
    records and the present count is the number of records marked present. *)
Theorem attendance_groups_count_every_record :
  forall l : list Attendance,
    FacultyDashboard.totalAttendance (FacultyDashboard.groupByStatus l)
    = List.length l
    /\ FacultyDashboard.presentAttendance (FacultyDashboard.groupByStatus l)
       = List.length
           (filter (fun a => FacultyDashboard.att_status_eqb (att_status a) present) l).
Proof.
  intros l. unfold FacultyDashboard.groupByStatus. cbn [flat_map]. split.
  - rewrite !totalAttendance_group.
    change (FacultyDashboard.totalAttendance []) with 0.
    induction l as [| a t IH]; [reflexivity |].
    simpl. destruct (att_status a); simpl; lia.
  - destruct (List.length
                (filter (fun a => FacultyDashboard.att_status_eqb (att_status a) present) l))
      as [| n] eqn:E; [| reflexivity].
    cbn [app]. rewrite !presentAttendance_group by reflexivity. reflexivity.
Qed.






Lemma Sorted_by_Z_key {A} (key : A -> Z) (rel : Z -> Z -> Prop)
      (le : A -> A -> bool) (l : list A) :
  (forall a b, le a b = true -> rel (key a) (key b)) ->
  Sorted (fun a b => le a b = true) l ->
  Sorted (fun a b => rel (key a) (key b)) l.
Proof.
  intros Hle. induction 1 as [| a t Ht IH Ha]; constructor; [exact IH |].
  destruct Ha as [| b t' Hab]; constructor. now apply Hle.
Qed.

(** X23: GET /api/trainer/batches answers a trainer with exactly the batches
    of the store that list the caller among their trainers, each once per
    stored document, ordered by startDate from the newest to the oldest. *)
Theorem trainer_batches_are_own_newest_first :
  forall p s,
    principal_role p = trainer ->
    exists l,
      TrainerBatches.trainerBatches p s = Success 200 l
      /\ (forall b, In b l <->
                    In b (batches s)
                    /\ Mongo.mem (principal_id p) (trainers b) = true)
      /\ List.length l
         = List.length
             (filter (fun b => Mongo.mem (principal_id p) (trainers b))
                     (batches s))
      /\ Sorted (fun a b => (startDate b <= startDate a)%Z) l.
Proof.
  intros p s Hrole. unfold TrainerBatches.trainerBatches. rewrite Hrole.
  cbn [role_eqb negb]. eexists. split; [reflexivity |].
  split; [| split].
  - intros b. rewrite in_sort_by, filter_In. reflexivity.
  - apply length_sort_by.
  - apply Sorted_by_Z_key
      with (key := startDate) (rel := fun x y => (y <= x)%Z)
           (le := fun a b => (startDate b <=? startDate a)%Z).
    + intros a b H. now apply Z.leb_le.
    + apply Sorted_sort_by. intros x y. rewrite !Z.leb_le. lia.
Qed.

Lemma trainer_batches_are_own_newest_first_witness :
  exists l,
    TrainerBatches.trainerBatches Campus.asha Staff.store = Success 200 l
    /\ Sorted (fun a b => (startDate b <= startDate a)%Z) l
    /\ List.length l = 2.
Proof.
  destruct (@trainer_batches_are_own_newest_first Campus.asha Staff.store eq_refl)
    as [l [Hrun [_ [Hlen Hsorted]]]].
  exists l. split; [exact Hrun |]. split; [exact Hsorted |].
  rewrite Hlen. reflexivity.
Defined.

Lemma role_eqb_true (a b : Role) : role_eqb a b = true -> a = b.
Proof. destruct a, b; simpl; congruence. Qed.

Lemma opt_eqb_true (o : option ObjectId) (x : ObjectId) :
  Mongo.opt_eqb o x = true -> o = Some x.
Proof.
  destruct o as [y |]; simpl; [| discriminate].
  intros H. apply Nat.eqb_eq in H. now subst.
Qed.

Lemma populatedInstructor_some (a : Assignment) (s : Store) (i : ObjectId) :
  TrainerDashboard.populatedInstructor a s = Some i ->
  exists c, In c (courses s) /\ course_id c = assignment_course a
            /\ instructor c = Some i.
Proof.
  unfold TrainerDashboard.populatedInstructor.
  destruct (find _ (courses s)) as [c |] eqn:E; [| discriminate].
  intros H. apply find_some in E. destruct E as [Hin Hid].
  apply Nat.eqb_eq in Hid. now exists c.
Qed.

(** X24: a trainer is served the assignments of a course, or the
    submissions of an assignment, only when a stored course with that id names
    the caller as instructor; the assignments served are exactly those of the
    course, ordered by dueDate, and the submissions served are those of the
    assignment asked for. *)
Theorem trainer_sees_only_work_of_own_courses :
  forall p s,
    (forall course l,
        TrainerDashboard.courseAssignments p course s = Success 200 l ->
        principal_role p = trainer
        /\ (exists c, In c (courses s) /\ course_id c = course
                      /\ instructor c = Some (principal_id p))
        /\ (forall a, In a l <->
                      In a (assignments s) /\ assignment_course a = course)
        /\ Sorted (fun a b => (dueDate a <= dueDate b)%Z) l)
    /\ (forall assignment l,
           TrainerDashboard.assignmentSubmissions p assignment s
           = Success 200 l ->
           principal_role p = trainer
           /\ exists a c,
               In a (assignments s) /\ assignment_id a = assignment
               /\ l = submissions a
               /\ In c (courses s) /\ course_id c = assignment_course a
               /\ instructor c = Some (principal_id p)).
Proof.
  intros p s. split.
  - intros course l. unfold TrainerDashboard.courseAssignments.
    destruct (role_eqb (principal_role p) trainer) eqn:Hrole;
      [| discriminate].
    apply role_eqb_true in Hrole. cbn [negb].
    destruct (find _ (courses s)) as [c |] eqn:Hc; [| discriminate].
    intros [= <-]. apply find_some in Hc. destruct Hc as [Hin Hc].
    apply andb_true_iff in Hc. destruct Hc as [Hid Hins].
    apply Nat.eqb_eq in Hid. apply opt_eqb_true in Hins.
    split; [exact Hrole |]. split; [now exists c |]. split.
    + intros a. rewrite in_sort_by, filter_In, Nat.eqb_eq, Hid. reflexivity.
    + apply Sorted_by_Z_key
        with (key := dueDate) (rel := fun x y => (x <= y)%Z)
             (le := fun a b => (dueDate a <=? dueDate b)%Z).
      * intros a b H. now apply Z.leb_le.
      * apply Sorted_sort_by. intros x y. rewrite !Z.leb_le. lia.
  - intros assignment l. unfold TrainerDashboard.assignmentSubmissions.
    destruct (role_eqb (principal_role p) trainer) eqn:Hrole;
      [| discriminate].
    apply role_eqb_true in Hrole. cbn [negb].
    destruct (find _ (assignments s)) as [a |] eqn:Ha; [| discriminate].
    destruct (TrainerDashboard.populatedInstructor a s) as [i |] eqn:Hi;
      [| discriminate].
    destruct (Nat.eqb i (principal_id p)) eqn:Hown; [| discriminate].
    cbn [negb]. intros [= <-].
    apply Nat.eqb_eq in Hown. subst i.
    apply find_some in Ha. destruct Ha as [Hin Hid]. apply Nat.eqb_eq in Hid.
    apply populatedInstructor_some in Hi. destruct Hi as [c [Hc1 [Hc2 Hc3]]].
    split; [exact Hrole |]. exists a, c. tauto.
Qed.

Lemma trainer_sees_only_work_of_own_courses_witness :
  (exists c, In c (courses Campus.store) /\ course_id c = 60
             /\ instructor c = Some 20)
  /\ (exists a, In a (assignments Campus.store) /\ assignment_id a = 70
                /\ submissions Campus.homework = submissions a).
Proof.
  destruct (@trainer_sees_only_work_of_own_courses Campus.asha Campus.store)
    as [Hassignments Hsubmissions].
  split.
  - destruct (Hassignments 60 [Campus.homework] eq_refl) as [_ [Hc _]].
    exact Hc.
  - destruct (Hsubmissions 70 (submissions Campus.homework) eq_refl)
      as [_ [a [c [Hin [Hid [Hl _]]]]]].
    exists a. tauto.
Defined.

Lemma trainerCourses_In (uid : ObjectId) (bf : option ObjectId) (s : Store)
      (c : Course) :
  In c (TrainerDashboard.trainerCourses uid bf s) <->
  In c (courses s) /\ instructor c = Some uid
  /\ (forall b, bf = Some b -> batchId c = Some b).
Proof.
  unfold TrainerDashboard.trainerCourses. rewrite filter_In, andb_true_iff.
  split.
  - intros [Hin [Hi Hb]]. apply opt_eqb_true in Hi.
    split; [exact Hin |]. split; [exact Hi |].
    intros b ->. now apply opt_eqb_true.
  - intros [Hin [Hi Hb]]. split; [exact Hin |]. split.
    + rewrite Hi. simpl. apply Nat.eqb_refl.
    + destruct bf as [b |]; [| reflexivity].
      rewrite (Hb b eq_refl). simpl. apply Nat.eqb_refl.
Qed.

Lemma mem_map_In {A} (f : A -> ObjectId) (x : ObjectId) (l : list A) :
  Mongo.mem x (map f l) = true -> exists a, In a l /\ f a = x.
Proof.
  unfold Mongo.mem. intros H. apply existsb_exists in H.
  destruct H as [y [Hy Hxy]]. apply Nat.eqb_eq in Hxy. subst y.
  apply in_map_iff in Hy. destruct Hy as [a [Ha Hin]]. now exists a.
Qed.

Lemma recentSubmissions_course (uid : ObjectId) (bf : option ObjectId)
      (ids : list ObjectId) (s : Store) (row : TrainerDashboard.SubmissionRow) :
  In row (TrainerDashboard.findRecentSubmissions uid bf ids s) ->
  exists a, In a (assignments s)
            /\ TrainerDashboard.firstMatch uid bf ids a = true
            /\ TrainerDashboard.courseId row = assignment_course a
            /\ TrainerDashboard.assignmentId row = assignment_id a.
Proof.
  unfold TrainerDashboard.findRecentSubmissions. cbv zeta.
  rewrite in_flat_map. intros [[[a c] sb] [Htop Hrow]].
  apply in_map_iff in Hrow. destruct Hrow as [u [<- _]].
  apply in_limit in Htop. apply in_sort_by in Htop.
  apply filter_In in Htop. destruct Htop as [Hun _].
  apply in_flat_map in Hun. destruct Hun as [[a' c'] [Hjoin Hsb]].
  apply in_map_iff in Hsb. destruct Hsb as [sb' [[= <- <- <-] _]].
  apply in_flat_map in Hjoin. destruct Hjoin as [a'' [Hmatched Hc]].
  apply in_map_iff in Hc. destruct Hc as [c'' [[= <- <-] Hc]].
  apply filter_In in Hc. destruct Hc as [_ Hid]. apply Nat.eqb_eq in Hid.
  apply filter_In in Hmatched. destruct Hmatched as [Hin Hfirst].
  exists a''. simpl. tauto.
Qed.

(** X25: a dashboard that is served lists exactly the courses the caller
    instructs (within the batch, when one is given, and then only if the
    caller is a trainer of that batch); the upcoming assignments are at most
    five, not yet due, ordered by dueDate and belong to those courses; with a
    batch filter every recent submission row points at one of those
    courses. *)
Theorem dashboard_shows_only_own_courses_and_due_work :
  forall p bf now s d,
    TrainerDashboard.dashboard p bf now s = Success 200 d ->
    principal_role p = trainer
    /\ (forall b, bf = Some b ->
          exists batch, In batch (batches s) /\ batch_id batch = b
                        /\ Mongo.mem (principal_id p) (trainers batch) = true)
    /\ (forall c n, In (c, n) (TrainerDashboard.db_courses d) <->
          In c (courses s) /\ instructor c = Some (principal_id p)
          /\ (forall b, bf = Some b -> batchId c = Some b)
          /\ n = List.length (course_students c))
    /\ List.length (TrainerDashboard.upcomingAssignments d) <= 5
    /\ Sorted (fun a b => (dueDate a <= dueDate b)%Z)
              (TrainerDashboard.upcomingAssignments d)
    /\ (forall a, In a (TrainerDashboard.upcomingAssignments d) ->
          In a (assignments s) /\ (now <= dueDate a)%Z
          /\ exists c, In c (courses s) /\ course_id c = assignment_course a
                       /\ instructor c = Some (principal_id p)
                       /\ (forall b, bf = Some b -> batchId c = Some b))
    /\ (forall b row, bf = Some b ->
          In row (TrainerDashboard.recentSubmissions d) ->
          exists c, In c (courses s)
                    /\ course_id c = TrainerDashboard.courseId row
                    /\ instructor c = Some (principal_id p)
                    /\ batchId c = Some b).
Proof.
  intros p bf now s d. unfold TrainerDashboard.dashboard.
  destruct (role_eqb (principal_role p) trainer) eqn:Hrole; [| discriminate].
  apply role_eqb_true in Hrole. cbn [negb]. cbv zeta.
  match goal with
  | |- (if negb ?a then _ else _) = _ -> _ => destruct a eqn:Hauth
  end; [| discriminate].
  cbn [negb]. intros Hd.
  assert (Hfields :
            TrainerDashboard.db_courses d
            = map (fun c => (c, List.length (course_students c)))
                  (TrainerDashboard.trainerCourses (principal_id p) bf s)
            /\ TrainerDashboard.upcomingAssignments d
               = TrainerDashboard.findUpcoming
                   (map course_id
                      (TrainerDashboard.trainerCourses (principal_id p) bf s))
                   now s
            /\ TrainerDashboard.recentSubmissions d
               = TrainerDashboard.findRecentSubmissions (principal_id p) bf
                   (map course_id
                      (TrainerDashboard.trainerCourses (principal_id p) bf s))
                   s).
  { destruct bf as [b |];
      [destruct (TrainerDashboard.enrolledStudentIds _ s); [| discriminate] |];
      injection Hd as <-; repeat split. }
  destruct Hfields as [-> [-> ->]]. clear Hd.
  split; [exact Hrole |]. split; [| split; [| split; [| split; [| split]]]].
  - intros b ->. unfold TrainerDashboard.is_some in Hauth.
    destruct (TrainerDashboard.findTrainerBatch (principal_id p) b s)
      as [batch |] eqn:Hb; [| discriminate].
    unfold TrainerDashboard.findTrainerBatch in Hb.
    apply find_some in Hb. destruct Hb as [Hin Hb].
    apply andb_true_iff in Hb. destruct Hb as [Hid Hmem].
    apply Nat.eqb_eq in Hid. now exists batch.
  - intros c n. rewrite in_map_iff. split.
    + intros [c' [[= <- <-] Hin]]. apply trainerCourses_In in Hin. tauto.
    + intros [Hin [Hi [Hb ->]]]. exists c. split; [reflexivity |].
      apply trainerCourses_In. tauto.
  - apply upcomingAssignments_at_most_five.
  - apply upcomingAssignments_sorted.
  - intros a Ha. apply upcomingAssignments_are_due in Ha.
    destruct Ha as [Hin [Hdue Hmem]]. split; [exact Hin |].
    split; [exact Hdue |].
    apply mem_map_In in Hmem. destruct Hmem as [c [Hc Hid]].
    apply trainerCourses_In in Hc. exists c. tauto.
  - intros b row -> Hrow. apply recentSubmissions_course in Hrow.
    destruct Hrow as [a [_ [Hfirst [Hcourse _]]]].
    unfold TrainerDashboard.firstMatch in Hfirst.
    apply mem_map_In in Hfirst. destruct Hfirst as [c [Hc Hid]].
    apply trainerCourses_In in Hc. destruct Hc as [Hin [Hi Hb]].
    exists c. rewrite Hcourse. auto.
Qed.

Lemma dashboard_shows_only_own_courses_and_due_work_witness :
  exists d,
    TrainerDashboard.dashboard Campus.asha (Some 50) 1700000000000%Z
      Campus.store = Success 200 d
    /\ TrainerDashboard.upcomingAssignments d = [Campus.homework]
    /\ exists batch, In batch (batches Campus.store) /\ batch_id batch = 50
                     /\ Mongo.mem 20 (trainers batch) = true.
Proof.
  eexists. split; [vm_compute; reflexivity |].
  split; [reflexivity |].
  match goal with
  | |- context [batch_id _ = ?b] =>
      destruct (@dashboard_shows_only_own_courses_and_due_work
                  Campus.asha (Some b) 1700000000000%Z Campus.store _ eq_refl)
        as [_ [Hbatch _]]
  end.
  exact (Hbatch 50 eq_refl).
Defined.

Lemma in_update_first_hit {A} (p : A -> bool) (f : A -> A) (l : list A) (x : A) :
  find p l = Some x -> In (f x) (update_first p f l).
Proof.
  induction l as [| a t IH]; simpl; [discriminate |].
  destruct (p a) eqn:Ha.
  - intros [= ->]. now left.
  - intros H. right. now apply IH.
Qed.

(** X26: when the instructor of the course sends valid feedback for a
    stored submission, the answer carries that submission with status graded
    and the grade and feedback of the request; the stored assignment then
    holds it, its other submissions and every other assignment stay what they
    were, and no other collection changes. *)
Theorem feedback_grades_one_submission :
  forall p sid req s a,
    principal_role p = trainer ->
    TrainerDashboard.fb_valid req = true ->
    find (fun a => existsb (fun sb => Nat.eqb (sub_id sb) sid) (submissions a))
         (assignments s) = Some a ->
    TrainerDashboard.populatedInstructor a s = Some (principal_id p) ->
    exists sb a' s',
      find (fun sb => Nat.eqb (sub_id sb) sid) (submissions a) = Some sb
      /\ TrainerDashboard.submitFeedback p sid req s
         = (Success 200 (Some (TrainerDashboard.grade_submission req sb)), s')
      /\ In a' (assignments s')
      /\ assignment_id a' = assignment_id a
      /\ find (fun sb => Nat.eqb (sub_id sb) sid) (submissions a')
         = Some (TrainerDashboard.grade_submission req sb)
      /\ List.length (submissions a') = List.length (submissions a)
      /\ (forall x, In x (submissions a') -> sub_id x <> sid ->
                    In x (submissions a))
      /\ List.length (assignments s') = List.length (assignments s)
      /\ (forall x, In x (assignments s') ->
                    assignment_id x <> assignment_id a ->
                    In x (assignments s))
      /\ users s' = users s /\ students s' = students s
      /\ batches s' = batches s /\ courses s' = courses s
      /\ attendances s' = attendances s /\ reports s' = reports s.
Proof.
  intros p sid req s a Hrole Hvalid Ha Hi.
  pose proof (find_some _ _ Ha) as [Hin Hhas].
  destruct (find (fun sb => Nat.eqb (sub_id sb) sid) (submissions a))
    as [sb |] eqn:Hsb;
    [| apply find_none_iff in Hsb; congruence].
  assert (Hhit : find (fun x => Nat.eqb (assignment_id x) (assignment_id a))
                      (assignments s) <> None).
  { intros Hnone.
    apply (find_none _ _ Hnone) in Hin. now rewrite Nat.eqb_refl in Hin. }
  destruct (find (fun x => Nat.eqb (assignment_id x) (assignment_id a))
                 (assignments s)) as [a0 |] eqn:Ha0; [| congruence].
  exists sb. eexists. eexists.
  split; [reflexivity |].
  unfold TrainerDashboard.submitFeedback.
  rewrite Hrole, Hvalid, Ha, Hi, Nat.eqb_refl. cbn [role_eqb negb]. cbv zeta.
  assert (Hfound :
            find (fun sb0 => Nat.eqb (sub_id sb0) sid)
                 (update_first (fun sb0 => Nat.eqb (sub_id sb0) sid)
                    (TrainerDashboard.grade_submission req) (submissions a))
            = Some (TrainerDashboard.grade_submission req sb)).
  { apply find_update_first; [reflexivity | exact Hsb |].
    apply find_some in Hsb. exact (proj2 Hsb). }
  split; [cbn [submissions set_submissions]; rewrite Hfound; reflexivity |].
  cbn [assignments set_assignments users students batches courses attendances
       reports].
  split.
  { match goal with
    | |- In ?a' (update_first ?q ?f _) =>
        exact (@in_update_first_hit _ q f _ a0 Ha0)
    end. }
  split; [reflexivity |].
  cbn [submissions set_submissions].
  split; [exact Hfound |].
  split; [apply length_update_first |].
  split.
  { intros x Hx Hne.
    apply in_update_first_other in Hx; [exact Hx | |].
    - intros y Hy. exact Hy.
    - now apply Nat.eqb_neq. }
  split; [apply length_update_first |].
  split.
  { intros x Hx Hne.
    apply in_update_first_other in Hx; [exact Hx | |].
    - intros y Hy. cbn [assignment_id set_submissions]. apply Nat.eqb_refl.
    - now apply Nat.eqb_neq. }
  repeat split.
Qed.

Lemma feedback_grades_one_submission_witness :
  exists sb,
    fst (TrainerDashboard.submitFeedback Campus.asha 700
           (TrainerDashboard.mkFeedbackRequest true (Some 9%Q) "Well done")
           Campus.store) = Success 200 (Some sb)
    /\ sub_status sb = sub_graded /\ grade sb = Some 9%Q.
Proof.
  destruct (@feedback_grades_one_submission Campus.asha 700
              (TrainerDashboard.mkFeedbackRequest true (Some 9%Q) "Well done")
              Campus.store Campus.homework eq_refl eq_refl eq_refl eq_refl)
    as [sb [a' [s' [Hsb [Hrun _]]]]].
  injection Hsb as <-.
  eexists. rewrite Hrun. split; [reflexivity |]. split; reflexivity.
Defined.

Lemma find_username_after_role (name : string) (user' : User) (uid : ObjectId)
      (l : list User) (user : User) :
  username user' = name ->
  find (fun u => String.eqb (username u) name) l = Some user ->
  user_id user = uid ->
  find (fun u => String.eqb (username u) name)
       (update_first (fun u => Nat.eqb (user_id u) uid) (fun _ => user') l)
  = Some user'.
Proof.
  intros Hname. induction l as [| x t IH]; simpl; [discriminate |].
  destruct (String.eqb (username x) name) eqn:Hx.
  - intros [= ->] <-. rewrite Nat.eqb_refl. simpl.
    now rewrite Hname, String.eqb_refl.
  - intros Hfind Hid. destruct (Nat.eqb (user_id x) uid); simpl.
    + now rewrite Hname, String.eqb_refl.
    + rewrite Hx. now apply IH.
Qed.

(** X27: the role script either exits with code 1 and leaves the store as
    it was, or exits with code 0; in that case the role is one of the five
    valid names, the user found by that username now carries it with all other
    fields kept, every user with another id is unchanged, and no other
    collection changes. *)
Theorem updateRole_changes_the_role_and_nothing_else :
  forall (saveOk : User -> bool) name newRole s code s',
    UpdateUserRole.updateRole saveOk name newRole s = (code, s') ->
    (code = 1 /\ s' = s)
    \/ (code = 0
        /\ exists r user,
            role_name r = newRole
            /\ find (fun u => String.eqb (username u) name) (users s)
               = Some user
            /\ find (fun u => String.eqb (username u) name) (users s')
               = Some (UpdateUserRole.set_role r user)
            /\ List.length (users s') = List.length (users s)
            /\ (forall u, In u (users s') -> user_id u <> user_id user ->
                          In u (users s))
            /\ students s' = students s /\ batches s' = batches s
            /\ courses s' = courses s /\ assignments s' = assignments s
            /\ attendances s' = attendances s /\ reports s' = reports s).
Proof.
  intros saveOk name newRole s code s'. unfold UpdateUserRole.updateRole.
  destruct (UpdateUserRole.parse_role newRole) as [r |] eqn:Hr;
    [| intros [= <- <-]; now left].
  destruct (find (fun u => String.eqb (username u) name) (users s))
    as [user |] eqn:Hu; [| intros [= <- <-]; now left].
  cbv zeta.
  destruct (saveOk (UpdateUserRole.set_role r user));
    [| intros [= <- <-]; now left].
  intros [= <- <-]. right. split; [reflexivity |].
  exists r, user.
  unfold UpdateUserRole.parse_role in Hr. apply find_some in Hr.
  destruct Hr as [_ Hr]. apply String.eqb_eq in Hr.
  split; [exact Hr |]. split; [reflexivity |].
  cbn [users set_users students batches courses assignments attendances reports].
  split.
  { apply find_username_after_role with (user := user);
      [| exact Hu | reflexivity].
    apply find_some in Hu. destruct Hu as [_ Hu].
    apply String.eqb_eq in Hu. exact Hu. }
  split; [apply length_update_first |].
  split.
  { intros u Hin Hne.
    apply in_update_first_other in Hin; [exact Hin | |].
    - intros y _. cbn [user_id UpdateUserRole.set_role]. apply Nat.eqb_refl.
    - now apply Nat.eqb_neq. }
  repeat split.
Qed.

Lemma updateRole_changes_the_role_and_nothing_else_witness :
  exists user,
    find (fun u => String.eqb (username u) "ben")
         (users (snd (UpdateUserRole.updateRole Staff.any_user "ben" "admin"
                        Campus.store))) = Some user
    /\ role user = admin.
Proof.
  destruct (@updateRole_changes_the_role_and_nothing_else
              Staff.any_user "ben" "admin" Campus.store _ _ eq_refl)
    as [[Hcode _] | [_ [r [user [Hr [Hu [Hu' _]]]]]]].
  - discriminate Hcode.
  - eexists. split; [exact Hu' |].
    injection Hu as <-.
    destruct r; try discriminate Hr. reflexivity.
Defined.

Lemma Qceiling_quotient (d lim : Z) :
  (0 < lim)%Z ->
  Qceiling (inject_Z d / inject_Z lim)%Q = (- ((- d) / lim))%Z.
Proof.
  intros H. destruct lim as [| l | l]; try lia.
  unfold Qceiling, Qfloor, Qdiv, Qmult, Qinv, Qopp, inject_Z. simpl.
  now rewrite Z.mul_1_r.
Qed.

Lemma Sorted_skip {A} (R : A -> A -> Prop) (n : nat) (l : list A) :
  Sorted R l -> Sorted R (Mongo.skip n l).
Proof.
  unfold Mongo.skip. revert l.
  induction n as [| n IH]; intros l H; simpl; [exact H |].
  destruct l as [| a t]; [constructor |].
  apply IH. now inversion H.
Qed.

Lemma Sorted_map_key {A B} (f : A -> B) (R : A -> A -> Prop)
      (R' : B -> B -> Prop) (l : list A) :
  (forall a b, R a b -> R' (f a) (f b)) ->
  Sorted R l -> Sorted R' (map f l).
Proof.
  intros HR. induction 1 as [| a t Ht IH Ha]; simpl; constructor;
    [exact IH |].
  destruct Ha as [| b t' Hab]; simpl; constructor. now apply HR.
Qed.

(** X28: a user listing that is served went to an admin; its limit is never
    0; the page holds at most |limit| rows and at most total rows, total
    counts only stored users, the rows are ordered by createdAt from the newest
    to the oldest, and for a positive limit pages is the ceiling of
    total / limit. *)
Theorem listing_page_is_a_window_newest_first :
  forall RegExp p q s pg,
    AdminUserManagement.listUsers RegExp p q s = Success 200 pg ->
    principal_role p = admin
    /\ AdminUserManagement.limit pg <> 0%Z
    /\ List.length (AdminUserManagement.page_users pg)
       <= Z.to_nat (Z.abs (AdminUserManagement.limit pg))
    /\ List.length (AdminUserManagement.page_users pg)
       <= AdminUserManagement.total pg
    /\ AdminUserManagement.total pg <= List.length (users s)
    /\ Sorted (fun a b =>
                 (createdAt (AdminUserManagement.row_user b)
                  <= createdAt (AdminUserManagement.row_user a))%Z)
              (AdminUserManagement.page_users pg)
    /\ ((0 < AdminUserManagement.limit pg)%Z ->
        ((AdminUserManagement.pages pg - 1) * AdminUserManagement.limit pg
         < Z.of_nat (AdminUserManagement.total pg)
         <= AdminUserManagement.pages pg * AdminUserManagement.limit pg)%Z).
Proof.
  intros RegExp p q s pg. unfold AdminUserManagement.listUsers.
  destruct (role_eqb (principal_role p) admin) eqn:Hrole; [| discriminate].
  apply role_eqb_true in Hrole. cbn [negb]. cbv zeta.
  destruct (match AdminUserManagement.f_search (AdminUserManagement.buildFilter q) with
            | Some pat => option_map Some (RegExp pat)
            | None => Some None
            end) as [test |]; [| discriminate].
  destruct ((AdminUserManagement.int_or (AdminUserManagement.q_page q) 1 - 1)
            * AdminUserManagement.int_or (AdminUserManagement.q_limit q) 20 <? 0)%Z;
    [discriminate |].
  intros [= <-].
  cbn [AdminUserManagement.page_users AdminUserManagement.total
       AdminUserManagement.limit AdminUserManagement.pages].
  set (lim := AdminUserManagement.int_or (AdminUserManagement.q_limit q) 20).
  set (found := filter _ (users s)).
  split; [exact Hrole |]. split; [| split; [| split; [| split; [| split]]]].
  - unfold lim, AdminUserManagement.int_or.
    destruct (AdminUserManagement.q_limit q) as [v |]; [| discriminate].
    destruct (v =? 0)%Z eqn:E; [discriminate | now apply Z.eqb_neq].
  - rewrite length_map. apply length_limit.
  - rewrite length_map. unfold Mongo.limit, Mongo.skip.
    rewrite length_firstn, length_skipn, length_sort_by. lia.
  - apply filter_length_le.
  - apply Sorted_map_key
      with (R := fun a b => (createdAt b <=? createdAt a)%Z = true).
    + intros a b H. rewrite !populate_row_user. now apply Z.leb_le.
    + apply Sorted_limit, Sorted_skip, Sorted_sort_by.
      intros x y. rewrite !Z.leb_le. lia.
  - intros Hpos. rewrite (Qceiling_quotient _ Hpos).
    pose proof (Z.div_mod (- Z.of_nat (List.length found)) lim) as Hdm.
    pose proof (Z.mod_pos_bound (- Z.of_nat (List.length found)) lim Hpos) as Hb.
    nia.
Qed.

Lemma listing_page_is_a_window_newest_first_witness :
  exists pg,
    AdminUserManagement.listUsers Campus.no_regexp Campus.registrar
      (AdminUserManagement.mkListQuery (Some 1%Z) (Some 3%Z) None None None)
      Campus.store = Success 200 pg
    /\ List.length (AdminUserManagement.page_users pg) <= 3
    /\ (AdminUserManagement.pages pg = 2)%Z.
Proof.
  eexists. split; [vm_compute; reflexivity |].
  match goal with
  | |- List.length (AdminUserManagement.page_users ?pg) <= _ /\ _ =>
      destruct (@listing_page_is_a_window_newest_first Campus.no_regexp
                  Campus.registrar
                  (AdminUserManagement.mkListQuery (Some 1%Z) (Some 3%Z) None
                                                   None None)
                  Campus.store pg eq_refl) as [_ [_ [Hlen _]]]
  end.
  split; [exact Hlen | reflexivity].
Defined.

Lemma status_after_save now loaded c valid id (r r0 r' : Report) (s : Store) :
  Reports.findReport id s = Some r0 ->
  report_id r = id ->
  Reports.findReport id
    (Frame.after_save (Reports.save now loaded c valid r s) s) = Some r' ->
  report_status r' = report_status r \/ report_status r' = report_status r0.
Proof.
  intros Hfind Hid. destruct valid.
  - destruct (Reports.save now loaded c true r s) as [[r1 s1] |] eqn:Hsave;
      [| discriminate Hsave].
    simpl. rewrite (findReport_after_save Hfind Hid Hsave).
    intros [= <-]. left. rewrite (save_result Hsave).
    apply report_status_pre_save.
  - simpl. rewrite Hfind. intros [= <-]. now right.
Qed.

Lemma trainer_status_not_draft (v : option string) (st : ReportStatus) :
  Reports.parse_status Reports.trainer_allowed v = Some st -> st <> draft.
Proof.
  intros H. apply parse_status_allowed in H. simpl in H.
  intros ->. intuition discriminate.
Qed.

(** X29: no report handler (status update or comment, on either router)
    ever moves a report back to draft: a report that is not a draft before the
    request is not a draft after it, whatever the request and its outcome. *)
Theorem report_never_returns_to_draft :
  forall p id now s sreq creq r s' r',
    Reports.findReport id s = Some r ->
    (s' = snd (Reports.updateStatus p id sreq now s)
     \/ s' = snd (Reports.trainerUpdateStatus p id sreq now s)
     \/ s' = snd (Reports.addComment p id creq now s)
     \/ s' = snd (Reports.trainerAddComment p id creq now s)) ->
    Reports.findReport id s' = Some r' ->
    report_status r <> draft ->
    report_status r' <> draft.
Proof.
  intros p id now s sreq creq r s' r' Hfind Hs' Hfind' Hnot Hdraft.
  apply Hnot. clear Hnot.
  pose proof (findReport_some_id _ _ Hfind) as Hid.
  revert Hfind'.
  destruct Hs' as [-> | [-> | [-> | ->]]];
    unfold Reports.updateStatus, Reports.trainerUpdateStatus,
      Reports.addComment, Reports.trainerAddComment;
    walk_snd; cbn [snd]; try discriminate;
    try match goal with
        | H : Some ?x = Some r |- _ => injection H as ->
        end;
    try (match goal with
         | H : Reports.findReport id s = Some _
           |- Reports.findReport id s = Some _ -> _ =>
             rewrite H; intros [= <-]; exact Hdraft
         end);
    rewrite ?snd_apply_status, ?snd_apply_comment;
    intros Hfind';
    match goal with
    | H : Reports.findReport id s = Some r |- _ =>
        eapply status_after_save in Hfind'; [| exact H |]
    end;
    try (match goal with
         | |- report_id (if ?b then _ else _) = _ => destruct b
         end; simpl; exact Hid);
    try (simpl; exact Hid);
    (destruct Hfind' as [Hnew | Hold]; [| congruence]);
    rewrite Hdraft in Hnew;
    try match goal with
        | H : Reports.parse_status Reports.reports_allowed _ = Some _ |- _ =>
            apply allowed_status_not_draft in H
        | H : Reports.parse_status Reports.trainer_allowed _ = Some _ |- _ =>
            apply trainer_status_not_draft in H
        end;
    try (simpl in Hnew; congruence);
    match type of Hnew with
    | context [if ?b then _ else _] => destruct b eqn:Hadv
    end; simpl in Hnew; congruence.
Qed.

Lemma report_never_returns_to_draft_witness :
  exists r',
    Reports.findReport 81
      (snd (Reports.updateStatus Campus.registrar 81
              (Reports.mkStatusRequest (Some "needs_revision") None)
              1720000000000%Z Campus.store)) = Some r'
    /\ report_status r' <> draft.
Proof.
  eexists. split; [vm_compute; reflexivity |].
  eapply (@report_never_returns_to_draft Campus.registrar 81 1720000000000%Z
            Campus.store
            (Reports.mkStatusRequest (Some "needs_revision") None)
            (Reports.mkCommentRequest true "") Campus.essay);
    [reflexivity | left; reflexivity | vm_compute; reflexivity
     | discriminate].
Defined.
